(** * OPLPS: aging classifier and optimistic reconciliation

    A shallow embedding of the client logic of the OPLPS inventory
    dashboard: the overdue ("aging") classifier of the notification list
    and of the sidebar badge, the issue-out / damage modals, and the two
    table components that mirror a confirmed mutation in their local
    collections, with the filters of their views; the menu and the badge
    of the sidebar; and the cards of the dashboard.

    Conventions of the embedding.
    - A JavaScript time value is an integer number of milliseconds since
      the epoch ([Z]); [NaN] time values are [None].
    - A JavaScript [number] that is used as a quantity is a rational
      ([Q]), or [NaN]; on integers the arithmetic used here (comparison
      and subtraction) is exact.
    - A JavaScript string is the string of its bytes in UTF-8. The
      String methods written out here compare bytes, which on the ASCII
      patterns of the sources is what the methods do on code units; the
      two methods that follow Unicode's tables, [trim] and [toLowerCase],
      are the engine's.
    - [null] and [undefined] fields are [None], except where the sources
      tell them apart ([Member]).
    - A function that can throw returns a [completion]; a component's
      [useState] cells are the fields of a record, and a handler is a
      function from the state before to the state after. An [async]
      handler is one such function, from its call to its settling; the
      state it leaves while its request is awaited has a name of its own
      ([actionPending]).
    - A form is submitted through its submit button and the browser's
      constraint validation ([requestSubmit]); [handleSubmit] runs on
      what they let through. *)

From Stdlib Require Import ZArith QArith Qminmax Lia Lqa Bool List String Ascii.
From Stdlib Require Import DecimalString.
Import ListNotations.

Local Open Scope string_scope.
Local Open Scope Z_scope.

(** ** Completions: the outcome of a call that may throw *)

Inductive completion (A : Type) : Type :=
| Normal (a : A)
| Throw (message : string).

Arguments Normal {A} a.
Arguments Throw {A} message.

Definition bindC {A B : Type} (c : completion A) (k : A -> completion B)
  : completion B :=
  match c with
  | Normal a => k a
  | Throw m => Throw m
  end.

(** [try { body } catch (e) { handler e }] *)
Definition tryCatch {A : Type} (body : completion A)
  (handler : string -> completion A) : completion A :=
  match body with
  | Normal a => Normal a
  | Throw m => handler m
  end.

Notation "'do' x <- c ; k" := (bindC c (fun x => k))
  (at level 10, x name, c at level 100, k at level 200).

(** ** The String methods the sources call *)

Module JsString.

(** [s.startsWith(p)] *)
Definition startsWith (s p : string) : bool := String.prefix p s.

(** [s.includes(p)] *)
Fixpoint includes (s p : string) : bool :=
  String.prefix p s ||
  match s with
  | EmptyString => false
  | String _ s' => includes s' p
  end.

(** [s.endsWith(p)] *)
Definition endsWith (s p : string) : bool :=
  let n := String.length s in
  let m := String.length p in
  (m <=? n)%nat && String.eqb (String.substring (n - m) m s) p.

Fixpoint drop (n : nat) (s : string) : string :=
  match n, s with
  | O, _ => s
  | S n', String _ s' => drop n' s'
  | S _, EmptyString => EmptyString
  end.

(** [s.replace(p, r)] with a string pattern: only the first occurrence
    of [p] is replaced. *)
Fixpoint replace (s p r : string) : string :=
  if String.prefix p s then r ++ drop (String.length p) s
  else match s with
       | EmptyString => EmptyString
       | String c s' => String c (replace s' p r)
       end.

(** Truthiness of a string: only the empty string is falsy. *)
Definition truthy (s : string) : bool :=
  match s with EmptyString => false | _ => true end.

(** [a || b] on strings *)
Definition orElse (a b : string) : string := if truthy a then a else b.

(** [s.padStart(n, "0")] *)
Definition padStart0 (n : nat) (s : string) : string :=
  let fix zeros (k : nat) : string :=
    match k with O => EmptyString | S k' => String "0" (zeros k') end in
  zeros (n - String.length s)%nat ++ s.

End JsString.

(** ** Numbers *)

Inductive JsNumber : Type :=
| NaN
| Num (q : Q).

(** [a > b] and [a <= b] on finite numbers *)
Definition Qgtb (a b : Q) : bool := negb (Qle_bool a b).

(** [isNaN(x) || x <= 0], the modals' first test *)
Definition notPositive (x : JsNumber) : bool :=
  match x with
  | NaN => true
  | Num q => Qle_bool q 0
  end.

(** [x || 0] on a number: [NaN] and [0] are falsy. *)
Definition numberOrZero (x : JsNumber) : Q :=
  match x with
  | NaN => 0%Q
  | Num q => q
  end.

(** ** Dates: the part of ECMAScript's Date the sources use *)

Module JsDate.

Definition msPerDay : Z := 1000 * 60 * 60 * 24.

(** [Day(t)], the day number of a time value *)
Definition Day (t : Z) : Z := t / msPerDay.

(** The civil date (year, month 1..12, day of month) of a day number,
    in the proleptic Gregorian calendar; 400-year eras of 146097 days
    that begin on 1 March. *)
Definition civilFromDays (z : Z) : Z * Z * Z :=
  let z' := z + 719468 in
  let era := z' / 146097 in
  let doe := z' mod 146097 in
  let yoe := (doe - doe / 1460 + doe / 36524 - doe / 146096) / 365 in
  let doy := doe - (365 * yoe + yoe / 4 - yoe / 100) in
  let mp := (5 * doy + 2) / 153 in
  let d := doy - (153 * mp + 2) / 5 + 1 in
  let m := if mp <? 10 then mp + 3 else mp - 9 in
  let y := yoe + era * 400 in
  (if m <=? 2 then y + 1 else y, m, d).

(** The day number of a civil date. *)
Definition daysFromCivil (y m d : Z) : Z :=
  let y' := if m <=? 2 then y - 1 else y in
  let era := y' / 400 in
  let yoe := y' mod 400 in
  let mp := if 2 <? m then m - 3 else m + 9 in
  let doy := (153 * mp + 2) / 5 + d - 1 in
  let doe := yoe * 365 + yoe / 4 - yoe / 100 + doy in
  era * 146097 + doe - 719468.

(** [date.getUTCFullYear()], [date.getUTCMonth()] (0..11),
    [date.getUTCDate()] of a valid date with time value [t] *)
Definition getUTCFullYear (t : Z) : Z := fst (fst (civilFromDays (Day t))).
Definition getUTCMonth (t : Z) : Z := snd (fst (civilFromDays (Day t))) - 1.
Definition getUTCDate (t : Z) : Z := snd (civilFromDays (Day t)).

(** [MakeDay(year, month, date)] for integral arguments *)
Definition MakeDay (year month date : Z) : Z :=
  let ym := year + month / 12 in
  let mn := month mod 12 in
  daysFromCivil ym (mn + 1) 1 + date - 1.

(** [Date.UTC(year, month, date)]: a year from 0 to 99 stands for
    1900 + year. The final TimeClip is the identity on the days of valid
    time values and is left out. *)
Definition UTC (year month date : Z) : Z :=
  let yr := if (0 <=? year) && (year <=? 99) then 1900 + year else year in
  MakeDay yr month date * msPerDay.

(** Local time, in a zone that lies [timezoneOffset] minutes behind UTC
    all year ([timezoneOffset] is the value of [getTimezoneOffset()]). *)
Definition localTime (timezoneOffset t : Z) : Z := t - timezoneOffset * 60000.

(** [date.getFullYear()], [date.getMonth()], [date.getDate()] *)
Definition getFullYear (timezoneOffset t : Z) : Z :=
  getUTCFullYear (localTime timezoneOffset t).
Definition getMonth (timezoneOffset t : Z) : Z :=
  getUTCMonth (localTime timezoneOffset t).
Definition getDate (timezoneOffset t : Z) : Z :=
  getUTCDate (localTime timezoneOffset t).

(** The time value of [new Date(year, month, date, hours, minutes,
    seconds, ms)]: the parts are local time, and a year from 0 to 99
    stands for 1900 + year. *)
Definition fromLocalParts (timezoneOffset year month date hours minutes
  seconds ms : Z) : Z :=
  let yr := if (0 <=? year) && (year <=? 99) then 1900 + year else year in
  MakeDay yr month date * msPerDay
  + (hours * 3600000 + minutes * 60000 + seconds * 1000 + ms)
  + timezoneOffset * 60000.

End JsDate.

(** ** The engine: what the JavaScript runtime decides

    [new Date(s)] on a string and [Number(s)] follow the runtime's
    parsers, template literals print numbers with its printer, and
    [trim] and [toLowerCase] follow its Unicode tables. The model takes
    them as an interface; the results about the classifier and the
    handlers hold for every engine. *)

Class JsEngine : Type := {
  (** the time value of [new Date(s)]; [None] is an Invalid Date *)
  newDate : string -> completion (option Z);
  (** [Number(s)] on a string *)
  toNumber : string -> JsNumber;
  (** [`${x}`] on a finite number *)
  numberToString : Q -> string;
  (** [s.trim()]: the string without the white space and the line
      terminators of Unicode at its two ends *)
  trim : string -> string;
  (** [s.toLowerCase()], by the case mapping of Unicode *)
  toLowerCase : string -> string
}.

(** ** Aging buckets *)

Inductive NotificationStatus : Type := ok | gt14 | gt30 | gt90.

(** The severity order ok < gt14 < gt30 < gt90. *)
Definition severity (b : NotificationStatus) : Z :=
  match b with
  | ok => 0
  | gt14 => 1
  | gt30 => 2
  | gt90 => 3
  end.

Definition NotificationStatus_eqb (a b : NotificationStatus) : bool :=
  severity a =? severity b.

(** The threshold cascade shared, textually, by both classifiers:
    [if (diffDays > 90) ... else if (diffDays > 30) ... else if
    (diffDays >= 14) ...]. *)
Definition statusOfDiffDays (diffDays : Z) : NotificationStatus :=
  if 90 <? diffDays then gt90
  else if 30 <? diffDays then gt30
  else if 14 <=? diffDays then gt14
  else ok.

(** [Date.UTC(d.getUTCFullYear(), d.getUTCMonth(), d.getUTCDate())] *)
Definition utcStart (t : Z) : Z :=
  JsDate.UTC (JsDate.getUTCFullYear t) (JsDate.getUTCMonth t)
    (JsDate.getUTCDate t).

Arguments utcStart : simpl never.

(** ** The remote API as the client sees it *)

Inductive Endpoint : Type :=
| PARTS_API_URL
| ISSUE_API_URL
| DAMAGE_API_URL
| GET_DASHBOARD_API_URL.

(** A field typed [number | string]. *)
Inductive NumberOrString : Type :=
| AsNumber (n : JsNumber)
| AsString (s : string).

(** [Number(x)] on such a field *)
Definition Number {engine : JsEngine} (x : NumberOrString) : JsNumber :=
  match x with
  | AsNumber n => n
  | AsString s => toNumber s
  end.

(** A member of a JSON object where the sources tell [undefined] (the
    member is absent) from [null]. *)
Inductive Member (A : Type) : Type :=
| Absent
| IsNull
| Present (a : A).

Arguments Absent {A}.
Arguments IsNull {A}.
Arguments Present {A} a.

(** [x ?? null] *)
Definition orNull {A : Type} (x : Member A) : option A :=
  match x with
  | Present a => Some a
  | Absent | IsNull => None
  end.

(** [x !== null]: an absent member is not [null]. *)
Definition notNull {A : Type} (x : Member A) : bool :=
  match x with
  | IsNull => false
  | Absent | Present _ => true
  end.

(** [interface ApiListItem], declared alike in NotificationList.tsx,
    ListPartIem.tsx and AuthPageLayout.tsx. The server may send [null]
    for a date. [approved_by_user] is read with [?? null] by the tables
    and with [!== null] by the sidebar, so the response's own value is
    kept. *)
Module Api.
Record ListItem : Type := {
  part_id : string;
  part_number : string;
  quantity : NumberOrString;
  type_description : string;
  status_description : string;
  updated_on : option string;
  created_by_user : option string;
  approved_by_user : Member string;
  approved_on : option string;
  type : option string;
  status : option string;
  created_on : option string
}.
End Api.

Module Http.

(** The [items] member of a response body: an array, [null], absent,
    or some other value (whose [length] is or is not [0]). *)
Inductive Items : Type :=
| ItemsArray (l : list Api.ListItem)
| ItemsNull
| ItemsUndefined
| ItemsOther (lengthIsZero : bool).

Record JsonObject : Type := {
  status : option string;
  message : option string;
  items : Items
}.

(** What [response.json()] resolves to. Reading a member of [null]
    throws a TypeError. *)
Inductive Json : Type :=
| JsonNull
| JsonObj (o : JsonObject).

Definition member {A : Type} (f : JsonObject -> A) (j : Json) : completion A :=
  match j with
  | JsonNull => Throw "Cannot read properties of null"
  | JsonObj o => Normal (f o)
  end.

(** The empty object [{}]. *)
Definition emptyObject : Json :=
  JsonObj {| status := None; message := None; items := ItemsUndefined |}.

Record Response (B : Type) : Type := {
  ok : bool;
  httpStatus : Z;
  statusText : string;
  contentType : option string;
  json : completion B
}.
Arguments ok {B} _.
Arguments httpStatus {B} _.
Arguments statusText {B} _.
Arguments contentType {B} _.
Arguments json {B} _.

(** The body of a POST. *)
Inductive Body : Type :=
| NoBody
| IssueOutBody (part_id : string) (quantity_issued : Q)
    (remarks : option string)
| DamageBody (part_id : string) (quantity_damaged : Q) (remarks : string).

Record Request : Type := {
  url : Endpoint;
  method : string;
  body : Body
}.

(** The server: the outcome of [fetch] for a request; [Throw] is a
    rejected promise (transport failure). *)
Definition Server : Type := Request -> completion (Response Json).

End Http.

(** [a || b] where [a] may be absent: absent and empty are falsy. *)
Definition optOrElse (a : option string) (b : string) : string :=
  match a with
  | Some s => JsString.orElse s b
  | None => b
  end.

(** [x === "success"] *)
Definition isSuccess (x : option string) : bool :=
  match x with
  | Some s => String.eqb s "success"
  | None => false
  end.

(** What lies outside the components: the requests sent so far, the
    refresh counter of NotificationRefreshContext, and the [user_id] entry
    of sessionStorage. *)
Record World : Type := {
  requests : list Http.Request;
  refreshKey : Z;
  sessionUserId : option string
}.

(** [await fetch(url, ...)]: the request is sent, the server answers. *)
Definition fetch (server : Http.Server) (r : Http.Request) (w : World)
  : completion (Http.Response Http.Json) * World :=
  (server r,
   {| requests := requests w ++ [r];
      refreshKey := refreshKey w;
      sessionUserId := sessionUserId w |}).

(** [triggerRefresh()] *)
Definition triggerRefresh (w : World) : World :=
  {| requests := requests w;
     refreshKey := refreshKey w + 1;
     sessionUserId := sessionUserId w |}.

(** ** Rows of a local collection

    [NotificationItem] and [ListItem] share what the reconciliation reads
    and writes: [id], [quantity], [approvedBy], and the copy
    [{ ...item, quantity: q }]. *)

Class PartRow (A : Type) : Type := {
  rowId : A -> string;
  rowQuantity : A -> Q;
  rowApprovedBy : A -> option string;
  withQuantity : A -> Q -> A
}.

(** The copy changes the quantity and keeps the identifier and the
    approver. *)
Class PartRowLaws (A : Type) {row : PartRow A} : Prop := {
  rowId_withQuantity : forall (a : A) (q : Q), rowId (withQuantity a q) = rowId a;
  rowQuantity_withQuantity :
    forall (a : A) (q : Q), rowQuantity (withQuantity a q) = q;
  rowApprovedBy_withQuantity :
    forall (a : A) (q : Q), rowApprovedBy (withQuantity a q) = rowApprovedBy a
}.

(** The update after a confirmed action, written in both tables as

    [const currentActionItemId = actionItem.id;
     const remainingQuantity = actionItem.quantity - quantityChanged;
     if (remainingQuantity <= 0) prevData.filter(item => item.id !== id)
     else prevData.map(item => item.id === id
                                 ? { ...item, quantity: remainingQuantity }
                                 : item)] *)
Definition reconcile {A : Type} {row : PartRow A} (actionItem : A)
  (quantityChanged : Q) (prevData : list A) : list A :=
  let currentActionItemId := rowId actionItem in
  let remainingQuantity := (rowQuantity actionItem - quantityChanged)%Q in
  if Qle_bool remainingQuantity 0
  then filter (fun item => negb (String.eqb (rowId item) currentActionItemId))
         prevData
  else map (fun item =>
              if String.eqb (rowId item) currentActionItemId
              then withQuantity item remainingQuantity
              else item)
         prevData.

(** The filter applied to every fetched list:
    [item.approvedBy !== null && item.quantity > 0]. *)
Definition isApprovedInStock {A : Type} {row : PartRow A} (item : A) : bool :=
  match rowApprovedBy item with
  | Some _ => Qgtb (rowQuantity item) 0
  | None => false
  end.

(** ** The quantity field of both modals

    [<input type="number" required min="1">], inside a [<form>] without
    [noValidate]. When the form is submitted the browser first checks the
    field: it must have a value, the number must be at least [min], and
    it must be [min] plus a whole number of steps; no [step] is given, so
    the step is 1 and the number must be whole. A field that fails is
    reported by the browser, and the submit event is not sent. The value
    of such a field is empty or a floating-point literal, which [Number]
    reads as the browser does; a text that [Number] does not read counts
    as no value. *)

(** [q] is a whole number. *)
Definition isWhole (q : Q) : bool :=
  (Qnum q mod Z.pos (Qden q) =? 0)%Z.

Definition quantityFieldValid {engine : JsEngine} (value : string) : bool :=
  JsString.truthy value &&
  match toNumber value with
  | NaN => false
  | Num q => Qle_bool 1 q && isWhole q
  end.

(** ** The props both modals receive *)

Module ItemData.
Record t : Type := {
  id : string;
  quantity : Q;
  partNumber : string;
  partDescription : string;
  dateOfReturn : string
}.
End ItemData.

(** ** IssueOutItemModal.tsx *)

Module IssueOutItemModal.

Module Payload.
Record t : Type := {
  quantity_issued : Q;
  remarks : option string
}.
End Payload.

(** The modal's [useState] cells ([issueDate] is display only). *)
Record State : Type := {
  quantity : string;
  remarks : string;
  isSubmitting : bool;
  error : option string;
  showQuantityWarning : bool
}.

Definition setError (e : option string) (m : State) : State :=
  {| quantity := quantity m; remarks := remarks m;
     isSubmitting := isSubmitting m; error := e;
     showQuantityWarning := showQuantityWarning m |}.

Definition setIsSubmitting (b : bool) (m : State) : State :=
  {| quantity := quantity m; remarks := remarks m;
     isSubmitting := b; error := error m;
     showQuantityWarning := showQuantityWarning m |}.

Definition setShowQuantityWarning (b : bool) (m : State) : State :=
  {| quantity := quantity m; remarks := remarks m;
     isSubmitting := isSubmitting m; error := error m;
     showQuantityWarning := b |}.

(** The state after the effect that resets the form when it opens. *)
Definition opened : State :=
  {| quantity := ""; remarks := ""; isSubmitting := false; error := None;
     showQuantityWarning := false |}.

Section Handlers.
Context {engine : JsEngine}.
(** [P] is the state the parent's [onSubmit] works on. *)
Context {P : Type}.

Definition handleSubmit (itemData : option ItemData.t)
  (onSubmit : Payload.t -> P -> completion unit * P)
  (m : State) (p : P) : State * P :=
  let m := setError None m in
  let quantityNum := toNumber (quantity m) in
  match quantityNum with
  | NaN =>
      (setError (Some "Please enter a valid positive quantity to issue.") m,
       p)
  | Num q =>
      if Qle_bool q 0
      then
        (setError
           (Some "Please enter a valid positive quantity to issue.") m, p)
      else if match itemData with
              | Some d => Qgtb q (ItemData.quantity d)
              | None => false
              end
      then
        (setShowQuantityWarning true
           (setError
              (Some ("Quantity to issue (" ++ numberToString q ++
                     ") cannot exceed available amount (" ++
                     match itemData with
                     | Some d => numberToString (ItemData.quantity d)
                     | None => ""
                     end ++ ").")) m), p)
      else
        let m := setShowQuantityWarning false m in
        let payload :=
          {| Payload.quantity_issued := q;
             Payload.remarks :=
               if JsString.truthy (trim (remarks m))
               then Some (trim (remarks m)) else None |} in
        let m := setIsSubmitting true m in
        let '(outcome, p') := onSubmit payload p in
        let m :=
          match outcome with
          | Normal _ => m
          | Throw err =>
              setError
                (Some (JsString.orElse err
                         "Failed to issue out item. Please try again.")) m
          end in
        (setIsSubmitting false m, p')
  end.

(** *** The form while it is being filled *)

Definition setQuantity (q : string) (m : State) : State :=
  {| quantity := q; remarks := remarks m;
     isSubmitting := isSubmitting m; error := error m;
     showQuantityWarning := showQuantityWarning m |}.

Definition setRemarks (r : string) (m : State) : State :=
  {| quantity := quantity m; remarks := r;
     isSubmitting := isSubmitting m; error := error m;
     showQuantityWarning := showQuantityWarning m |}.

(** [if (error) setError(null)] *)
Definition clearErrorIfSet (m : State) : State :=
  match error m with
  | Some e => if JsString.truthy e then setError None m else m
  | None => m
  end.

(** [handleQuantityChange]; [currentVal] is [event.target.value]. *)
Definition handleQuantityChange (itemData : option ItemData.t)
  (currentVal : string) (m : State) : State :=
  let m' := clearErrorIfSet (setQuantity currentVal m) in
  let currentQuantityNum := toNumber currentVal in
  if match itemData, currentQuantityNum with
     | Some d, Num q => Qgtb q 0 && Qgtb q (ItemData.quantity d)
     | _, _ => false
     end
  then setShowQuantityWarning true m'
  else setShowQuantityWarning false m'.

Definition handleRemarksChange (value : string) (m : State) : State :=
  clearErrorIfSet (setRemarks value m).

(** The [disabled] attribute of the submit button. *)
Definition submitDisabled (m : State) : bool :=
  isSubmitting m || showQuantityWarning m ||
  negb (JsString.truthy (quantity m)) ||
  match toNumber (quantity m) with
  | Num q => Qle_bool q 0
  | NaN => false
  end.

(** *** The submit event

    The form is [<form onSubmit={handleSubmit}>]; its only field under
    constraint validation is the quantity (the date is [readOnly], the
    remarks are optional). *)
Definition formValid (m : State) : bool := quantityFieldValid (quantity m).

(** The user asks to submit (the submit button, or Enter in the field):
    nothing happens while the button is disabled; the browser reports a
    field that is not valid and sends no event; otherwise [handleSubmit]
    runs. *)
Definition requestSubmit (itemData : option ItemData.t)
  (onSubmit : Payload.t -> P -> completion unit * P)
  (m : State) (p : P) : State * P :=
  if submitDisabled m then (m, p)
  else if negb (formValid m) then (m, p)
  else handleSubmit itemData onSubmit m p.

End Handlers.

End IssueOutItemModal.

(** ** DamageItemModal.tsx *)

Module DamageItemModal.

Module Payload.
Record t : Type := {
  quantity_damaged : Q;
  remarks : string
}.
End Payload.

(** The modal's [useState] cells ([damageDate] is display only). *)
Record State : Type := {
  quantity : string;
  remarks : string;
  isSubmitting : bool;
  error : option string;
  showQuantityWarning : bool
}.

Definition setError (e : option string) (m : State) : State :=
  {| quantity := quantity m; remarks := remarks m;
     isSubmitting := isSubmitting m; error := e;
     showQuantityWarning := showQuantityWarning m |}.

Definition setIsSubmitting (b : bool) (m : State) : State :=
  {| quantity := quantity m; remarks := remarks m;
     isSubmitting := b; error := error m;
     showQuantityWarning := showQuantityWarning m |}.

Definition setShowQuantityWarning (b : bool) (m : State) : State :=
  {| quantity := quantity m; remarks := remarks m;
     isSubmitting := isSubmitting m; error := error m;
     showQuantityWarning := b |}.

Definition opened : State :=
  {| quantity := ""; remarks := ""; isSubmitting := false; error := None;
     showQuantityWarning := false |}.

Section Handlers.
Context {engine : JsEngine}.
Context {P : Type}.

Definition handleSubmit (itemData : option ItemData.t)
  (onSubmit : Payload.t -> P -> completion unit * P)
  (m : State) (p : P) : State * P :=
  let m := setError None m in
  let quantityNum := toNumber (quantity m) in
  match quantityNum with
  | NaN =>
      (setError
         (Some "Please enter a valid positive quantity for damaged items.")
         m, p)
  | Num q =>
      if Qle_bool q 0
      then
        (setError
           (Some "Please enter a valid positive quantity for damaged items.")
           m, p)
      else if match itemData with
              | Some d => Qgtb q (ItemData.quantity d)
              | None => false
              end
      then
        (setShowQuantityWarning true
           (setError
              (Some ("Damaged quantity (" ++ numberToString q ++
                     ") cannot exceed available amount (" ++
                     match itemData with
                     | Some d => numberToString (ItemData.quantity d)
                     | None => ""
                     end ++ ").")) m), p)
      else
        let m := setShowQuantityWarning false m in
        let trimmedRemarks := trim (remarks m) in
        if negb (JsString.truthy trimmedRemarks)
        then (setError (Some "Remarks are required for damaged items.") m, p)
        else
          let payload :=
            {| Payload.quantity_damaged := q;
               Payload.remarks := trimmedRemarks |} in
          let m := setIsSubmitting true m in
          let '(outcome, p') := onSubmit payload p in
          let m :=
            match outcome with
            | Normal _ => m
            | Throw err =>
                setError
                  (Some (JsString.orElse err
                           "Failed to mark item as damaged. Please try again."))
                  m
            end in
          (setIsSubmitting false m, p')
  end.

(** *** The form while it is being filled *)

Definition setQuantity (q : string) (m : State) : State :=
  {| quantity := q; remarks := remarks m;
     isSubmitting := isSubmitting m; error := error m;
     showQuantityWarning := showQuantityWarning m |}.

Definition setRemarks (r : string) (m : State) : State :=
  {| quantity := quantity m; remarks := r;
     isSubmitting := isSubmitting m; error := error m;
     showQuantityWarning := showQuantityWarning m |}.

(** [if (error) setError(null)] *)
Definition clearErrorIfSet (m : State) : State :=
  match error m with
  | Some e => if JsString.truthy e then setError None m else m
  | None => m
  end.

(** [handleQuantityChange]; [currentVal] is [event.target.value]. *)
Definition handleQuantityChange (itemData : option ItemData.t)
  (currentVal : string) (m : State) : State :=
  let m' := clearErrorIfSet (setQuantity currentVal m) in
  let currentQuantityNum := toNumber currentVal in
  if match itemData, currentQuantityNum with
     | Some d, Num q => Qgtb q 0 && Qgtb q (ItemData.quantity d)
     | _, _ => false
     end
  then setShowQuantityWarning true m'
  else setShowQuantityWarning false m'.

Definition handleRemarksChange (value : string) (m : State) : State :=
  clearErrorIfSet (setRemarks value m).

(** The [disabled] attribute of the submit button. *)
Definition submitDisabled (m : State) : bool :=
  isSubmitting m || showQuantityWarning m ||
  negb (JsString.truthy (quantity m)) ||
  match toNumber (quantity m) with
  | Num q => Qle_bool q 0
  | NaN => false
  end ||
  negb (JsString.truthy (trim (remarks m))).

(** *** The submit event

    The form is [<form onSubmit={handleSubmit}>]; under constraint
    validation are the quantity and the remarks, a [<textarea required>],
    which must not be empty (the date is [readOnly]). *)
Definition formValid (m : State) : bool :=
  quantityFieldValid (quantity m) && JsString.truthy (remarks m).

(** The user asks to submit: nothing happens while the button is
    disabled; the browser reports a field that is not valid and sends no
    event; otherwise [handleSubmit] runs. *)
Definition requestSubmit (itemData : option ItemData.t)
  (onSubmit : Payload.t -> P -> completion unit * P)
  (m : State) (p : P) : State * P :=
  if submitDisabled m then (m, p)
  else if negb (formValid m) then (m, p)
  else handleSubmit itemData onSubmit m p.

End Handlers.

End DamageItemModal.
(** ** NotificationList.tsx: the classifier *)

Module NotificationList.

Record StatusResult : Type := {
  days : option Z;
  status : NotificationStatus
}.

Section Classifier.
Context {engine : JsEngine}.

(** The string handed to [new Date]. *)
Definition isoReferenceDateString (referenceDateString : string) : string :=
  if JsString.includes referenceDateString "T" then referenceDateString
  else JsString.replace referenceDateString " " "T" ++
       (if JsString.endsWith referenceDateString "Z" then "" else "Z").

(** [getNotificationStatus]; [now] is the time value of
    [new Date()]. *)
Definition getNotificationStatus (now : Z)
  (referenceDateString : option string) : completion StatusResult :=
  tryCatch
    (match referenceDateString with
     | None => Normal {| days := None; status := ok |}
     | Some s =>
         if negb (JsString.truthy s) || JsString.startsWith s "0000-00-00"
         then Normal {| days := None; status := ok |}
         else
           do refDate <- newDate (isoReferenceDateString s);
           match refDate with
           | None => Normal {| days := None; status := ok |}
           | Some refTime =>
               let todayUTCStart := utcStart now in
               let refDateUTCStart := utcStart refTime in
               let diffTime := todayUTCStart - refDateUTCStart in
               if diffTime <? 0
               then Normal {| days := Some 0; status := ok |}
               else
                 let diffDays := diffTime / JsDate.msPerDay in
                 Normal {| days := Some diffDays;
                           status := statusOfDiffDays diffDays |}
           end
     end)
    (fun _ => Normal {| days := None; status := ok |}).

End Classifier.

(** *** The component *)

Record NotificationItem : Type := {
  id : string;
  partNumber : string;
  typeDescription : string;
  quantity : Q;
  returnDate : option string;
  createdBy : option string;
  approvedBy : option string;
  lastUpdated : option string;
  daysSinceReturn : option Z;
  notificationStatus : NotificationStatus
}.

#[global] Instance NotificationItem_row : PartRow NotificationItem := {|
  rowId := id;
  rowQuantity := quantity;
  rowApprovedBy := approvedBy;
  withQuantity := fun item q =>
    {| id := id item; partNumber := partNumber item;
       typeDescription := typeDescription item; quantity := q;
       returnDate := returnDate item; createdBy := createdBy item;
       approvedBy := approvedBy item; lastUpdated := lastUpdated item;
       daysSinceReturn := daysSinceReturn item;
       notificationStatus := notificationStatus item |}
|}.

(** The [useState] cells of [NotificationListTable] that the data and
    action handlers touch. ([filteredData] is recomputed from
    [allNotificationData] and the three filter cells by an effect.) *)
Record State : Type := {
  allNotificationData : list NotificationItem;
  isLoading : bool;
  isActionLoading : bool;
  error : option string;
  isIssueOutModalOpen : bool;
  isDamageModalOpen : bool;
  actionItem : option NotificationItem;
  successMessage : option string
}.

Definition initialState : State :=
  {| allNotificationData := []; isLoading := true; isActionLoading := false;
     error := None; isIssueOutModalOpen := false; isDamageModalOpen := false;
     actionItem := None; successMessage := None |}.

Definition setAllNotificationData (f : list NotificationItem -> list NotificationItem)
  (st : State) : State :=
  {| allNotificationData := f (allNotificationData st);
     isLoading := isLoading st; isActionLoading := isActionLoading st;
     error := error st; isIssueOutModalOpen := isIssueOutModalOpen st;
     isDamageModalOpen := isDamageModalOpen st; actionItem := actionItem st;
     successMessage := successMessage st |}.

Definition setIsLoading (b : bool) (st : State) : State :=
  {| allNotificationData := allNotificationData st;
     isLoading := b; isActionLoading := isActionLoading st;
     error := error st; isIssueOutModalOpen := isIssueOutModalOpen st;
     isDamageModalOpen := isDamageModalOpen st; actionItem := actionItem st;
     successMessage := successMessage st |}.

Definition setIsActionLoading (b : bool) (st : State) : State :=
  {| allNotificationData := allNotificationData st;
     isLoading := isLoading st; isActionLoading := b;
     error := error st; isIssueOutModalOpen := isIssueOutModalOpen st;
     isDamageModalOpen := isDamageModalOpen st; actionItem := actionItem st;
     successMessage := successMessage st |}.

Definition setError (e : option string) (st : State) : State :=
  {| allNotificationData := allNotificationData st;
     isLoading := isLoading st; isActionLoading := isActionLoading st;
     error := e; isIssueOutModalOpen := isIssueOutModalOpen st;
     isDamageModalOpen := isDamageModalOpen st; actionItem := actionItem st;
     successMessage := successMessage st |}.

Definition setIsIssueOutModalOpen (b : bool) (st : State) : State :=
  {| allNotificationData := allNotificationData st;
     isLoading := isLoading st; isActionLoading := isActionLoading st;
     error := error st; isIssueOutModalOpen := b;
     isDamageModalOpen := isDamageModalOpen st; actionItem := actionItem st;
     successMessage := successMessage st |}.

Definition setIsDamageModalOpen (b : bool) (st : State) : State :=
  {| allNotificationData := allNotificationData st;
     isLoading := isLoading st; isActionLoading := isActionLoading st;
     error := error st; isIssueOutModalOpen := isIssueOutModalOpen st;
     isDamageModalOpen := b; actionItem := actionItem st;
     successMessage := successMessage st |}.

Definition setActionItem (a : option NotificationItem) (st : State) : State :=
  {| allNotificationData := allNotificationData st;
     isLoading := isLoading st; isActionLoading := isActionLoading st;
     error := error st; isIssueOutModalOpen := isIssueOutModalOpen st;
     isDamageModalOpen := isDamageModalOpen st; actionItem := a;
     successMessage := successMessage st |}.

Definition setSuccessMessage (m : option string) (st : State) : State :=
  {| allNotificationData := allNotificationData st;
     isLoading := isLoading st; isActionLoading := isActionLoading st;
     error := error st; isIssueOutModalOpen := isIssueOutModalOpen st;
     isDamageModalOpen := isDamageModalOpen st; actionItem := actionItem st;
     successMessage := m |}.

Definition clearMessages (st : State) : State :=
  setSuccessMessage None (setError None st).

Definition openIssueOutModal (item : NotificationItem) (st : State) : State :=
  if isActionLoading st then st
  else setIsIssueOutModalOpen true
         (setError None (setActionItem (Some item) (clearMessages st))).

Definition openDamageModal (item : NotificationItem) (st : State) : State :=
  if isActionLoading st then st
  else setIsDamageModalOpen true
         (setError None (setActionItem (Some item) (clearMessages st))).

Definition closeModal (st : State) : State :=
  setActionItem None
    (setIsDamageModalOpen false (setIsIssueOutModalOpen false st)).

(** What the JSX shows of a failure: the banner
    [{error && !isIssueOutModalOpen && !isDamageModalOpen && ...}], and the
    modals, which display their own error and are mounted under
    [{isIssueOutModalOpen && actionItem && ...}] and
    [{isDamageModalOpen && actionItem && ...}]. *)
Definition errorBannerShown (st : State) : bool :=
  match error st with
  | Some e => JsString.truthy e && negb (isIssueOutModalOpen st)
              && negb (isDamageModalOpen st)
  | None => false
  end.

Definition issueOutModalMounted (st : State) : bool :=
  isIssueOutModalOpen st &&
  match actionItem st with Some _ => true | None => false end.

Definition damageModalMounted (st : State) : bool :=
  isDamageModalOpen st &&
  match actionItem st with Some _ => true | None => false end.

(** The [itemData] prop handed to either modal. *)
Definition itemDataOf (a : NotificationItem) : ItemData.t :=
  {| ItemData.id := id a;
     ItemData.partNumber := partNumber a;
     ItemData.partDescription := typeDescription a;
     ItemData.quantity := quantity a;
     ItemData.dateOfReturn :=
       match returnDate a with Some s => s | None => "" end |}.

Definition dquote : string := String (ascii_of_nat 34) EmptyString.

Section Component.
Context {engine : JsEngine}.

Definition mapApiToNotificationItem (now : Z) (apiItem : Api.ListItem)
  : completion NotificationItem :=
  do r <- getNotificationStatus now (Api.created_on apiItem);
  Normal
    {| id := Api.part_id apiItem;
       partNumber := Api.part_number apiItem;
       typeDescription := Api.type_description apiItem;
       quantity := numberOrZero (Number (Api.quantity apiItem));
       returnDate := Api.created_on apiItem;
       createdBy := Some (match Api.created_by_user apiItem with
                          | Some u => u
                          | None => "N/A"
                          end);
       approvedBy := orNull (Api.approved_by_user apiItem);
       lastUpdated := Api.updated_on apiItem;
       daysSinceReturn := days r;
       notificationStatus := status r |}.

(** [items.map(f)] for an [f] that may throw *)
Fixpoint mapC {A B : Type} (f : A -> completion B) (l : list A)
  : completion (list B) :=
  match l with
  | [] => Normal []
  | a :: l' =>
      do b <- f a;
      do bs <- mapC f l';
      Normal (b :: bs)
  end.

(** [fetchData(showLoadingSpinner)] *)
Definition fetchData (server : Http.Server) (now : Z)
  (showLoadingSpinner : bool) (st : State) (w : World) : State * World :=
  let st := if showLoadingSpinner then setIsLoading true st else st in
  let st := if showLoadingSpinner then clearMessages st else st in
  let st := setError None st in
  let '(outcome, w) :=
    fetch server {| Http.url := PARTS_API_URL; Http.method := "GET";
                    Http.body := Http.NoBody |} w in
  let attempt : completion State :=
    do response <- outcome;
    if negb (Http.ok response)
    then
      let errorData := match Http.json response with
                       | Normal j => j
                       | Throw _ => Http.emptyObject
                       end in
      do msg <- Http.member Http.message errorData;
      Throw (optOrElse msg
               ("HTTP error! Status: " ++
                numberToString (inject_Z (Http.httpStatus response))))
    else
      do jsonData <- Http.json response;
      do jsonStatus <- Http.member Http.status jsonData;
      do jsonItems <- Http.member Http.items jsonData;
      do jsonMessage <- Http.member Http.message jsonData;
      if isSuccess jsonStatus
      then
        match jsonItems with
        | Http.ItemsArray items =>
            do mappedData <- mapC (mapApiToNotificationItem now) items;
            let approvedItems := filter isApprovedInStock mappedData in
            let overdueItems :=
              filter (fun item =>
                        negb (NotificationStatus_eqb (notificationStatus item) ok))
                approvedItems in
            Normal (setAllNotificationData (fun _ => overdueItems) st)
        | Http.ItemsNull => Normal (setAllNotificationData (fun _ => []) st)
        | Http.ItemsOther true =>
            Normal (setAllNotificationData (fun _ => []) st)
        | Http.ItemsUndefined => Throw "Cannot read properties of undefined"
        | Http.ItemsOther false =>
            Throw (optOrElse jsonMessage "Invalid data structure from API.")
        end
      else Throw (optOrElse jsonMessage "Invalid data structure from API.") in
  let st :=
    match attempt with
    | Normal st' => st'
    | Throw message =>
        setAllNotificationData (fun _ => []) (setError (Some message) st)
    end in
  (if showLoadingSpinner then setIsLoading false st else st, w).

(** The state while the POST of an action is awaited: what
    [handlePostEventApiAction] writes before its first [await]
    ([clearMessages(); setError(null); setIsActionLoading(true)]). *)
Definition actionPending (st : State) : State :=
  setIsActionLoading true (setError None (clearMessages st)).

(** [handlePostEventApiAction(apiUrl, payload, actionDesc,
    quantityChanged)]. The timer that clears the success message after 4 s
    is the event [successTimeout] below. *)
Definition handlePostEventApiAction (server : Http.Server) (apiUrl : Endpoint)
  (payload : Http.Body) (actionDesc : string) (quantityChanged : Q)
  (p : State * World) : completion unit * (State * World) :=
  let '(st, w) := p in
  match actionItem st with
  | None => (Throw ("No item selected for " ++ actionDesc), (st, w))
  | Some item =>
      let st := actionPending st in
      let '(outcome, w) :=
        fetch server {| Http.url := apiUrl; Http.method := "POST";
                        Http.body := payload |} w in
      let attempt : completion (State * World) :=
        do response <- outcome;
        do result <- Http.json response;
        do resultStatus <- Http.member Http.status result;
        if negb (Http.ok response) || negb (isSuccess resultStatus)
        then
          do resultMessage <- Http.member Http.message result;
          Throw (optOrElse resultMessage
                   ("API Error for " ++ actionDesc ++ ": " ++
                    numberToString (inject_Z (Http.httpStatus response))))
        else
          let successMsg :=
            if String.eqb actionDesc "issue out item"
            then "Successfully issued out " ++ numberToString quantityChanged ++
                 " unit(s) of " ++ dquote ++ partNumber item ++ dquote ++ "."
            else "Successfully marked " ++ numberToString quantityChanged ++
                 " unit(s) of " ++ dquote ++ partNumber item ++ dquote ++
                 " as damaged." in
          let st := setSuccessMessage (Some successMsg) st in
          let st := closeModal st in
          let st := setAllNotificationData (reconcile item quantityChanged) st in
          Normal (st, triggerRefresh w) in
      let '(outcome, (st, w)) :=
        match attempt with
        | Normal p' => (Normal tt, p')
        | Throw message => (Throw message, (setError (Some message) st, w))
        end in
      (outcome, (setActionItem None (setIsActionLoading false st), w))
  end.

(** The callback of [setTimeout(() => setSuccessMessage(null), 4000)] *)
Definition successTimeout (st : State) : State := setSuccessMessage None st.

(** [getCurrentUserId()] *)
Definition getCurrentUserId (w : World) : option string := sessionUserId w.

Definition handleIssueOutSubmitForNotification (server : Http.Server)
  (modalPayload : IssueOutItemModal.Payload.t) (p : State * World)
  : completion unit * (State * World) :=
  let '(st, w) := p in
  match actionItem st with
  | None => (Throw "No item selected for issuing.", p)
  | Some item =>
      if negb (match getCurrentUserId w with
               | Some u => JsString.truthy u
               | None => false
               end)
      then (Throw "User not identified.",
            (setError (Some "User not identified.") st, w))
      else
        let quantity_issued :=
          IssueOutItemModal.Payload.quantity_issued modalPayload in
        let apiPayload :=
          Http.IssueOutBody (id item) quantity_issued
            (IssueOutItemModal.Payload.remarks modalPayload) in
        if Qgtb quantity_issued (quantity item)
        then
          let errMsg := "Cannot issue " ++ numberToString quantity_issued ++
                        ". Only " ++ numberToString (quantity item) ++
                        " available." in
          (Throw errMsg, (setError (Some errMsg) st, w))
        else
          handlePostEventApiAction server ISSUE_API_URL apiPayload
            "issue out item" quantity_issued (st, w)
  end.

Definition handleDamageSubmitForNotification (server : Http.Server)
  (modalPayload : DamageItemModal.Payload.t) (p : State * World)
  : completion unit * (State * World) :=
  let '(st, w) := p in
  match actionItem st with
  | None => (Throw "No item selected for marking as damaged.", p)
  | Some item =>
      if negb (match getCurrentUserId w with
               | Some u => JsString.truthy u
               | None => false
               end)
      then (Throw "User not identified.",
            (setError (Some "User not identified.") st, w))
      else
        let quantity_damaged :=
          DamageItemModal.Payload.quantity_damaged modalPayload in
        let apiPayload :=
          Http.DamageBody (id item) quantity_damaged
            (DamageItemModal.Payload.remarks modalPayload) in
        if Qgtb quantity_damaged (quantity item)
        then
          let errMsg := "Cannot mark " ++ numberToString quantity_damaged ++
                        " as damaged. Only " ++ numberToString (quantity item) ++
                        " available." in
          (Throw errMsg, (setError (Some errMsg) st, w))
        else
          handlePostEventApiAction server DAMAGE_API_URL apiPayload
            "mark item as damaged" quantity_damaged (st, w)
  end.

(** The issue-out form submitted while its modal is mounted on the
    action item: [<IssueOutItemModal onSubmit=
    {handleIssueOutSubmitForNotification} itemData={...actionItem} />].
    The submission passes the button and the browser's validation of the
    form before it reaches [handleSubmit]. *)
Definition submitIssueOut (server : Http.Server)
  (m : IssueOutItemModal.State) (p : State * World)
  : IssueOutItemModal.State * (State * World) :=
  IssueOutItemModal.requestSubmit
    (option_map itemDataOf (actionItem (fst p)))
    (handleIssueOutSubmitForNotification server) m p.

Definition submitDamage (server : Http.Server)
  (m : DamageItemModal.State) (p : State * World)
  : DamageItemModal.State * (State * World) :=
  DamageItemModal.requestSubmit
    (option_map itemDataOf (actionItem (fst p)))
    (handleDamageSubmitForNotification server) m p.

(** *** What the table shows *)

(** The string of a bucket, as [activeAgeFilter] is compared with it. *)
Definition statusName (b : NotificationStatus) : string :=
  match b with
  | ok => "ok"
  | gt14 => "gt14"
  | gt30 => "gt30"
  | gt90 => "gt90"
  end.

(** [formatDateForDisplay], used for the Return Date and Last Updated
    cells. *)
Definition formatDateForDisplay (dateTimeString : option string) : string :=
  match dateTimeString with
  | None => "N/A"
  | Some s =>
      if negb (JsString.truthy s) || String.eqb s "0000-00-00"
         || String.eqb s "0000-00-00 00:00:00"
      then "N/A"
      else
        match newDate (isoReferenceDateString s) with
        | Normal None => "Invalid Date"
        | Normal (Some t) =>
            let day := JsString.padStart0 2
                         (numberToString (inject_Z (JsDate.getUTCDate t))) in
            let month := JsString.padStart0 2
                           (numberToString
                              (inject_Z (JsDate.getUTCMonth t + 1))) in
            let year := numberToString (inject_Z (JsDate.getUTCFullYear t)) in
            day ++ "/" ++ month ++ "/" ++ year
        | Throw _ => s
        end
  end.

(** [applyFiltersAndSearch]: the value it gives to [filteredData], from
    the collection and the three filter cells. *)
Definition applyFiltersAndSearch (allNotificationData : list NotificationItem)
  (activeDescFilter activeAgeFilter searchTerm : string)
  : list NotificationItem :=
  let result := allNotificationData in
  let result :=
    if negb (String.eqb activeDescFilter "All")
    then filter (fun item =>
                   String.eqb (toLowerCase (typeDescription item))
                     (toLowerCase activeDescFilter)) result
    else result in
  let result :=
    if negb (String.eqb activeAgeFilter "all")
    then filter (fun item =>
                   String.eqb (statusName (notificationStatus item))
                     activeAgeFilter) result
    else result in
  if JsString.truthy (trim searchTerm)
  then
    let lowerCaseTerm := trim (toLowerCase searchTerm) in
    filter (fun item =>
              JsString.includes (toLowerCase (partNumber item))
                lowerCaseTerm) result
  else result.

(** The [disabled] attribute of the two buttons of a row:
    [isActionLoading || item.quantity <= 0]. *)
Definition rowButtonsDisabled (st : State) (item : NotificationItem) : bool :=
  isActionLoading st || Qle_bool (quantity item) 0.

(** *** The component as a transition system

    What can happen to a mounted [NotificationListTable]: a fetch (on
    mount, on Refresh), the buttons of a row, the buttons of the message
    banners and the filter controls, a modal's form being submitted or
    dismissed, the success timer, and, to cover every use of the handler, a
    direct call of [handlePostEventApiAction]. Each request is answered by
    the server of the event. *)
Inductive Event : Type :=
| Fetch (server : Http.Server) (now : Z) (showLoadingSpinner : bool)
| OpenIssueOut (item : NotificationItem)
| OpenDamage (item : NotificationItem)
| CloseModal
| SubmitIssueOut (server : Http.Server) (m : IssueOutItemModal.State)
| SubmitDamage (server : Http.Server) (m : DamageItemModal.State)
| PostAction (server : Http.Server) (apiUrl : Endpoint) (payload : Http.Body)
    (actionDesc : string) (quantityChanged : Q)
| SuccessTimeout
| ClearMessages
| DismissError
| DismissSuccess.

Definition step (e : Event) (p : State * World) : State * World :=
  let '(st, w) := p in
  match e with
  | Fetch server now showLoadingSpinner =>
      fetchData server now showLoadingSpinner st w
  | OpenIssueOut item => (openIssueOutModal item st, w)
  | OpenDamage item => (openDamageModal item st, w)
  | CloseModal => (closeModal st, w)
  | SubmitIssueOut server m =>
      if issueOutModalMounted st then snd (submitIssueOut server m p) else p
  | SubmitDamage server m =>
      if damageModalMounted st then snd (submitDamage server m p) else p
  | PostAction server apiUrl payload actionDesc quantityChanged =>
      snd (handlePostEventApiAction server apiUrl payload actionDesc
             quantityChanged p)
  | SuccessTimeout => (successTimeout st, w)
  | ClearMessages => (clearMessages st, w)
  | DismissError => (setError None st, w)
  | DismissSuccess => (setSuccessMessage None st, w)
  end.

(** The states of the component, from its mount in any world. *)
Inductive reachable : State * World -> Prop :=
| reachable_mount (w : World) : reachable (initialState, w)
| reachable_step (e : Event) (p : State * World) :
    reachable p -> reachable (step e p).

End Component.

End NotificationList.


(** ** AuthPageLayout.tsx: the sidebar's copy of the classifier *)

Module AuthPageLayout.

Section Classifier.
Context {engine : JsEngine}.

Definition getNotificationStatusForBadge (now : Z)
  (createdOnDateString : option string) : completion NotificationStatus :=
  match createdOnDateString with
  | None => Normal ok
  | Some s =>
      if negb (JsString.truthy s) || JsString.startsWith s "0000-00-00"
      then Normal ok
      else
        tryCatch
          (do itemCreationDate <-
             newDate (JsString.replace s " " "T" ++ "Z");
           match itemCreationDate with
           | None => Normal ok
           | Some creationTime =>
               let todayUTCStart := utcStart now in
               let itemCreationDateUTCStart := utcStart creationTime in
               let diffTime := todayUTCStart - itemCreationDateUTCStart in
               if diffTime <? 0 then Normal ok
               else
                 let diffDays := diffTime / JsDate.msPerDay in
                 Normal (statusOfDiffDays diffDays)
           end)
          (fun _ => Normal ok)
  end.

End Classifier.

(** *** The badge of the sidebar *)

Record CombinedNotificationInfo : Type := {
  total : Z;
  isCritical : bool
}.

Section Badge.
Context {engine : JsEngine}.

(** [item.quantity || 0]: [0], [NaN] and the empty string are falsy. *)
Definition quantityOrZero (x : NumberOrString) : NumberOrString :=
  match x with
  | AsNumber NaN => AsNumber (Num 0)
  | AsNumber (Num q) => AsNumber (Num q)
  | AsString s => if JsString.truthy s then AsString s else AsNumber (Num 0)
  end.

Definition isRelevant (item : Api.ListItem) : bool :=
  notNull (Api.approved_by_user item) &&
  match Number (quantityOrZero (Api.quantity item)) with
  | Num q => Qgtb q 0
  | NaN => false
  end.

(** The [forEach] that counts the overdue items. *)
Fixpoint countOverdue (now : Z) (items : list Api.ListItem)
  (acc : CombinedNotificationInfo) : completion CombinedNotificationInfo :=
  match items with
  | [] => Normal acc
  | item :: rest =>
      do st <- getNotificationStatusForBadge now (Api.created_on item);
      countOverdue now rest
        (if NotificationStatus_eqb st ok then acc
         else {| total := total acc + 1;
                 isCritical := if NotificationStatus_eqb st gt90 then true
                               else isCritical acc |})
  end.

(** [fetchNotificationCounts()]: the next value of
    [combinedNotificationInfo]. *)
Definition fetchNotificationCounts (server : Http.Server) (now : Z) (w : World)
  : CombinedNotificationInfo * World :=
  let '(outcome, w) :=
    fetch server {| Http.url := PARTS_API_URL; Http.method := "GET";
                    Http.body := Http.NoBody |} w in
  let attempt : completion CombinedNotificationInfo :=
    do response <- outcome;
    do jsonData <- Http.json response;
    do jsonStatus <- Http.member Http.status jsonData;
    do jsonItems <- Http.member Http.items jsonData;
    match isSuccess jsonStatus, jsonItems with
    | true, Http.ItemsArray items =>
        countOverdue now (filter isRelevant items)
          {| total := 0; isCritical := false |}
    | _, _ => Normal {| total := 0; isCritical := false |}
    end in
  (match attempt with
   | Normal info => info
   | Throw _ => {| total := 0; isCritical := false |}
   end, w).

End Badge.

(** *** The menu *)

Definition SUPERVISOR_ROLE_CODE : string := "SUPV".
Definition ADMIN_ROLE_CODE : string := "ADMIN".

(** [type NavItem], without the icon (no item of the data has
    [subItems] or [isTitle]). *)
Record NavItem : Type := {
  name : string;
  path : option string;
  roles : option (list string)
}.

Definition navItemsData : list NavItem :=
  [ {| name := "Home"; path := Some "/home"; roles := None |};
    {| name := "Dashboard"; path := Some "/dashboard";
       roles := Some [SUPERVISOR_ROLE_CODE; ADMIN_ROLE_CODE] |};
    {| name := "List Part Item"; path := Some "/list-part-item";
       roles := None |};
    {| name := "Notification"; path := Some "/notification"; roles := None |};
    {| name := "History"; path := Some "/history-part-item"; roles := None |};
    {| name := "Add User"; path := Some "/add-user";
       roles := Some [ADMIN_ROLE_CODE] |};
    {| name := "Manage User"; path := Some "/user-management";
       roles := Some [ADMIN_ROLE_CODE] |} ].

(** The filter of [renderMenuItems]; [userRole] is the
    [user_role_code] entry of sessionStorage. *)
Definition isShown (userRole : option string) (navItem : NavItem) : bool :=
  match roles navItem with
  | None => true
  | Some [] => true
  | Some rs =>
      match userRole with
      | Some r =>
          if JsString.truthy r then existsb (String.eqb r) rs else false
      | None => false
      end
  end.

Definition renderMenuItems (userRole : option string) (items : list NavItem)
  : list NavItem :=
  filter (isShown userRole) items.

(** The count badge beside a menu entry: shown on the Notification entry
    when the labels are shown and [total > 0]; [Some true] is the red
    (critical) badge, [Some false] the yellow one. *)
Definition badgeOf (labelsShown : bool) (info : CombinedNotificationInfo)
  (navItem : NavItem) : option bool :=
  if labelsShown && String.eqb (name navItem) "Notification"
     && (0 <? total info)
  then Some (isCritical info)
  else None.

End AuthPageLayout.

(** ** ListPartIem.tsx *)

Module ListPartItem.

Record ListItem : Type := {
  id : string;
  partNumber : string;
  quantity : Q;
  typeDescription : string;
  statusDescription : string;
  lastUpdatedDisplay : string;
  lastUpdatedObject : Z;
  createdBy : option string;
  approvedBy : option string;
  approvedOnDisplay : string;
  approvedOnObject : option Z;
  typeId : option string;
  statusId : option string;
  partCreatedDateDisplay : string;
  partCreatedDateObject : Z
}.

#[global] Instance ListItem_row : PartRow ListItem := {|
  rowId := id;
  rowQuantity := quantity;
  rowApprovedBy := approvedBy;
  withQuantity := fun item q =>
    {| id := id item; partNumber := partNumber item; quantity := q;
       typeDescription := typeDescription item;
       statusDescription := statusDescription item;
       lastUpdatedDisplay := lastUpdatedDisplay item;
       lastUpdatedObject := lastUpdatedObject item;
       createdBy := createdBy item; approvedBy := approvedBy item;
       approvedOnDisplay := approvedOnDisplay item;
       approvedOnObject := approvedOnObject item;
       typeId := typeId item; statusId := statusId item;
       partCreatedDateDisplay := partCreatedDateDisplay item;
       partCreatedDateObject := partCreatedDateObject item |}
|}.

Record State : Type := {
  allData : list ListItem;
  isLoading : bool;
  isActionLoading : bool;
  error : option string;
  isEditModalOpen : bool;
  isIssueOutModalOpen : bool;
  isDamageModalOpen : bool;
  actionItem : option ListItem;
  successMessage : option string
}.

Definition initialState : State :=
  {| allData := []; isLoading := true; isActionLoading := false;
     error := None; isEditModalOpen := false; isIssueOutModalOpen := false;
     isDamageModalOpen := false; actionItem := None; successMessage := None |}.

Definition setAllData (f : list ListItem -> list ListItem) (st : State) : State :=
  {| allData := f (allData st); isLoading := isLoading st;
     isActionLoading := isActionLoading st; error := error st;
     isEditModalOpen := isEditModalOpen st;
     isIssueOutModalOpen := isIssueOutModalOpen st;
     isDamageModalOpen := isDamageModalOpen st; actionItem := actionItem st;
     successMessage := successMessage st |}.

Definition setIsLoading (b : bool) (st : State) : State :=
  {| allData := allData st; isLoading := b;
     isActionLoading := isActionLoading st; error := error st;
     isEditModalOpen := isEditModalOpen st;
     isIssueOutModalOpen := isIssueOutModalOpen st;
     isDamageModalOpen := isDamageModalOpen st; actionItem := actionItem st;
     successMessage := successMessage st |}.

Definition setIsActionLoading (b : bool) (st : State) : State :=
  {| allData := allData st; isLoading := isLoading st;
     isActionLoading := b; error := error st;
     isEditModalOpen := isEditModalOpen st;
     isIssueOutModalOpen := isIssueOutModalOpen st;
     isDamageModalOpen := isDamageModalOpen st; actionItem := actionItem st;
     successMessage := successMessage st |}.

Definition setError (e : option string) (st : State) : State :=
  {| allData := allData st; isLoading := isLoading st;
     isActionLoading := isActionLoading st; error := e;
     isEditModalOpen := isEditModalOpen st;
     isIssueOutModalOpen := isIssueOutModalOpen st;
     isDamageModalOpen := isDamageModalOpen st; actionItem := actionItem st;
     successMessage := successMessage st |}.

Definition setModalsOpen (edit issue damage : bool) (st : State) : State :=
  {| allData := allData st; isLoading := isLoading st;
     isActionLoading := isActionLoading st; error := error st;
     isEditModalOpen := edit; isIssueOutModalOpen := issue;
     isDamageModalOpen := damage; actionItem := actionItem st;
     successMessage := successMessage st |}.

Definition setActionItem (a : option ListItem) (st : State) : State :=
  {| allData := allData st; isLoading := isLoading st;
     isActionLoading := isActionLoading st; error := error st;
     isEditModalOpen := isEditModalOpen st;
     isIssueOutModalOpen := isIssueOutModalOpen st;
     isDamageModalOpen := isDamageModalOpen st; actionItem := a;
     successMessage := successMessage st |}.

Definition setSuccessMessage (m : option string) (st : State) : State :=
  {| allData := allData st; isLoading := isLoading st;
     isActionLoading := isActionLoading st; error := error st;
     isEditModalOpen := isEditModalOpen st;
     isIssueOutModalOpen := isIssueOutModalOpen st;
     isDamageModalOpen := isDamageModalOpen st; actionItem := actionItem st;
     successMessage := m |}.

Definition clearMessages (st : State) : State :=
  setSuccessMessage None (setError None st).

Definition openIssueOutModal (item : ListItem) (st : State) : State :=
  if isActionLoading st then st
  else setModalsOpen (isEditModalOpen st) true (isDamageModalOpen st)
         (setError None (setActionItem (Some item) st)).

Definition openDamageModal (item : ListItem) (st : State) : State :=
  if isActionLoading st then st
  else setModalsOpen (isEditModalOpen st) (isIssueOutModalOpen st) true
         (setError None (setActionItem (Some item) st)).

Definition closeModal (st : State) : State :=
  setActionItem None (setModalsOpen false false false st).

(** The banner [{error && !isEditModalOpen && !isIssueOutModalOpen &&
    !isDamageModalOpen && ...}] and the mounting conditions of the two
    modals. *)
Definition errorBannerShown (st : State) : bool :=
  match error st with
  | Some e => JsString.truthy e && negb (isEditModalOpen st)
              && negb (isIssueOutModalOpen st) && negb (isDamageModalOpen st)
  | None => false
  end.

Definition issueOutModalMounted (st : State) : bool :=
  isIssueOutModalOpen st &&
  match actionItem st with Some _ => true | None => false end.

Definition damageModalMounted (st : State) : bool :=
  isDamageModalOpen st &&
  match actionItem st with Some _ => true | None => false end.

Definition itemDataOf (a : ListItem) : ItemData.t :=
  {| ItemData.id := id a;
     ItemData.partNumber := partNumber a;
     ItemData.partDescription := typeDescription a;
     ItemData.quantity := quantity a;
     ItemData.dateOfReturn := partCreatedDateDisplay a |}.

Definition dquote : string := String (ascii_of_nat 34) EmptyString.

Section Component.
Context {engine : JsEngine}.

(** [parseApiDateTime]: the time value of the parsed date, or [null]. *)
Definition parseApiDateTime (dateTimeString : option string) : option Z :=
  match dateTimeString with
  | None => None
  | Some s =>
      if negb (JsString.truthy s) || JsString.startsWith s "0000-00-00"
         || String.eqb (trim s) ""
      then None
      else
        match newDate (JsString.replace s " " "T") with
        | Normal (Some t) => Some t
        | Normal None => None
        | Throw _ => None
        end
  end.

Definition formatDateForUIDisplay (date : option Z) : string :=
  match date with
  | None => "N/A"
  | Some t =>
      let day := JsString.padStart0 2
                   (numberToString (inject_Z (JsDate.getUTCDate t))) in
      let month := JsString.padStart0 2
                     (numberToString (inject_Z (JsDate.getUTCMonth t + 1))) in
      let year := numberToString (inject_Z (JsDate.getUTCFullYear t)) in
      day ++ "/" ++ month ++ "/" ++ year
  end.

Definition mapApiToState (apiItem : Api.ListItem) : ListItem :=
  let partCreatedDateObj := parseApiDateTime (Api.created_on apiItem) in
  let lastUpdatedObj := parseApiDateTime (Api.updated_on apiItem) in
  let approvedOnObj := parseApiDateTime (Api.approved_on apiItem) in
  {| id := Api.part_id apiItem;
     partNumber := Api.part_number apiItem;
     quantity := numberOrZero (Number (Api.quantity apiItem));
     typeDescription := JsString.orElse (Api.type_description apiItem) "N/A";
     statusDescription := JsString.orElse (Api.status_description apiItem) "N/A";
     lastUpdatedDisplay := formatDateForUIDisplay lastUpdatedObj;
     lastUpdatedObject := match lastUpdatedObj with Some t => t | None => 0 end;
     createdBy := Some (match Api.created_by_user apiItem with
                        | Some u => u
                        | None => "N/A"
                        end);
     approvedBy := orNull (Api.approved_by_user apiItem);
     approvedOnDisplay := formatDateForUIDisplay approvedOnObj;
     approvedOnObject := approvedOnObj;
     typeId := Api.type apiItem;
     statusId := Api.status apiItem;
     partCreatedDateDisplay := formatDateForUIDisplay partCreatedDateObj;
     partCreatedDateObject :=
       match partCreatedDateObj with Some t => t | None => 0 end |}.

(** [fetchData(showLoadingSpinner)] *)
Definition fetchData (server : Http.Server) (showLoadingSpinner : bool)
  (st : State) (w : World) : State * World :=
  let st := if showLoadingSpinner then setIsLoading true st else st in
  let st := setError None st in
  let '(outcome, w) :=
    fetch server {| Http.url := PARTS_API_URL; Http.method := "GET";
                    Http.body := Http.NoBody |} w in
  let attempt : completion State :=
    do response <- outcome;
    if negb (Http.ok response)
    then
      let errorData := match Http.json response with
                       | Normal j => j
                       | Throw _ => Http.emptyObject
                       end in
      do msg <- Http.member Http.message errorData;
      Throw (optOrElse msg
               ("HTTP error! Status: " ++
                numberToString (inject_Z (Http.httpStatus response))))
    else
      do jsonData <- Http.json response;
      do jsonStatus <- Http.member Http.status jsonData;
      do jsonItems <- Http.member Http.items jsonData;
      do jsonMessage <- Http.member Http.message jsonData;
      if isSuccess jsonStatus
      then
        match jsonItems with
        | Http.ItemsArray items =>
            let mappedData := map mapApiToState items in
            let approvedItems := filter isApprovedInStock mappedData in
            Normal (setAllData (fun _ => approvedItems) st)
        | Http.ItemsNull => Normal (setAllData (fun _ => []) st)
        | Http.ItemsOther true => Normal (setAllData (fun _ => []) st)
        | Http.ItemsUndefined => Throw "Cannot read properties of undefined"
        | Http.ItemsOther false =>
            Throw (optOrElse jsonMessage "Invalid data structure from API.")
        end
      else Throw (optOrElse jsonMessage "Invalid data structure from API.") in
  let st :=
    match attempt with
    | Normal st' => st'
    | Throw message => setAllData (fun _ => []) (setError (Some message) st)
    end in
  (if showLoadingSpinner then setIsLoading false st else st, w).

(** The state while the POST of an action is awaited: what
    [handlePostApiAction] writes before its first [await]
    ([clearMessages(); setIsActionLoading(true);
    setActionItem(actionItem)]). *)
Definition actionPending (item : ListItem) (st : State) : State :=
  setActionItem (Some item) (setIsActionLoading true (clearMessages st)).

(** [handlePostApiAction(apiUrl, payload, actionDesc, quantityChanged)] *)
Definition handlePostApiAction (server : Http.Server) (apiUrl : Endpoint)
  (payload : Http.Body) (actionDesc : string) (quantityChanged : Q)
  (p : State * World) : completion unit * (State * World) :=
  let '(st, w) := p in
  match actionItem st with
  | None => (Throw ("No item selected for action: " ++ actionDesc), (st, w))
  | Some item =>
      let st := actionPending item st in
      let '(outcome, w) :=
        fetch server {| Http.url := apiUrl; Http.method := "POST";
                        Http.body := payload |} w in
      let attempt : completion State :=
        do response <- outcome;
        do result <- Http.json response;
        do resultStatus <- Http.member Http.status result;
        if negb (Http.ok response) || negb (isSuccess resultStatus)
        then
          do resultMessage <- Http.member Http.message result;
          Throw (optOrElse resultMessage
                   ("API Error for " ++ actionDesc ++ ": " ++
                    numberToString (inject_Z (Http.httpStatus response))))
        else
          let successMsg :=
            if String.eqb actionDesc "issue out item"
            then "Successfully issued out " ++ numberToString quantityChanged ++
                 " unit(s) of " ++ dquote ++ partNumber item ++ dquote ++ "."
            else "Successfully marked " ++ numberToString quantityChanged ++
                 " unit(s) of " ++ dquote ++ partNumber item ++ dquote ++
                 " as damaged." in
          let st := setSuccessMessage (Some successMsg) st in
          let st := closeModal st in
          Normal (setAllData (reconcile item quantityChanged) st) in
      let '(outcome, st) :=
        match attempt with
        | Normal st' => (Normal tt, st')
        | Throw message => (Throw message, setError (Some message) st)
        end in
      (outcome, (setActionItem None (setIsActionLoading false st), w))
  end.

Definition successTimeout (st : State) : State := setSuccessMessage None st.

Definition handleIssueOutSubmit (server : Http.Server)
  (modalPayload : IssueOutItemModal.Payload.t) (p : State * World)
  : completion unit * (State * World) :=
  let '(st, w) := p in
  match actionItem st with
  | None => (Throw "No item selected for issuing.", p)
  | Some item =>
      let quantity_issued :=
        IssueOutItemModal.Payload.quantity_issued modalPayload in
      let apiPayload :=
        Http.IssueOutBody (id item) quantity_issued
          (IssueOutItemModal.Payload.remarks modalPayload) in
      if Qgtb quantity_issued (quantity item)
      then
        let errMsg := "Cannot issue " ++ numberToString quantity_issued ++
                      ". Only " ++ numberToString (quantity item) ++
                      " available." in
        (Throw errMsg, (setError (Some errMsg) st, w))
      else
        handlePostApiAction server ISSUE_API_URL apiPayload
          "issue out item" quantity_issued (st, w)
  end.

Definition handleDamageSubmit (server : Http.Server)
  (modalPayload : DamageItemModal.Payload.t) (p : State * World)
  : completion unit * (State * World) :=
  let '(st, w) := p in
  match actionItem st with
  | None => (Throw "No item selected for marking as damaged.", p)
  | Some item =>
      let quantity_damaged :=
        DamageItemModal.Payload.quantity_damaged modalPayload in
      let apiPayload :=
        Http.DamageBody (id item) quantity_damaged
          (DamageItemModal.Payload.remarks modalPayload) in
      if Qgtb quantity_damaged (quantity item)
      then
        let errMsg := "Cannot mark " ++ numberToString quantity_damaged ++
                      " as damaged. Only " ++ numberToString (quantity item) ++
                      " available." in
        (Throw errMsg, (setError (Some errMsg) st, w))
      else
        handlePostApiAction server DAMAGE_API_URL apiPayload
          "mark item as damaged" quantity_damaged (st, w)
  end.

(** The two forms, submitted through the button and the browser's
    validation as in the notification list. *)
Definition submitIssueOut (server : Http.Server)
  (m : IssueOutItemModal.State) (p : State * World)
  : IssueOutItemModal.State * (State * World) :=
  IssueOutItemModal.requestSubmit
    (option_map itemDataOf (actionItem (fst p)))
    (handleIssueOutSubmit server) m p.

Definition submitDamage (server : Http.Server)
  (m : DamageItemModal.State) (p : State * World)
  : DamageItemModal.State * (State * World) :=
  DamageItemModal.requestSubmit
    (option_map itemDataOf (actionItem (fst p)))
    (handleDamageSubmit server) m p.

(** *** What the table shows *)

(** [applyFiltersAndSearch]: the value it gives to [filteredData].
    [fromDate] and [toDate] are the time values of the two date pickers,
    and [timezoneOffset] is the browser's [getTimezoneOffset()]. *)
Definition applyFiltersAndSearch (timezoneOffset : Z) (allData : list ListItem)
  (activeFilter searchTerm : string) (fromDate toDate : option Z)
  : list ListItem :=
  let result := allData in
  let result :=
    if negb (String.eqb activeFilter "All")
    then filter (fun item =>
                   String.eqb (toLowerCase (typeDescription item))
                     (toLowerCase activeFilter)) result
    else result in
  let result :=
    if JsString.truthy (trim searchTerm)
    then
      let lowerCaseTerm := trim (toLowerCase searchTerm) in
      filter (fun item =>
                JsString.includes (toLowerCase (partNumber item))
                  lowerCaseTerm) result
    else result in
  match fromDate, toDate with
  | None, None => result
  | _, _ =>
      let effectiveFromDate :=
        match fromDate, toDate with
        | None, Some t => Some t
        | _, _ => fromDate
        end in
      let effectiveToDate :=
        match fromDate, toDate with
        | Some f, None => Some f
        | _, _ => toDate
        end in
      let result :=
        match effectiveFromDate with
        | Some f =>
            let fromDateStart :=
              JsDate.fromLocalParts timezoneOffset
                (JsDate.getFullYear timezoneOffset f)
                (JsDate.getMonth timezoneOffset f)
                (JsDate.getDate timezoneOffset f) 0 0 0 0 in
            filter (fun item => fromDateStart <=? partCreatedDateObject item)
              result
        | None => result
        end in
      match effectiveToDate with
      | Some t =>
          let toDateEnd :=
            JsDate.fromLocalParts timezoneOffset
              (JsDate.getFullYear timezoneOffset t)
              (JsDate.getMonth timezoneOffset t)
              (JsDate.getDate timezoneOffset t) 23 59 59 999 in
          filter (fun item => partCreatedDateObject item <=? toDateEnd) result
      | None => result
      end
  end.

(** The [disabled] attribute of the two buttons of a row. *)
Definition rowButtonsDisabled (st : State) (item : ListItem) : bool :=
  isActionLoading st || Qle_bool (quantity item) 0.

(** *** The component as a transition system *)
Inductive Event : Type :=
| Fetch (server : Http.Server) (showLoadingSpinner : bool)
| OpenIssueOut (item : ListItem)
| OpenDamage (item : ListItem)
| CloseModal
| SubmitIssueOut (server : Http.Server) (m : IssueOutItemModal.State)
| SubmitDamage (server : Http.Server) (m : DamageItemModal.State)
| PostAction (server : Http.Server) (apiUrl : Endpoint) (payload : Http.Body)
    (actionDesc : string) (quantityChanged : Q)
| SuccessTimeout
| ClearMessages
| DismissError
| DismissSuccess.

Definition step (e : Event) (p : State * World) : State * World :=
  let '(st, w) := p in
  match e with
  | Fetch server showLoadingSpinner => fetchData server showLoadingSpinner st w
  | OpenIssueOut item => (openIssueOutModal item st, w)
  | OpenDamage item => (openDamageModal item st, w)
  | CloseModal => (closeModal st, w)
  | SubmitIssueOut server m =>
      if issueOutModalMounted st then snd (submitIssueOut server m p) else p
  | SubmitDamage server m =>
      if damageModalMounted st then snd (submitDamage server m p) else p
  | PostAction server apiUrl payload actionDesc quantityChanged =>
      snd (handlePostApiAction server apiUrl payload actionDesc
             quantityChanged p)
  | SuccessTimeout => (successTimeout st, w)
  | ClearMessages => (clearMessages st, w)
  | DismissError => (setError None st, w)
  | DismissSuccess => (setSuccessMessage None st, w)
  end.

Inductive reachable : State * World -> Prop :=
| reachable_mount (w : World) : reachable (initialState, w)
| reachable_step (e : Event) (p : State * World) :
    reachable p -> reachable (step e p).

End Component.

End ListPartItem.

(** ** DashboardMetrics.tsx *)

Module DashboardMetrics.

Record DashboardMetricsData : Type := {
  totalIssuedOut : Z;
  totalMoreThan14Days : Z;
  totalMoreThan30Days : Z;
  totalMoreThan90Days : Z;
  totalDamaged : Z
}.

(** What the body of the dashboard endpoint parses to: the counts; another
    truthy value, with perhaps a [message] (an object of another shape,
    an array, a number that is not 0, [true], a string that is not
    empty); a falsy value other than [null] ([0], [false] or the empty
    string); or [null]. *)
Inductive DashboardJson : Type :=
| MetricsJson (data : DashboardMetricsData)
| OtherJson (message : option string)
| FalsyJson
| NullJson.

(** [errorData.message]; reading a member of [null] throws a
    TypeError. *)
Definition messageOf (j : DashboardJson) : completion (option string) :=
  match j with
  | MetricsJson _ => Normal None
  | OtherJson m => Normal m
  | FalsyJson => Normal None
  | NullJson => Throw "Cannot read properties of null"
  end.

(** Truthiness of a parsed body. *)
Definition truthyJson (j : DashboardJson) : bool :=
  match j with
  | MetricsJson _ | OtherJson _ => true
  | FalsyJson | NullJson => false
  end.

Definition isJsonContentType (contentType : option string) : bool :=
  match contentType with
  | Some c => JsString.truthy c && JsString.includes c "application/json"
  | None => false
  end.

Section Fetch.
Context {engine : JsEngine}.

(** [fetchDashboardMetrics()]: [outcome] is what [fetch] settles to. The
    counts of the five cards are the server's; no date is classified
    here. *)
Definition fetchDashboardMetrics
  (outcome : completion (Http.Response DashboardJson))
  : completion DashboardJson :=
  do response <- outcome;
  let contentType := Http.contentType response in
  if negb (Http.ok response)
  then
    if isJsonContentType contentType
    then
      do errorData <- Http.json response;
      do message <- messageOf errorData;
      Throw (optOrElse message
               ("HTTP Error " ++
                numberToString (inject_Z (Http.httpStatus response))))
    else
      Throw ("HTTP Error " ++
             numberToString (inject_Z (Http.httpStatus response)) ++ ": " ++
             Http.statusText response)
  else if negb (isJsonContentType contentType)
  then Throw "Invalid response: Expected JSON but received non-JSON content."
  else
    do data <- Http.json response;
    Normal data.

End Fetch.

(** *** The component *)

Record State : Type := {
  metrics : option DashboardJson;
  loading : bool;
  error : option string
}.

Definition initialState : State :=
  {| metrics := None; loading := true; error := None |}.

(** What the component renders: the skeleton cards, the alert with its
    text, or the five cards of the data. *)
Inductive View : Type :=
| Skeleton
| Alert (text : string)
| Cards (data : DashboardJson).

(** [if (loading) ...; if (error || !metrics) ...; return cards]. The
    cell [metrics] is falsy at [null] (its first value) and at a body
    that parsed to a falsy value. *)
Definition render (st : State) : View :=
  if loading st then Skeleton
  else
    let errorSet :=
      match error st with
      | Some e => JsString.truthy e
      | None => false
      end in
    match metrics st with
    | Some data =>
        if errorSet || negb (truthyJson data)
        then Alert (optOrElse (error st)
                      "Could not load dashboard metrics data.")
        else Cards data
    | None => Alert (optOrElse (error st)
                       "Could not load dashboard metrics data.")
    end.

Section Component.
Context {engine : JsEngine}.

(** [loadMetrics()], run once when the component mounts. *)
Definition loadMetrics (outcome : completion (Http.Response DashboardJson))
  (st : State) : State :=
  let st := {| metrics := metrics st; loading := true; error := error st |} in
  let st := {| metrics := metrics st; loading := loading st; error := None |} in
  let st :=
    match fetchDashboardMetrics outcome with
    | Normal data =>
        {| metrics := Some data; loading := loading st; error := error st |}
    | Throw message =>
        {| metrics := metrics st; loading := loading st;
           error := Some message |}
    end in
  {| metrics := metrics st; loading := false; error := error st |}.

End Component.

End DashboardMetrics.
(** ** A reference engine

    One concrete engine, used to run the model on actual strings: the
    ECMAScript date-time string format [YYYY-MM-DDTHH:mm:ss.sssZ] (with
    its shorter forms), and decimal literals for [Number]. Strings outside
    these formats are rejected, as a strict engine does. *)

Module ReferenceEngine.

(** The white space and the line terminators of ECMAScript, each as its
    bytes in UTF-8: TAB, LF, VT, FF, CR, SP; U+00A0; U+1680; U+2000 to
    U+200A; U+2028, U+2029; U+202F; U+205F; U+3000; U+FEFF. *)
Definition whiteSpace : list (list nat) :=
  [ [9]; [10]; [11]; [12]; [13]; [32];
    [194; 160];
    [225; 154; 128];
    [226; 128; 128]; [226; 128; 129]; [226; 128; 130]; [226; 128; 131];
    [226; 128; 132]; [226; 128; 133]; [226; 128; 134]; [226; 128; 135];
    [226; 128; 136]; [226; 128; 137]; [226; 128; 138];
    [226; 128; 168]; [226; 128; 169];
    [226; 128; 175];
    [226; 129; 159];
    [227; 128; 128];
    [239; 187; 191] ]%nat.

(** The bytes after the prefix [p], when [l] begins with [p]. *)
Fixpoint afterPrefix (p l : list nat) : option (list nat) :=
  match p, l with
  | [], _ => Some l
  | x :: p', y :: l' => if (x =? y)%nat then afterPrefix p' l' else None
  | _ :: _, [] => None
  end.

(** The bytes after the first character, when it is one of [table]. *)
Fixpoint afterOneOf (table : list (list nat)) (l : list nat)
  : option (list nat) :=
  match table with
  | [] => None
  | p :: table' =>
      match afterPrefix p l with
      | Some rest => Some rest
      | None => afterOneOf table' l
      end
  end.

(** The characters of [table] are dropped from the head, at most [fuel]
    of them. *)
Fixpoint dropLeading (fuel : nat) (table : list (list nat)) (l : list nat)
  : list nat :=
  match fuel with
  | O => l
  | S fuel' =>
      match afterOneOf table l with
      | Some rest => dropLeading fuel' table rest
      | None => l
      end
  end.

(** [s.trim()] *)
Definition trimWhiteSpace (s : string) : string :=
  let bytes := map nat_of_ascii (list_ascii_of_string s) in
  let fromStart := dropLeading (List.length bytes) whiteSpace bytes in
  let fromEnd :=
    rev (dropLeading (List.length fromStart) (map (@rev nat) whiteSpace)
           (rev fromStart)) in
  string_of_list_ascii (map ascii_of_nat fromEnd).

(** [s.toLowerCase()] on the letters of Basic Latin (A to Z) and of the
    Latin-1 Supplement (U+00C0 to U+00DE without the sign U+00D7, in
    UTF-8 the byte 195 and a byte from 128 to 158); the strings of the
    runs below have no other cased letter. *)
Definition lowerByte (c : ascii) : ascii :=
  let n := nat_of_ascii c in
  if ((65 <=? n) && (n <=? 90))%nat then ascii_of_nat (n + 32) else c.

Fixpoint lowerCase (s : string) : string :=
  match s with
  | EmptyString => EmptyString
  | String a s1 =>
      match s1 with
      | String b s2 =>
          let x := nat_of_ascii a in
          let y := nat_of_ascii b in
          if ((x =? 195) && (128 <=? y) && (y <=? 158) && negb (y =? 151))%nat
          then String a (String (ascii_of_nat (y + 32)) (lowerCase s2))
          else String (lowerByte a) (lowerCase s1)
      | EmptyString => String (lowerByte a) EmptyString
      end
  end.

Definition digit (c : ascii) : option Z :=
  let n := nat_of_ascii c in
  if ((48 <=? n) && (n <=? 57))%nat then Some (Z.of_nat n - 48) else None.

(** Exactly [k] decimal digits. *)
Fixpoint digits (k : nat) (s : string) (acc : Z) : option (Z * string) :=
  match k with
  | O => Some (acc, s)
  | S k' =>
      match s with
      | String c s' =>
          match digit c with
          | Some d => digits k' s' (10 * acc + d)
          | None => None
          end
      | EmptyString => None
      end
  end.

(** All leading decimal digits: their value, their count, the rest. *)
Fixpoint digitRun (s : string) (acc : Z) (n : nat) : Z * nat * string :=
  match s with
  | String c s' =>
      match digit c with
      | Some d => digitRun s' (10 * acc + d) (S n)
      | None => (acc, n, s)
      end
  | EmptyString => (acc, n, s)
  end.

Definition expect (c : ascii) (s : string) : option string :=
  match s with
  | String c' s' => if Ascii.eqb c c' then Some s' else None
  | EmptyString => None
  end.

Definition isLeapYear (y : Z) : bool :=
  (y mod 4 =? 0) && (negb (y mod 100 =? 0) || (y mod 400 =? 0)).

Definition daysInMonth (y m : Z) : Z :=
  if m =? 2 then (if isLeapYear y then 29 else 28)
  else if (m =? 4) || (m =? 6) || (m =? 9) || (m =? 11) then 30
  else 31.

Definition bindO {A B : Type} (o : option A) (k : A -> option B) : option B :=
  match o with Some a => k a | None => None end.

Notation "'let?' x := o 'in' k" := (bindO o (fun x => k))
  (at level 10, x pattern, o at level 100, k at level 200).

(** [YYYY-MM-DD]: the day number. *)
Definition parseDatePart (s : string) : option (Z * string) :=
  let? (y, s1) := digits 4 s 0 in
  let? s2 := expect "-" s1 in
  let? (m, s3) := digits 2 s2 0 in
  let? s4 := expect "-" s3 in
  let? (d, s5) := digits 2 s4 0 in
  if (1 <=? m) && (m <=? 12) && (1 <=? d) && (d <=? daysInMonth y m)
  then Some (JsDate.daysFromCivil y m d, s5)
  else None.

(** [.s+], kept to milliseconds. *)
Definition parseFraction (s : string) : option (Z * string) :=
  match s with
  | String "." s1 =>
      match digitRun s1 0 0 with
      | (_, O, _) => None
      | (v, 1%nat, rest) => Some (v * 100, rest)
      | (v, 2%nat, rest) => Some (v * 10, rest)
      | (v, S (S (S k)), rest) => Some (v / 10 ^ Z.of_nat k, rest)
      end
  | _ => Some (0, s)
  end.

(** [THH:mm], [THH:mm:ss], [THH:mm:ss.sss]: milliseconds in the day. *)
Definition parseTimePart (s : string) : option (Z * string) :=
  let? (h, s1) := digits 2 s 0 in
  let? s2 := expect ":" s1 in
  let? (mi, s3) := digits 2 s2 0 in
  let? (sec, ms, s4) :=
    match s3 with
    | String ":" s3' =>
        let? (sec, s4) := digits 2 s3' 0 in
        let? (ms, s5) := parseFraction s4 in
        Some (sec, ms, s5)
    | _ => Some (0, 0, s3)
    end in
  if ((h <=? 23) && (mi <=? 59) && (sec <=? 59))
     || ((h =? 24) && (mi =? 0) && (sec =? 0) && (ms =? 0))
  then Some (h * 3600000 + mi * 60000 + sec * 1000 + ms, s4)
  else None.

(** [Z] or [+HH:mm] or [-HH:mm]: minutes east of UTC; [None] inside
    when the string has no offset. *)
Definition parseOffset (s : string) : option (option Z) :=
  match s with
  | EmptyString => Some None
  | String "Z" EmptyString => Some (Some 0)
  | String sign s1 =>
      let? sg := (if Ascii.eqb sign "+" then Some 1
                  else if Ascii.eqb sign "-" then Some (-1) else None) in
      let? (h, s2) := digits 2 s1 0 in
      let? s3 := expect ":" s2 in
      let? (mi, s4) := digits 2 s3 0 in
      match s4 with
      | EmptyString =>
          if (h <=? 23) && (mi <=? 59) then Some (Some (sg * (h * 60 + mi)))
          else None
      | _ => None
      end
  end.

(** [Date.parse]: a date-only form is UTC; a date-time form without an
    offset is local time, [timezoneOffset] minutes behind UTC (the value
    of [getTimezoneOffset()]). *)
Definition parseIso (timezoneOffset : Z) (s : string) : option Z :=
  let? (day, s1) := parseDatePart s in
  match s1 with
  | EmptyString => Some (day * JsDate.msPerDay)
  | String "T" s2 =>
      let? (msInDay, s3) := parseTimePart s2 in
      let? offset := parseOffset s3 in
      let local := day * JsDate.msPerDay + msInDay in
      match offset with
      | Some east => Some (local - east * 60000)
      | None => Some (local + timezoneOffset * 60000)
      end
  | _ => None
  end.

(** [Number(s)] on a decimal literal with an optional sign and fraction;
    the empty string is 0. *)
Definition parseDecimal (s : string) : JsNumber :=
  let t := trimWhiteSpace s in
  match t with
  | EmptyString => Num 0
  | String c rest =>
      let '(sg, body) :=
        if Ascii.eqb c "-" then (-1, rest)
        else if Ascii.eqb c "+" then (1, rest)
        else (1, t) in
      let '(ip, ni, s1) := digitRun body 0 0 in
      match s1 with
      | EmptyString =>
          match ni with
          | O => NaN
          | _ => Num (inject_Z (sg * ip))
          end
      | String "." s2 =>
          let '(fp, nf, s3) := digitRun s2 0 0 in
          match s3, (ni + nf)%nat with
          | EmptyString, S _ =>
              let scale := 10 ^ Z.of_nat nf in
              Num (Qred (sg * (ip * scale + fp) # Z.to_pos scale))
          | _, _ => NaN
          end
      | _ => NaN
      end
  end.

Definition printZ (z : Z) : string := NilZero.string_of_int (Z.to_int z).

Fixpoint fractionDigits (fuel : nat) (num den : Z) : string :=
  match fuel with
  | O => EmptyString
  | S fuel' =>
      if num =? 0 then EmptyString
      else printZ (10 * num / den) ++
           fractionDigits fuel' (10 * num mod den) den
  end.

(** Decimal printing: exact on integers and on short decimals. *)
Definition printNumber (q : Q) : string :=
  let n := Qnum q in
  let d := Zpos (Qden q) in
  let a := Z.abs n in
  (if n <? 0 then "-" else "") ++ printZ (a / d) ++
  (if a mod d =? 0 then "" else "." ++ fractionDigits 17 (a mod d) d).

Definition engine (timezoneOffset : Z) : JsEngine := {|
  newDate := fun s => Normal (parseIso timezoneOffset s);
  toNumber := parseDecimal;
  numberToString := printNumber;
  trim := trimWhiteSpace;
  toLowerCase := lowerCase
|}.

(** 00:00:00 UTC on the given civil date, as a time value. *)
Definition utcMidnight (y m d : Z) : Z :=
  JsDate.daysFromCivil y m d * JsDate.msPerDay.

End ReferenceEngine.


(** ** Definitions used to state and check properties *)

(** [p] holds of the [n] integers from [z0] on. *)
Fixpoint allFrom (n : nat) (z0 : Z) (p : Z -> bool) : bool :=
  match n with
  | O => true
  | S k => p z0 && allFrom k (z0 + 1) p
  end.

(** The date within a 400-year era, as [JsDate.civilFromDays] computes
    it: the year of the era (counted from 1 March), the month and the day
    of the month. *)
Definition eraDate (doe : Z) : Z * Z * Z :=
  let yoe := (doe - doe / 1460 + doe / 36524 - doe / 146096) / 365 in
  let doy := doe - (365 * yoe + yoe / 4 - yoe / 100) in
  let mp := (5 * doy + 2) / 153 in
  let d := doy - (153 * mp + 2) / 5 + 1 in
  let m := if mp <? 10 then mp + 3 else mp - 9 in
  (yoe, m, d).

(** The day of the era of such a date, as [JsDate.daysFromCivil] computes
    it. *)
Definition eraDay (yoe m d : Z) : Z :=
  let mp := if 2 <? m then m - 3 else m + 9 in
  let doy := (153 * mp + 2) / 5 + d - 1 in
  yoe * 365 + yoe / 4 - yoe / 100 + doy.

(** What is checked of each of the 146097 days of an era: the ranges of
    the date, that [eraDay] inverts [eraDate], and where the years 0..99
    and 400 of the era (counted from 1 January) begin and end. *)
Definition eraCheck (doe : Z) : bool :=
  let '(yoe, m, d) := eraDate doe in
  let y := if m <=? 2 then yoe + 1 else yoe in
  (0 <=? yoe) && (yoe <=? 399) && (1 <=? m) && (m <=? 12) &&
  (1 <=? d) && (d <=? 31) && (eraDay yoe m d =? doe) &&
  ((doe <? 36465) || (100 <=? y)) &&
  ((36464 <? doe) || (y <=? 99)) &&
  ((doe <? 146037) || (400 <=? y)) &&
  ((146036 <? doe) || (y <=? 399)).

(** The UTC year of the time value is one that [Date.UTC] reads as
    19xx. *)
Definition twoDigitYear (t : Z) : bool :=
  (0 <=? JsDate.getUTCFullYear t) && (JsDate.getUTCFullYear t <=? 99).

(** The day numbers of 1 January of the years 0 and 100. *)
Definition dayOfYear0 : Z := -719528.
Definition dayOfYear100 : Z := -683003.

(** The reference is [null], empty, or the sentinel: the first test of
    both classifiers. *)
Definition isUnset (referenceDateString : option string) : bool :=
  match referenceDateString with
  | None => true
  | Some s => negb (JsString.truthy s) || JsString.startsWith s "0000-00-00"
  end.

(** The bucket of a classification. *)
Definition bucketOf (c : completion NotificationList.StatusResult)
  : completion NotificationStatus :=
  do r <- c; Normal (NotificationList.status r).

(** An item is actionable: it has an approver and a positive quantity. *)
Definition actionable {A : Type} {row : PartRow A} (item : A) : Prop :=
  (exists approver, rowApprovedBy item = Some approver) /\
  (0 < rowQuantity item)%Q.

(** Both row types obey the laws of the copy. *)
#[global] Instance NotificationItem_rowLaws :
  PartRowLaws NotificationList.NotificationItem.
Proof. split; reflexivity. Qed.

#[global] Instance ListItem_rowLaws : PartRowLaws ListPartItem.ListItem.
Proof. split; reflexivity. Qed.

(** The ways a handler changes a collection: not at all, to a freshly
    fetched and filtered list (or the empty list), or by a
    reconciliation. *)
Inductive collectionStep {A : Type} {row : PartRow A} (l : list A)
  : list A -> Prop :=
| collection_kept : collectionStep l l
| collection_replaced (l' : list A) :
    Forall actionable l' -> collectionStep l l'
| collection_reconciled (actionItem : A) (quantityChanged : Q) :
    collectionStep l (reconcile actionItem quantityChanged l).

(** The ways a POST of an action fails: the transport fails, the body is
    not JSON or is [null], the HTTP status is not OK, or the body's status
    is not [success]. *)
Definition actionFails (outcome : completion (Http.Response Http.Json)) : Prop :=
  match outcome with
  | Throw _ => True
  | Normal response =>
      match Http.json response with
      | Throw _ => True
      | Normal Http.JsonNull => True
      | Normal (Http.JsonObj o) =>
          Http.ok response = false \/ isSuccess (Http.status o) = false
      end
  end.

(** The classifier in the words of its contract: an unset or invalid
    reference is [{days: null, bucket: ok}]; otherwise both instants are
    truncated to UTC midnight, [floorDays] is the floor of their difference
    over 86 400 000, a negative [floorDays] is [{days: 0, bucket: ok}], and
    the bucket is the first match of [> 90], [> 30], [>= 14]. [reference]
    is the time value the reference parses to, if any. *)
Definition classify (now : Z) (reference : option Z)
  : NotificationList.StatusResult :=
  match reference with
  | None => {| NotificationList.days := None; NotificationList.status := ok |}
  | Some t =>
      let todayUTCMidnight := JsDate.Day now * 86400000 in
      let refUTCMidnight := JsDate.Day t * 86400000 in
      let floorDays := (todayUTCMidnight - refUTCMidnight) / 86400000 in
      if floorDays <? 0
      then {| NotificationList.days := Some 0; NotificationList.status := ok |}
      else {| NotificationList.days := Some floorDays;
              NotificationList.status :=
                if 90 <? floorDays then gt90
                else if 30 <? floorDays then gt30
                else if 14 <=? floorDays then gt14
                else ok |}
  end.




(** *** Sample data *)

(** 15 June 2024, 09:15 UTC. *)
Definition sampleNow : Z :=
  ReferenceEngine.utcMidnight 2024 6 15 + 9 * 3600000 + 15 * 60000.

Definition sampleItem (id : string) (quantity : Q)
  : NotificationList.NotificationItem :=
  {| NotificationList.id := id;
     NotificationList.partNumber := "PN-" ++ id;
     NotificationList.typeDescription := "Panel";
     NotificationList.quantity := quantity;
     NotificationList.returnDate := Some "2024-03-01 08:00:00";
     NotificationList.createdBy := Some "U7";
     NotificationList.approvedBy := Some "U1";
     NotificationList.lastUpdated := Some "2024-03-02 10:00:00";
     NotificationList.daysSinceReturn := Some 106;
     NotificationList.notificationStatus := gt90 |}.

Definition sampleListItem (id : string) (quantity : Q) : ListPartItem.ListItem :=
  {| ListPartItem.id := id;
     ListPartItem.partNumber := "PN-" ++ id;
     ListPartItem.quantity := quantity;
     ListPartItem.typeDescription := "Panel";
     ListPartItem.statusDescription := "Approved";
     ListPartItem.lastUpdatedDisplay := "02/03/2024";
     ListPartItem.lastUpdatedObject := 1709373600000;
     ListPartItem.createdBy := Some "U7";
     ListPartItem.approvedBy := Some "U1";
     ListPartItem.approvedOnDisplay := "02/03/2024";
     ListPartItem.approvedOnObject := Some 1709373600000;
     ListPartItem.typeId := Some "2";
     ListPartItem.statusId := Some "1";
     ListPartItem.partCreatedDateDisplay := "01/03/2024";
     ListPartItem.partCreatedDateObject := 1709280000000 |}.

Definition sampleWorld : World :=
  {| requests := []; refreshKey := 0; sessionUserId := Some "U1" |}.

(** The notification list holding P1 (5 units) and P2 (7 units), with the
    issue-out modal opened on P1. *)
Definition sampleListOpen : NotificationList.State :=
  NotificationList.openIssueOutModal (sampleItem "P1" 5)
    (NotificationList.setIsLoading false
       (NotificationList.setAllNotificationData
          (fun _ => [sampleItem "P1" 5; sampleItem "P2" 7])
          NotificationList.initialState)).

(** The part list in the same situation. *)
Definition samplePartsOpen : ListPartItem.State :=
  ListPartItem.openIssueOutModal (sampleListItem "P1" 5)
    (ListPartItem.setIsLoading false
       (ListPartItem.setAllData
          (fun _ => [sampleListItem "P1" 5; sampleListItem "P2" 7])
          ListPartItem.initialState)).

Definition jsonResponse (ok : bool) (httpStatus : Z) (status : string)
  (message : option string) : Http.Response Http.Json :=
  {| Http.ok := ok; Http.httpStatus := httpStatus;
     Http.statusText := "";
     Http.contentType := Some "application/json";
     Http.json := Normal (Http.JsonObj {| Http.status := Some status;
                                          Http.message := message;
                                          Http.items := Http.ItemsUndefined |}) |}.

(** A server that answers every request 200 [{status: success}]. *)
Definition acceptingServer : Http.Server :=
  fun _ => Normal (jsonResponse true 200 "success" None).

(** A server that answers every request 500
    [{status: error, message: Insufficient stock}]. *)
Definition refusingServer : Http.Server :=
  fun _ => Normal (jsonResponse false 500 "error" (Some "Insufficient stock")).

Definition typed (quantity remarks : string) : IssueOutItemModal.State :=
  {| IssueOutItemModal.quantity := quantity;
     IssueOutItemModal.remarks := remarks;
     IssueOutItemModal.isSubmitting := false;
     IssueOutItemModal.error := None;
     IssueOutItemModal.showQuantityWarning := false |}.

Definition typedDamage (quantity remarks : string) : DamageItemModal.State :=
  {| DamageItemModal.quantity := quantity;
     DamageItemModal.remarks := remarks;
     DamageItemModal.isSubmitting := false;
     DamageItemModal.error := None;
     DamageItemModal.showQuantityWarning := false |}.

(** The part P1 as the server lists it: 10 units, approved by U1, created
    95 days before [sampleNow]. *)
Definition sampleApiItem : Api.ListItem :=
  {| Api.part_id := "P1"; Api.part_number := "PN-P1";
     Api.quantity := AsString "10";
     Api.type_description := "Panel"; Api.status_description := "Approved";
     Api.updated_on := Some "2024-03-12 10:00:00";
     Api.created_by_user := Some "U7"; Api.approved_by_user := Present "U1";
     Api.approved_on := Some "2024-03-12 10:00:00";
     Api.type := Some "2"; Api.status := Some "1";
     Api.created_on := Some "2024-03-12 08:00:00" |}.

(** A server that lists [sampleApiItem] and accepts every action. *)
Definition sampleServer : Http.Server :=
  fun r =>
    match Http.url r with
    | PARTS_API_URL =>
        Normal {| Http.ok := true; Http.httpStatus := 200;
                  Http.statusText := "OK";
                  Http.contentType := Some "application/json";
                  Http.json :=
                    Normal (Http.JsonObj
                              {| Http.status := Some "success";
                                 Http.message := None;
                                 Http.items := Http.ItemsArray [sampleApiItem] |}) |}
    | _ => acceptingServer r
    end.

(** A server that answers the GET of the parts with [items] and accepts
    every action. *)
Definition listingServer (items : list Api.ListItem) : Http.Server :=
  fun r =>
    match Http.url r with
    | PARTS_API_URL =>
        Normal {| Http.ok := true; Http.httpStatus := 200;
                  Http.statusText := "OK";
                  Http.contentType := Some "application/json";
                  Http.json :=
                    Normal (Http.JsonObj
                              {| Http.status := Some "success";
                                 Http.message := None;
                                 Http.items := Http.ItemsArray items |}) |}
    | _ => acceptingServer r
    end.

(** [sampleApiItem] listed without the member [approved_by_user]. *)
Definition sampleApiItemWithoutApprover : Api.ListItem :=
  {| Api.part_id := Api.part_id sampleApiItem;
     Api.part_number := Api.part_number sampleApiItem;
     Api.quantity := Api.quantity sampleApiItem;
     Api.type_description := Api.type_description sampleApiItem;
     Api.status_description := Api.status_description sampleApiItem;
     Api.updated_on := Api.updated_on sampleApiItem;
     Api.created_by_user := Api.created_by_user sampleApiItem;
     Api.approved_by_user := Absent;
     Api.approved_on := Api.approved_on sampleApiItem;
     Api.type := Api.type sampleApiItem;
     Api.status := Api.status sampleApiItem;
     Api.created_on := Api.created_on sampleApiItem |}.

(** *** More definitions used to state properties *)

(** The GET that the two tables and the sidebar send. *)
Definition partsRequest : Http.Request :=
  {| Http.url := PARTS_API_URL; Http.method := "GET";
     Http.body := Http.NoBody |}.

(** The server answers the GET with a body [{status: success, items:
    [...]}]; [listsParts] adds that the HTTP status is OK. *)
Definition answersParts (server : Http.Server) (items : list Api.ListItem)
  : Prop :=
  exists response o,
    server partsRequest = Normal response /\
    Http.json response = Normal (Http.JsonObj o) /\
    isSuccess (Http.status o) = true /\
    Http.items o = Http.ItemsArray items.

Definition listsParts (server : Http.Server) (items : list Api.ListItem)
  : Prop :=
  exists response o,
    server partsRequest = Normal response /\
    Http.ok response = true /\
    Http.json response = Normal (Http.JsonObj o) /\
    isSuccess (Http.status o) = true /\
    Http.items o = Http.ItemsArray items.

(** A reference in the form both classifiers read alike: unset, or with
    no [T] and no final [Z]. *)
Definition serverFormat (ref : option string) : bool :=
  isUnset ref ||
  match ref with
  | Some s => negb (JsString.includes s "T") && negb (JsString.endsWith s "Z")
  | None => true
  end.

(** The sum of the quantities of a collection. *)
Definition totalQuantity {A : Type} {row : PartRow A} (l : list A) : Q :=
  fold_right (fun item acc => (rowQuantity item + acc)%Q) 0%Q l.

(** The filter of the tables on a listed part: it has an approver (its
    [approved_by_user] is neither [null] nor absent) and its quantity,
    read as a number, is positive. *)
Definition approvedInStock {engine : JsEngine} (item : Api.ListItem) : bool :=
  match orNull (Api.approved_by_user item) with
  | Some _ => Qgtb (numberOrZero (Number (Api.quantity item))) 0
  | None => false
  end.

(** The classifier's result as a value (the classifier never throws). *)
Definition classification {engine : JsEngine} (now : Z) (ref : option string)
  : NotificationList.StatusResult :=
  match NotificationList.getNotificationStatus now ref with
  | Normal r => r
  | Throw _ => {| NotificationList.days := None;
                  NotificationList.status := ok |}
  end.

(** The part is overdue at [now]: the second filter of the notification
    list. *)
Definition overdueAt {engine : JsEngine} (now : Z) (item : Api.ListItem) : bool :=
  negb (NotificationStatus_eqb
          (NotificationList.status (classification now (Api.created_on item)))
          ok).

(** A row of the notification list is overdue: it has a day count of at
    least 14, its bucket is the bucket of that count, and its return date
    is a reference that parses. *)
Definition overdueRow {engine : JsEngine}
  (item : NotificationList.NotificationItem) : Prop :=
  exists d s t,
    NotificationList.daysSinceReturn item = Some d /\ 14 <= d /\
    NotificationList.notificationStatus item = statusOfDiffDays d /\
    NotificationList.returnDate item = Some s /\
    isUnset (Some s) = false /\
    newDate (NotificationList.isoReferenceDateString s) = Normal (Some t).

(** The ways a handler changes a collection, with what a fetch may
    produce left open. *)
Inductive collectionChange {A : Type} {row : PartRow A}
  (fetched : list A -> Prop) (l : list A) : list A -> Prop :=
| change_none : collectionChange fetched l l
| change_fetched (l' : list A) : fetched l' -> collectionChange fetched l l'
| change_reconciled (actionItem : A) (quantityChanged : Q) :
    collectionChange fetched l (reconcile actionItem quantityChanged l).

(** What a fetch of the notification list may leave: nothing, or the
    mapped items of some response that are approved, in stock and
    overdue. *)
Definition fetchedNotifications {engine : JsEngine}
  (l : list NotificationList.NotificationItem) : Prop :=
  l = nil \/
  exists now items mapped,
    NotificationList.mapC (NotificationList.mapApiToNotificationItem now) items
      = Normal mapped /\
    l = filter (fun item =>
                  negb (NotificationStatus_eqb
                          (NotificationList.notificationStatus item) ok))
          (filter isApprovedInStock mapped).

(** What a fetch of the part list may leave. *)
Definition fetchedParts {engine : JsEngine} (l : list ListPartItem.ListItem)
  : Prop :=
  l = nil \/
  exists items,
    l = filter isApprovedInStock (map ListPartItem.mapApiToState items).

(** The date as both tables print it, [DD/MM/YYYY] in UTC. *)
Definition printedDate {engine : JsEngine} (t : Z) : string :=
  JsString.padStart0 2 (numberToString (inject_Z (JsDate.getUTCDate t)))
  ++ "/" ++
  JsString.padStart0 2 (numberToString (inject_Z (JsDate.getUTCMonth t + 1)))
  ++ "/" ++ numberToString (inject_Z (JsDate.getUTCFullYear t)).

(** The POST of an action succeeds: the HTTP status is OK and the body
    is an object whose status is [success]. *)
Definition actionSucceeds (outcome : completion (Http.Response Http.Json))
  : Prop :=
  match outcome with
  | Throw _ => False
  | Normal response =>
      match Http.json response with
      | Normal (Http.JsonObj o) =>
          Http.ok response = true /\ isSuccess (Http.status o) = true
      | _ => False
      end
  end.

(** The request of an action. *)
Definition post (apiUrl : Endpoint) (payload : Http.Body) : Http.Request :=
  {| Http.url := apiUrl; Http.method := "POST"; Http.body := payload |}.

(** The world after one more request. *)
Definition sent (r : Http.Request) (w : World) : World :=
  {| requests := requests w ++ [r];
     refreshKey := refreshKey w;
     sessionUserId := sessionUserId w |}.

(** [getCurrentUserId()] gives a user. *)
Definition userKnown (w : World) : bool :=
  match NotificationList.getCurrentUserId w with
  | Some u => JsString.truthy u
  | None => false
  end.

(** The remarks of an issue-out as the modal sends them. *)
Definition issueOutRemarks {engine : JsEngine} (m : IssueOutItemModal.State)
  : option string :=
  if JsString.truthy (trim (IssueOutItemModal.remarks m))
  then Some (trim (IssueOutItemModal.remarks m))
  else None.

(** The notification list after its first fetch from [sampleServer], and
    the row it then holds. *)
Definition sampleFetched : NotificationList.State * World :=
  NotificationList.step (engine := ReferenceEngine.engine 0)
    (NotificationList.Fetch sampleServer sampleNow true)
    (NotificationList.initialState, sampleWorld).

Definition sampleRow : NotificationList.NotificationItem :=
  {| NotificationList.id := "P1";
     NotificationList.partNumber := "PN-P1";
     NotificationList.typeDescription := "Panel";
     NotificationList.quantity := 10;
     NotificationList.returnDate := Some "2024-03-12 08:00:00";
     NotificationList.createdBy := Some "U7";
     NotificationList.approvedBy := Some "U1";
     NotificationList.lastUpdated := Some "2024-03-12 10:00:00";
     NotificationList.daysSinceReturn := Some 95;
     NotificationList.notificationStatus := gt90 |}.

(** The part list after its first fetch from [sampleServer]. *)
Definition samplePartsFetched : ListPartItem.State * World :=
  ListPartItem.step (engine := ReferenceEngine.engine 0)
    (ListPartItem.Fetch sampleServer true)
    (ListPartItem.initialState, sampleWorld).

(** What a handler may do to the world: it sends at most one request,
    moves the refresh counter by one at most, and leaves the session
    alone. *)
Definition worldStep (w w' : World) : Prop :=
  sessionUserId w' = sessionUserId w /\
  (refreshKey w' = refreshKey w \/ refreshKey w' = refreshKey w + 1) /\
  exists more, requests w' = (requests w ++ more)%list /\ (List.length more <= 1)%nat.

(** The sidebar's bucket as a value (its classifier never throws). *)
Definition badgeStatus {engine : JsEngine} (now : Z) (ref : option string)
  : NotificationStatus :=
  match AuthPageLayout.getNotificationStatusForBadge now ref with
  | Normal b => b
  | Throw _ => ok
  end.

(** The rows of the notification list that are critical. *)
Definition isCriticalRow (item : NotificationList.NotificationItem) : bool :=
  NotificationStatus_eqb (NotificationList.notificationStatus item) gt90.

(** The entry of the menu that carries the badge. *)
Definition notificationEntry : AuthPageLayout.NavItem :=
  {| AuthPageLayout.name := "Notification";
     AuthPageLayout.path := Some "/notification";
     AuthPageLayout.roles := None |}.

(** What the filter controls of the two tables ask of a row: its type
    is the chosen one (whatever the case of the letters), its part number
    contains the trimmed search term (likewise), its bucket is the chosen
    one. *)
Definition matchesType {engine : JsEngine}
  (activeFilter typeDescription : string) : bool :=
  String.eqb activeFilter "All" ||
  String.eqb (toLowerCase typeDescription)
    (toLowerCase activeFilter).

Definition matchesSearch {engine : JsEngine}
  (searchTerm partNumber : string) : bool :=
  negb (JsString.truthy (trim searchTerm)) ||
  JsString.includes (toLowerCase partNumber)
    (trim (toLowerCase searchTerm)).

Definition matchesAge (activeAgeFilter : string) (b : NotificationStatus)
  : bool :=
  String.eqb activeAgeFilter "all" ||
  String.eqb (NotificationList.statusName b) activeAgeFilter.

(** The local calendar day of a time value. *)
Definition localDay (timezoneOffset t : Z) : Z :=
  JsDate.Day (JsDate.localTime timezoneOffset t).

(** The date range of the part list in terms of local days: both ends
    are inclusive, and a single date stands for its own day. *)
Definition matchesDates (timezoneOffset : Z) (fromDate toDate : option Z)
  (created : Z) : bool :=
  match fromDate, toDate with
  | None, None => true
  | Some f, None =>
      localDay timezoneOffset created =? localDay timezoneOffset f
  | None, Some t =>
      localDay timezoneOffset created =? localDay timezoneOffset t
  | Some f, Some t =>
      (localDay timezoneOffset f <=? localDay timezoneOffset created) &&
      (localDay timezoneOffset created <=? localDay timezoneOffset t)
  end.

(** *** Proof steps that recur *)

(** The cases of the threshold cascade at a day count. *)
Ltac thresholds d :=
  destruct (90 <? d) eqn:?; destruct (30 <? d) eqn:?;
  destruct (14 <=? d) eqn:?.

(** The five facts about the state after a failure. *)
Ltac failed := repeat split; eexists; split; reflexivity.


(** * Properties *)

(** * The calendar *)

Lemma allFrom_spec (p : Z -> bool) (n : nat) :
  forall z0, allFrom n z0 p = true ->
  forall z, z0 <= z < z0 + Z.of_nat n -> p z = true.
Proof.
  induction n as [|k IH]; simpl; intros z0 H z Hz.
  - lia.
  - apply andb_true_iff in H as [Hk Hrest].
    destruct (Z.eq_dec z z0) as [->|Hne]; [exact Hk|].
    apply (IH (z0 + 1)); [exact Hrest|lia].
Qed.

Lemma eraCheck_all : allFrom (Z.to_nat 146097) 0 eraCheck = true.
Proof. vm_compute. reflexivity. Qed.

Lemma eraCheck_true (doe : Z) : 0 <= doe < 146097 -> eraCheck doe = true.
Proof.
  intros H. apply (allFrom_spec eraCheck (Z.to_nat 146097) 0 eraCheck_all).
  rewrite Z2Nat.id; lia.
Qed.

Lemma civilFromDays_era (z : Z) :
  JsDate.civilFromDays z =
  let era := (z + 719468) / 146097 in
  let '(yoe, m, d) := eraDate ((z + 719468) mod 146097) in
  (if m <=? 2 then yoe + era * 400 + 1 else yoe + era * 400, m, d).
Proof. reflexivity. Qed.

Lemma daysFromCivil_era (yoe era m d : Z) :
  0 <= yoe <= 399 ->
  JsDate.daysFromCivil
    (if m <=? 2 then yoe + era * 400 + 1 else yoe + era * 400) m d
  = era * 146097 + eraDay yoe m d - 719468.
Proof.
  intros Hy. unfold JsDate.daysFromCivil, eraDay.
  assert (E : (if m <=? 2
               then (if m <=? 2 then yoe + era * 400 + 1 else yoe + era * 400) - 1
               else (if m <=? 2 then yoe + era * 400 + 1 else yoe + era * 400))
              = yoe + era * 400) by (destruct (m <=? 2); lia).
  rewrite E.
  rewrite Z.div_add by lia. rewrite Z.mod_add by lia.
  rewrite Z.div_small by lia. rewrite Z.mod_small by lia.
  lia.
Qed.

(** What the check gives for the day [z]. *)
Lemma civil_facts (z : Z) :
  let era := (z + 719468) / 146097 in
  let doe := (z + 719468) mod 146097 in
  exists yoe m d,
    JsDate.civilFromDays z =
      (if m <=? 2 then yoe + era * 400 + 1 else yoe + era * 400, m, d) /\
    0 <= yoe <= 399 /\ 1 <= m <= 12 /\ 1 <= d <= 31 /\
    eraDay yoe m d = doe /\
    (36465 <= doe -> 100 <= (if m <=? 2 then yoe + 1 else yoe)) /\
    (doe <= 36464 -> (if m <=? 2 then yoe + 1 else yoe) <= 99) /\
    (146037 <= doe -> 400 <= (if m <=? 2 then yoe + 1 else yoe)) /\
    (doe <= 146036 -> (if m <=? 2 then yoe + 1 else yoe) <= 399).
Proof.
  intros era doe.
  assert (Hdoe : 0 <= doe < 146097) by (apply Z.mod_pos_bound; lia).
  pose proof (eraCheck_true doe Hdoe) as C.
  pose proof (civilFromDays_era z) as E. cbv zeta in E. fold doe era in E.
  unfold eraCheck in C.
  destruct (eraDate doe) as [[yoe m] d].
  exists yoe, m, d.
  repeat (apply andb_true_iff in C as [C ?]).
  repeat match goal with
         | H : (_ || _) = true |- _ => apply orb_true_iff in H
         end.
  repeat split; try lia; try exact E.
Qed.

Lemma daysFromCivil_civilFromDays (z : Z) :
  let '(y, m, d) := JsDate.civilFromDays z in JsDate.daysFromCivil y m d = z.
Proof.
  destruct (civil_facts z) as (yoe & m & d & E & Hy & Hm & Hd & Hday & _).
  rewrite E. rewrite daysFromCivil_era by exact Hy. rewrite Hday.
  pose proof (Z.div_mod (z + 719468) 146097). lia.
Qed.

Lemma getUTCMonth_range (t : Z) : 0 <= JsDate.getUTCMonth t <= 11.
Proof.
  unfold JsDate.getUTCMonth.
  destruct (civil_facts (JsDate.Day t)) as (yoe & m & d & E & _ & Hm & _).
  rewrite E. simpl. lia.
Qed.

Lemma getUTCDate_range (t : Z) : 1 <= JsDate.getUTCDate t <= 31.
Proof.
  unfold JsDate.getUTCDate.
  destruct (civil_facts (JsDate.Day t)) as (yoe & m & d & E & _ & _ & Hd & _).
  rewrite E. simpl. lia.
Qed.

Lemma MakeDay_getters (t : Z) :
  JsDate.MakeDay (JsDate.getUTCFullYear t) (JsDate.getUTCMonth t)
    (JsDate.getUTCDate t) = JsDate.Day t.
Proof.
  pose proof (getUTCMonth_range t) as Hm.
  pose proof (daysFromCivil_civilFromDays (JsDate.Day t)) as R.
  unfold JsDate.MakeDay, JsDate.getUTCFullYear, JsDate.getUTCDate.
  unfold JsDate.getUTCMonth in *.
  destruct (JsDate.civilFromDays (JsDate.Day t)) as [[y m] d]. simpl in *.
  rewrite Z.div_small by lia. rewrite Z.mod_small by lia.
  replace (y + 0) with y by lia. replace (m - 1 + 1) with m by lia.
  rewrite <- R. unfold JsDate.daysFromCivil. lia.
Qed.

(** Off the years 0..99, [utcStart] is the midnight that begins the
    day. *)
Lemma utcStart_day (t : Z) :
  twoDigitYear t = false -> utcStart t = JsDate.Day t * JsDate.msPerDay.
Proof.
  intros H. unfold utcStart, JsDate.UTC. unfold twoDigitYear in H.
  rewrite H. rewrite MakeDay_getters. reflexivity.
Qed.

Lemma twoDigitYear_days (t : Z) :
  twoDigitYear t = true <->
  dayOfYear0 <= JsDate.Day t < dayOfYear100.
Proof.
  unfold twoDigitYear, JsDate.getUTCFullYear, dayOfYear0, dayOfYear100.
  destruct (civil_facts (JsDate.Day t))
    as (yoe & m & d & E & Hy & Hm & Hd & Hday & C1 & C2 & C3 & C4).
  rewrite E. simpl fst.
  pose proof (Z.div_mod (JsDate.Day t + 719468) 146097 ltac:(lia)) as DM.
  pose proof (Z.mod_pos_bound (JsDate.Day t + 719468) 146097 ltac:(lia)) as MB.
  set (era := (JsDate.Day t + 719468) / 146097) in *.
  set (doe := (JsDate.Day t + 719468) mod 146097) in *.
  rewrite andb_true_iff, Z.leb_le, Z.leb_le.
  destruct (m <=? 2); lia.
Qed.

(** In the years 0..99, [utcStart] lands in the twentieth century. *)
Lemma utcStart_twoDigit (t : Z) :
  twoDigitYear t = true -> -135080 * JsDate.msPerDay <= utcStart t.
Proof.
  intros H. unfold utcStart, JsDate.UTC.
  pose proof H as H'. unfold twoDigitYear in H'. rewrite H'.
  apply andb_true_iff in H' as [Y0 Y1]. apply Z.leb_le in Y0, Y1.
  pose proof (getUTCMonth_range t) as Hm.
  pose proof (getUTCDate_range t) as Hd.
  apply Z.mul_le_mono_nonneg_r; [unfold JsDate.msPerDay; lia|].
  unfold JsDate.MakeDay, JsDate.daysFromCivil.
  rewrite (Z.div_small (JsDate.getUTCMonth t)) by lia.
  rewrite (Z.mod_small (JsDate.getUTCMonth t)) by lia.
  set (y := JsDate.getUTCFullYear t) in *.
  set (mo := JsDate.getUTCMonth t) in *.
  set (y' := if mo + 1 <=? 2 then 1900 + y + 0 - 1 else 1900 + y + 0).
  assert (Hy' : 1899 <= y' <= 1999) by (unfold y'; destruct (mo + 1 <=? 2); lia).
  assert (He : y' / 400 = 4) by (symmetry; apply (Z.div_unique y' 400 4 (y' - 1600)); lia).
  assert (Hmod : y' mod 400 = y' - 1600)
    by (symmetry; apply (Z.mod_unique y' 400 4 (y' - 1600)); lia).
  rewrite He, Hmod.
  assert (0 <= (y' - 1600) / 4) by (apply Z.div_pos; lia).
  assert ((y' - 1600) / 100 < 4)
    by (apply Z.div_lt_upper_bound; lia).
  assert (0 <= (153 * (if 2 <? mo + 1 then mo + 1 - 3 else mo + 1 + 9) + 2) / 5)
    by (apply Z.div_pos; destruct (2 <? mo + 1) eqn:?; lia).
  lia.
Qed.

(** From an instant outside the years 0..99, [utcStart] does not
    decrease towards the future. *)
Lemma utcStart_future (now t : Z) :
  twoDigitYear now = false -> now <= t -> utcStart now <= utcStart t.
Proof.
  intros Hn Hle.
  assert (Hd : JsDate.Day now <= JsDate.Day t)
    by (apply Z.div_le_mono; [unfold JsDate.msPerDay; lia|exact Hle]).
  rewrite (utcStart_day now Hn).
  destruct (twoDigitYear t) eqn:Ht.
  - pose proof (utcStart_twoDigit t Ht) as B.
    apply twoDigitYear_days in Ht.
    assert (Hn' : ~ (dayOfYear0 <= JsDate.Day now < dayOfYear100)).
    { intros C. apply twoDigitYear_days in C. congruence. }
    unfold dayOfYear0, dayOfYear100, JsDate.msPerDay in *. lia.
  - rewrite (utcStart_day t Ht). unfold JsDate.msPerDay. lia.
Qed.

(** * The classifier *)

Lemma Normal_inj {A : Type} (a b : A) : Normal a = Normal b -> a = b.
Proof. intros H. congruence. Qed.

Lemma Some_inj {A : Type} (a b : A) : Some a = Some b -> a = b.
Proof. intros H. congruence. Qed.

Section ClassifierFacts.
Context {engine : JsEngine}.
Import NotificationList.

Lemma isUnset_false (s : string) :
  isUnset (Some s) = false ->
  negb (JsString.truthy s) || JsString.startsWith s "0000-00-00" = false.
Proof. intros H. exact H. Qed.

(** The classifier on a reference that parses. *)
Lemma getNotificationStatus_parsed (now : Z) (s : string) (t : Z) :
  isUnset (Some s) = false ->
  newDate (isoReferenceDateString s) = Normal (Some t) ->
  getNotificationStatus now (Some s) =
  Normal (if utcStart now - utcStart t <? 0
          then {| days := Some 0; status := ok |}
          else {| days := Some ((utcStart now - utcStart t) / JsDate.msPerDay);
                  status := statusOfDiffDays
                              ((utcStart now - utcStart t) / JsDate.msPerDay) |}).
Proof.
  intros Hu Hp. unfold getNotificationStatus.
  rewrite (isUnset_false s Hu), Hp. cbn [bindC tryCatch].
  destruct (utcStart now - utcStart t <? 0); reflexivity.
Qed.

(** The classifier never throws. *)
Lemma getNotificationStatus_total (now : Z) (ref : option string) :
  exists r, getNotificationStatus now ref = Normal r.
Proof.
  unfold getNotificationStatus.
  destruct ref as [s|]; [|eexists; reflexivity].
  destruct (negb (JsString.truthy s) || JsString.startsWith s "0000-00-00");
    [eexists; reflexivity|].
  destruct (newDate (isoReferenceDateString s)) as [[t|]|m];
    cbn [bindC tryCatch]; try (eexists; reflexivity).
  destruct (utcStart now - utcStart t <? 0); eexists; reflexivity.
Qed.

(** A reported day count is never negative, and the bucket is the one
    of the reported day count. *)
Lemma getNotificationStatus_days (now : Z) (ref : option string)
  (r : StatusResult) (d : Z) :
  getNotificationStatus now ref = Normal r -> days r = Some d ->
  0 <= d /\ status r = statusOfDiffDays d.
Proof.
  unfold getNotificationStatus.
  destruct ref as [s|]; [|cbn; intros [= <-]; discriminate].
  destruct (negb (JsString.truthy s) || JsString.startsWith s "0000-00-00");
    [cbn; intros [= <-]; discriminate|].
  destruct (newDate (isoReferenceDateString s)) as [[t|]|m];
    cbn [bindC tryCatch].
  - destruct (utcStart now - utcStart t <? 0) eqn:Hneg; intros Hr Hd;
      apply Normal_inj in Hr; subst r; cbn [days status] in *;
      apply Some_inj in Hd; subst d.
    + split; [lia|reflexivity].
    + split; [|reflexivity].
      apply Z.ltb_ge in Hneg. apply Z.div_pos; [exact Hneg|reflexivity].
  - intros [= <-]. discriminate.
  - intros [= <-]. discriminate.
Qed.

(** The day count is the difference of the day numbers, off the years
    0..99. *)
Lemma getNotificationStatus_whole_days (now : Z) (s : string) (t n : Z) :
  isUnset (Some s) = false ->
  newDate (isoReferenceDateString s) = Normal (Some t) ->
  twoDigitYear now = false -> twoDigitYear t = false ->
  JsDate.Day now - JsDate.Day t = n -> 0 <= n ->
  getNotificationStatus now (Some s) =
  Normal {| days := Some n; status := statusOfDiffDays n |}.
Proof.
  intros Hu Hp Hn Ht Hd Hpos.
  rewrite (getNotificationStatus_parsed now s t Hu Hp).
  rewrite (utcStart_day now Hn), (utcStart_day t Ht).
  replace (JsDate.Day now * JsDate.msPerDay - JsDate.Day t * JsDate.msPerDay)
    with (n * JsDate.msPerDay) by lia.
  assert (Hms : 0 < JsDate.msPerDay) by reflexivity.
  destruct (n * JsDate.msPerDay <? 0) eqn:E.
  - apply Z.ltb_lt in E. nia.
  - rewrite Z.div_mul by lia. reflexivity.
Qed.

(** The code computes what the contract says, off the years 0..99. *)
Lemma getNotificationStatus_classify (now : Z) (s : string) (t : Z) :
  isUnset (Some s) = false ->
  newDate (isoReferenceDateString s) = Normal (Some t) ->
  twoDigitYear now = false -> twoDigitYear t = false ->
  getNotificationStatus now (Some s) = Normal (classify now (Some t)).
Proof.
  intros Hu Hp Hn Ht.
  rewrite (getNotificationStatus_parsed now s t Hu Hp).
  rewrite (utcStart_day now Hn), (utcStart_day t Ht).
  unfold classify. change JsDate.msPerDay with 86400000.
  replace (JsDate.Day now * 86400000 - JsDate.Day t * 86400000)
    with ((JsDate.Day now - JsDate.Day t) * 86400000) by lia.
  rewrite Z.div_mul by lia.
  set (n := JsDate.Day now - JsDate.Day t).
  destruct (n * 86400000 <? 0) eqn:E1; destruct (n <? 0) eqn:E2;
    try reflexivity; lia.
Qed.

End ClassifierFacts.

(** ** Properties of the classifier *)

Lemma statusOfDiffDays_monotone (d1 d2 : Z) :
  d1 <= d2 ->
  severity (statusOfDiffDays d1) <= severity (statusOfDiffDays d2).
Proof.
  intros Hle. unfold statusOfDiffDays.
  thresholds d1; thresholds d2; cbn; lia.
Qed.

(** C8. For all non-negative day counts [d1 < d2], the bucket of [d2] is
    not of lower severity than the bucket of [d1], in the order
    ok < gt14 < gt30 < gt90. *)
Theorem bucket_monotonicity (d1 d2 : Z) :
  0 <= d1 -> d1 < d2 ->
  severity (statusOfDiffDays d1) <= severity (statusOfDiffDays d2).
Proof.
  intros _ Hlt. apply statusOfDiffDays_monotone. lia.
Qed.

Lemma bucket_monotonicity_witness :
  severity (statusOfDiffDays 20) <= severity (statusOfDiffDays 45).
Proof. apply (bucket_monotonicity 20 45); lia. Defined.

(** The same on the classifier's results: of two classifications with
    day counts [d1 < d2], the second bucket is not the lower one. *)
Lemma classifier_monotone {engine : JsEngine} (now : Z)
  (ref1 ref2 : option string) (r1 r2 : NotificationList.StatusResult)
  (d1 d2 : Z) :
  NotificationList.getNotificationStatus now ref1 = Normal r1 ->
  NotificationList.getNotificationStatus now ref2 = Normal r2 ->
  NotificationList.days r1 = Some d1 -> NotificationList.days r2 = Some d2 ->
  d1 < d2 ->
  severity (NotificationList.status r1) <= severity (NotificationList.status r2).
Proof.
  intros H1 H2 D1 D2 Hlt.
  destruct (getNotificationStatus_days now ref1 r1 d1 H1 D1) as [_ ->].
  destruct (getNotificationStatus_days now ref2 r2 d2 H2 D2) as [_ ->].
  apply statusOfDiffDays_monotone. lia.
Qed.

(** C5. A reference that lies exactly 14, 30, 31, 90 or 91 whole calendar
    days before now is classified gt14, gt14, gt30, gt30, gt90, with that
    day count. (Both instants outside the years 0..99, which [Date.UTC]
    reads as 19xx.) *)
Theorem boundary_exactness {engine : JsEngine} (now : Z) (s : string) (t : Z) :
  isUnset (Some s) = false ->
  newDate (NotificationList.isoReferenceDateString s) = Normal (Some t) ->
  twoDigitYear now = false -> twoDigitYear t = false ->
  (JsDate.Day now - JsDate.Day t = 14 ->
   NotificationList.getNotificationStatus now (Some s) =
   Normal {| NotificationList.days := Some 14;
             NotificationList.status := gt14 |}) /\
  (JsDate.Day now - JsDate.Day t = 30 ->
   NotificationList.getNotificationStatus now (Some s) =
   Normal {| NotificationList.days := Some 30;
             NotificationList.status := gt14 |}) /\
  (JsDate.Day now - JsDate.Day t = 31 ->
   NotificationList.getNotificationStatus now (Some s) =
   Normal {| NotificationList.days := Some 31;
             NotificationList.status := gt30 |}) /\
  (JsDate.Day now - JsDate.Day t = 90 ->
   NotificationList.getNotificationStatus now (Some s) =
   Normal {| NotificationList.days := Some 90;
             NotificationList.status := gt30 |}) /\
  (JsDate.Day now - JsDate.Day t = 91 ->
   NotificationList.getNotificationStatus now (Some s) =
   Normal {| NotificationList.days := Some 91;
             NotificationList.status := gt90 |}).
Proof.
  intros Hu Hp Hn Ht.
  repeat split; intros Hd;
    rewrite (getNotificationStatus_whole_days now s t _ Hu Hp Hn Ht Hd);
    (reflexivity || lia).
Qed.


Lemma boundary_exactness_witness :
  NotificationList.getNotificationStatus (engine := ReferenceEngine.engine 0)
    sampleNow (Some "2024-06-01 23:10:00") =
  Normal {| NotificationList.days := Some 14;
            NotificationList.status := gt14 |} /\
  NotificationList.getNotificationStatus (engine := ReferenceEngine.engine 0)
    sampleNow (Some "2024-03-16 00:00:00") =
  Normal {| NotificationList.days := Some 91;
            NotificationList.status := gt90 |}.
Proof.
  split.
  - apply (proj1 (boundary_exactness (engine := ReferenceEngine.engine 0)
                    sampleNow "2024-06-01 23:10:00" 1717283400000
                    eq_refl eq_refl eq_refl eq_refl)).
    reflexivity.
  - apply (proj2 (proj2 (proj2 (proj2
             (boundary_exactness (engine := ReferenceEngine.engine 0)
                sampleNow "2024-03-16 00:00:00" 1710547200000
                eq_refl eq_refl eq_refl eq_refl))))).
    reflexivity.
Defined.

(** C6. An unset reference ([null], empty, or beginning with the
    sentinel) and a reference that the engine cannot parse are classified
    [{days: null, status: ok}]; the call completes normally. *)
Theorem null_safety {engine : JsEngine} (now : Z) (ref : option string) :
  isUnset ref = true \/
  (exists s, ref = Some s /\
     (newDate (NotificationList.isoReferenceDateString s) = Normal None \/
      exists m, newDate (NotificationList.isoReferenceDateString s) = Throw m)) ->
  NotificationList.getNotificationStatus now ref =
  Normal {| NotificationList.days := None; NotificationList.status := ok |}.
Proof.
  unfold NotificationList.getNotificationStatus.
  intros [Hu | (s & -> & Hp)].
  - destruct ref as [s|]; [|reflexivity].
    cbn in Hu. rewrite Hu. reflexivity.
  - destruct (negb (JsString.truthy s) || JsString.startsWith s "0000-00-00");
      [reflexivity|].
    destruct Hp as [-> | [m ->]]; reflexivity.
Qed.

Lemma null_safety_witness :
  let classify :=
    NotificationList.getNotificationStatus
      (engine := ReferenceEngine.engine 0) sampleNow in
  let unset := Normal {| NotificationList.days := None;
                         NotificationList.status := ok |} in
  classify None = unset /\ classify (Some "") = unset /\
  classify (Some "0000-00-00 00:00:00") = unset /\
  classify (Some "not-a-date") = unset.
Proof.
  cbv zeta. split; [|split; [|split]].
  - apply (null_safety (engine := ReferenceEngine.engine 0)).
    left. reflexivity.
  - apply (null_safety (engine := ReferenceEngine.engine 0)).
    left. reflexivity.
  - apply (null_safety (engine := ReferenceEngine.engine 0)).
    left. reflexivity.
  - apply (null_safety (engine := ReferenceEngine.engine 0)).
    right. exists "not-a-date". split; [reflexivity|]. left. reflexivity.
Defined.

(** C7. A reference that parses to an instant after now is classified
    [{days: 0, status: ok}]. (Now outside the years 0..99, which
    [Date.UTC] reads as 19xx.) *)
Theorem future_date_safety {engine : JsEngine} (now : Z) (s : string) (t : Z) :
  isUnset (Some s) = false ->
  newDate (NotificationList.isoReferenceDateString s) = Normal (Some t) ->
  twoDigitYear now = false ->
  now < t ->
  NotificationList.getNotificationStatus now (Some s) =
  Normal {| NotificationList.days := Some 0; NotificationList.status := ok |}.
Proof.
  intros Hu Hp Hn Hlt.
  rewrite (getNotificationStatus_parsed now s t Hu Hp).
  pose proof (utcStart_future now t Hn ltac:(lia)) as Hle.
  destruct (utcStart now - utcStart t <? 0) eqn:E; [reflexivity|].
  apply Z.ltb_ge in E.
  replace (utcStart now - utcStart t) with 0 by lia.
  reflexivity.
Qed.

Lemma future_date_safety_witness :
  NotificationList.getNotificationStatus (engine := ReferenceEngine.engine 0)
    sampleNow (Some "2024-06-16 09:15:00") =
  Normal {| NotificationList.days := Some 0; NotificationList.status := ok |} /\
  NotificationList.getNotificationStatus (engine := ReferenceEngine.engine 0)
    sampleNow (Some "2024-06-15 18:00:00") =
  Normal {| NotificationList.days := Some 0; NotificationList.status := ok |}.
Proof.
  split.
  - apply (future_date_safety (engine := ReferenceEngine.engine 0)
             sampleNow "2024-06-16 09:15:00" 1718529300000
             eq_refl eq_refl eq_refl eq_refl).
  - apply (future_date_safety (engine := ReferenceEngine.engine 0)
             sampleNow "2024-06-15 18:00:00" 1718474400000
             eq_refl eq_refl eq_refl eq_refl).
Defined.

(** ** The two classifiers side by side *)

(** On a reference without a [T] and without a final [Z], both
    classifiers hand the same string to [new Date]. *)
Lemma isoReferenceDateString_server_format (s : string) :
  JsString.includes s "T" = false -> JsString.endsWith s "Z" = false ->
  NotificationList.isoReferenceDateString s = JsString.replace s " " "T" ++ "Z".
Proof.
  intros HT HZ. unfold NotificationList.isoReferenceDateString.
  rewrite HT, HZ. reflexivity.
Qed.

(** C1, as the code has it. On every reference that is unset, or that
    has no [T] and no final [Z] (the server's [YYYY-MM-DD HH:MM:SS]), and
    at every instant, the sidebar's classifier yields the bucket of the
    notification list's classifier. The dashboard classifies nothing: it
    returns the counts of the server's response as they are. *)
Theorem classifiers_agree_on_server_format {engine : JsEngine} (now : Z)
  (ref : option string) :
  isUnset ref = true \/
  (exists s, ref = Some s /\ JsString.includes s "T" = false /\
             JsString.endsWith s "Z" = false) ->
  bucketOf (NotificationList.getNotificationStatus now ref) =
  AuthPageLayout.getNotificationStatusForBadge now ref
  /\
  forall (response : Http.Response DashboardMetrics.DashboardJson)
         (data : DashboardMetrics.DashboardJson),
    Http.ok response = true ->
    DashboardMetrics.isJsonContentType (Http.contentType response) = true ->
    Http.json response = Normal data ->
    DashboardMetrics.fetchDashboardMetrics (Normal response) = Normal data.
Proof.
  intros H. split.
  - unfold NotificationList.getNotificationStatus,
      AuthPageLayout.getNotificationStatusForBadge.
    destruct H as [Hu | (s & -> & HT & HZ)].
    + destruct ref as [s|]; [|reflexivity].
      cbn in Hu. rewrite Hu. reflexivity.
    + destruct (negb (JsString.truthy s) || JsString.startsWith s "0000-00-00");
        [reflexivity|].
      rewrite (isoReferenceDateString_server_format s HT HZ).
      destruct (newDate (JsString.replace s " " "T" ++ "Z")) as [[t|]|m];
        cbn; try reflexivity.
      destruct (utcStart now - utcStart t <? 0); reflexivity.
  - intros response data Hok Hct Hj.
    unfold DashboardMetrics.fetchDashboardMetrics. cbn.
    rewrite Hok, Hct, Hj. reflexivity.
Qed.

Lemma classifiers_agree_on_server_format_witness :
  bucketOf (NotificationList.getNotificationStatus
              (engine := ReferenceEngine.engine 0) sampleNow
              (Some "2024-01-01 00:00:00")) =
  AuthPageLayout.getNotificationStatusForBadge
    (engine := ReferenceEngine.engine 0) sampleNow
    (Some "2024-01-01 00:00:00").
Proof.
  apply (classifiers_agree_on_server_format
           (engine := ReferenceEngine.engine 0) sampleNow
           (Some "2024-01-01 00:00:00")).
  right. exists "2024-01-01 00:00:00".
  split; [reflexivity|]. split; reflexivity.
Defined.

(** C1, as stated, fails: on an ISO timestamp the list's classifier
    parses the string as it is, and the sidebar's appends a second [Z],
    which no longer parses. *)
Lemma classifiers_disagree_on_iso_timestamp :
  let list :=
    bucketOf (NotificationList.getNotificationStatus
                (engine := ReferenceEngine.engine 0) sampleNow
                (Some "2024-01-01T00:00:00Z")) in
  let badge :=
    AuthPageLayout.getNotificationStatusForBadge
      (engine := ReferenceEngine.engine 0) sampleNow
      (Some "2024-01-01T00:00:00Z") in
  list = Normal gt90 /\ badge = Normal ok /\ list <> badge.
Proof.
  cbv zeta. split; [reflexivity|]. split; [reflexivity|].
  vm_compute. discriminate.
Qed.

(** * Reconciliation *)

Section Reconcile.
Context {A : Type} {row : PartRow A}.
Local Open Scope list_scope.

Lemma filter_other_ids (target : string) (l : list A) :
  (forall x, In x l -> rowId x <> target) ->
  filter (fun item => negb (String.eqb (rowId item) target)) l = l.
Proof.
  induction l as [|x l IH]; intros H; simpl; [reflexivity|].
  destruct (String.eqb_spec (rowId x) target) as [E|N].
  - exfalso. exact (H x (or_introl eq_refl) E).
  - simpl. f_equal. apply IH. intros y Hy. apply H. right. exact Hy.
Qed.

Lemma map_other_ids (target : string) (f : A -> A) (l : list A) :
  (forall x, In x l -> rowId x <> target) ->
  map (fun item => if String.eqb (rowId item) target then f item else item) l
  = l.
Proof.
  induction l as [|x l IH]; intros H; simpl; [reflexivity|].
  destruct (String.eqb_spec (rowId x) target) as [E|N].
  - exfalso. exact (H x (or_introl eq_refl) E).
  - f_equal. apply IH. intros y Hy. apply H. right. exact Hy.
Qed.

(** C10. When no item of the collection has the target's identifier,
    the reconciliation returns the collection as it is, whatever the
    quantities. *)
Theorem reconcile_unknown_target (actionItem : A) (quantityChanged : Q)
  (prevData : list A) :
  (forall x, In x prevData -> rowId x <> rowId actionItem) ->
  reconcile actionItem quantityChanged prevData = prevData.
Proof.
  intros H. unfold reconcile.
  destruct (Qle_bool (rowQuantity actionItem - quantityChanged) 0).
  - apply filter_other_ids. exact H.
  - apply map_other_ids. exact H.
Qed.

(** C2. The target is the one item of the collection with its
    identifier, its quantity is [q], and [0 < d <= q]. After a confirmed
    action on [d] units the collection is: without the target, when
    [q - d <= 0]; otherwise with the copy [{...target, quantity: q - d}] in
    the target's place. Every other item is the same, at the same
    place. *)
Theorem reconcile_after_success (before after : list A) (target : A) (d : Q) :
  (forall x, In x (before ++ after) -> rowId x <> rowId target) ->
  (0 < d)%Q -> (d <= rowQuantity target)%Q ->
  ((rowQuantity target - d <= 0)%Q ->
   reconcile target d (before ++ target :: after) = before ++ after) /\
  (~ (rowQuantity target - d <= 0)%Q ->
   reconcile target d (before ++ target :: after) =
   before ++ withQuantity target (rowQuantity target - d) :: after).
Proof.
  intros Hother _ _.
  assert (Hb : forall x, In x before -> rowId x <> rowId target)
    by (intros x Hx; apply Hother, in_or_app; left; exact Hx).
  assert (Ha : forall x, In x after -> rowId x <> rowId target)
    by (intros x Hx; apply Hother, in_or_app; right; exact Hx).
  unfold reconcile. split; intros Hrem.
  - apply Qle_bool_iff in Hrem. rewrite Hrem.
    rewrite filter_app. simpl. rewrite String.eqb_refl. simpl.
    rewrite (filter_other_ids _ before Hb), (filter_other_ids _ after Ha).
    reflexivity.
  - destruct (Qle_bool (rowQuantity target - d) 0) eqn:E.
    + exfalso. apply Hrem. apply Qle_bool_iff. exact E.
    + rewrite map_app. simpl. rewrite String.eqb_refl.
      rewrite (map_other_ids _ _ before Hb), (map_other_ids _ _ after Ha).
      reflexivity.
Qed.

(** Reconciliation keeps every item actionable: an item is dropped or
    kept, or its quantity becomes the positive remainder. *)
Lemma reconcile_actionable {laws : PartRowLaws A} (actionItem : A)
  (quantityChanged : Q) (prevData : list A) :
  Forall actionable prevData ->
  Forall actionable (reconcile actionItem quantityChanged prevData).
Proof.
  intros H. unfold reconcile.
  destruct (Qle_bool (rowQuantity actionItem - quantityChanged) 0) eqn:E.
  - apply Forall_forall. intros x Hx. apply filter_In in Hx as [Hx _].
    exact (proj1 (Forall_forall _ _) H x Hx).
  - apply Forall_forall. intros y Hy. apply in_map_iff in Hy as (x & <- & Hx).
    pose proof (proj1 (Forall_forall _ _) H x Hx) as [Happ Hq].
    destruct (String.eqb (rowId x) (rowId actionItem)); [|split; assumption].
    split.
    + rewrite rowApprovedBy_withQuantity. exact Happ.
    + rewrite rowQuantity_withQuantity.
      apply Qnot_le_lt. intros C. apply Qle_bool_iff in C. congruence.
Qed.

Lemma isApprovedInStock_actionable (item : A) :
  isApprovedInStock item = true -> actionable item.
Proof.
  unfold isApprovedInStock, actionable, Qgtb.
  destruct (rowApprovedBy item) as [u|]; [|discriminate].
  intros H. split; [exists u; reflexivity|].
  apply Qnot_le_lt. intros C. apply Qle_bool_iff in C.
  rewrite C in H. discriminate.
Qed.

Lemma filter_isApprovedInStock_actionable (l : list A) :
  Forall actionable (filter isApprovedInStock l).
Proof.
  apply Forall_forall. intros x Hx. apply filter_In in Hx as [_ Hx].
  apply isApprovedInStock_actionable. exact Hx.
Qed.

End Reconcile.

Local Open Scope list_scope.

Lemma reconcile_unknown_target_witness :
  reconcile (sampleItem "P9" 5) 3 [sampleItem "P1" 5; sampleItem "P2" 7]
  = [sampleItem "P1" 5; sampleItem "P2" 7].
Proof.
  apply reconcile_unknown_target.
  intros x [<- | [<- | []]]; discriminate.
Defined.

Lemma reconcile_after_success_witness :
  reconcile (sampleItem "P2" 5) 5
    ([sampleItem "P1" 4] ++ sampleItem "P2" 5 :: [sampleItem "P3" 7])
  = [sampleItem "P1" 4] ++ [sampleItem "P3" 7]
  /\
  reconcile (sampleItem "P2" 5) 3
    ([sampleItem "P1" 4] ++ sampleItem "P2" 5 :: [sampleItem "P3" 7])
  = [sampleItem "P1" 4] ++ withQuantity (sampleItem "P2" 5) (5 - 3)
      :: [sampleItem "P3" 7].
Proof.
  assert (Hother : forall x,
             In x ([sampleItem "P1" 4] ++ [sampleItem "P3" 7]) ->
             rowId x <> rowId (sampleItem "P2" 5))
    by (intros x [<- | [<- | []]]; discriminate).
  split.
  - apply (proj1 (reconcile_after_success [sampleItem "P1" 4]
                    [sampleItem "P3" 7] (sampleItem "P2" 5) 5 Hother
                    ltac:(reflexivity) ltac:(discriminate))).
    discriminate.
  - apply (proj2 (reconcile_after_success [sampleItem "P1" 4]
                    [sampleItem "P3" 7] (sampleItem "P2" 5) 3 Hother
                    ltac:(reflexivity) ltac:(discriminate))).
    intros C. apply C. reflexivity.
Defined.

(** * The collections of the two tables *)

Lemma collectionStep_actionable {A : Type} {row : PartRow A}
  {laws : PartRowLaws A} (l l' : list A) :
  collectionStep l l' -> Forall actionable l -> Forall actionable l'.
Proof.
  intros [ | l'' Hl | a d] H.
  - exact H.
  - exact Hl.
  - apply reconcile_actionable. exact H.
Qed.

(** A modal's [handleSubmit] either leaves the parent alone or calls
    [onSubmit] once. *)
Lemma IssueOut_handleSubmit_parent {engine : JsEngine} {P : Type}
  (itemData : option ItemData.t)
  (onSubmit : IssueOutItemModal.Payload.t -> P -> completion unit * P)
  (m : IssueOutItemModal.State) (p : P) :
  snd (IssueOutItemModal.handleSubmit itemData onSubmit m p) = p \/
  exists payload,
    snd (IssueOutItemModal.handleSubmit itemData onSubmit m p)
    = snd (onSubmit payload p).
Proof.
  unfold IssueOutItemModal.handleSubmit.
  destruct (toNumber _) as [|q]; [left; reflexivity|].
  destruct (Qle_bool q 0); [left; reflexivity|].
  destruct (match itemData with Some d => _ | None => false end);
    [left; reflexivity|].
  right.
  match goal with |- context [onSubmit ?payload p] => exists payload end.
  destruct (onSubmit _ p) as [outcome p']. reflexivity.
Qed.

Lemma Damage_handleSubmit_parent {engine : JsEngine} {P : Type}
  (itemData : option ItemData.t)
  (onSubmit : DamageItemModal.Payload.t -> P -> completion unit * P)
  (m : DamageItemModal.State) (p : P) :
  snd (DamageItemModal.handleSubmit itemData onSubmit m p) = p \/
  exists payload,
    snd (DamageItemModal.handleSubmit itemData onSubmit m p)
    = snd (onSubmit payload p).
Proof.
  unfold DamageItemModal.handleSubmit.
  destruct (toNumber _) as [|q]; [left; reflexivity|].
  destruct (Qle_bool q 0); [left; reflexivity|].
  destruct (match itemData with Some d => _ | None => false end);
    [left; reflexivity|].
  destruct (negb _); [left; reflexivity|].
  right.
  match goal with |- context [onSubmit ?payload p] => exists payload end.
  destruct (onSubmit _ p) as [outcome p']. reflexivity.
Qed.

(** A request to submit a modal's form either changes nothing or runs
    [handleSubmit]. *)
Lemma IssueOut_requestSubmit_cases {engine : JsEngine} {P : Type}
  (itemData : option ItemData.t)
  (onSubmit : IssueOutItemModal.Payload.t -> P -> completion unit * P)
  (m : IssueOutItemModal.State) (p : P) :
  IssueOutItemModal.requestSubmit itemData onSubmit m p = (m, p) \/
  IssueOutItemModal.requestSubmit itemData onSubmit m p
  = IssueOutItemModal.handleSubmit itemData onSubmit m p.
Proof.
  unfold IssueOutItemModal.requestSubmit.
  destruct (IssueOutItemModal.submitDisabled m); [left; reflexivity|].
  destruct (negb _); [left|right]; reflexivity.
Qed.

Lemma Damage_requestSubmit_cases {engine : JsEngine} {P : Type}
  (itemData : option ItemData.t)
  (onSubmit : DamageItemModal.Payload.t -> P -> completion unit * P)
  (m : DamageItemModal.State) (p : P) :
  DamageItemModal.requestSubmit itemData onSubmit m p = (m, p) \/
  DamageItemModal.requestSubmit itemData onSubmit m p
  = DamageItemModal.handleSubmit itemData onSubmit m p.
Proof.
  unfold DamageItemModal.requestSubmit.
  destruct (DamageItemModal.submitDisabled m); [left; reflexivity|].
  destruct (negb _); [left|right]; reflexivity.
Qed.

Section NotificationListFacts.
Import NotificationList.
Context {engine : JsEngine}.

Lemma notifications_fetchData_establishes (server : Http.Server) (now : Z) (spinner : bool)
  (st : State) (w : World) :
  Forall actionable
    (allNotificationData (fst (fetchData server now spinner st w))).
Proof.
  unfold fetchData, fetch. cbn [fst snd].
  set (st0 := setError None _). clearbody st0.
  match goal with
  | |- context [match ?attempt with Normal st' => st' | Throw _ => _ end] =>
      assert (Hc : Forall actionable
                     (allNotificationData
                        (match attempt with
                         | Normal st' => st'
                         | Throw message =>
                             setAllNotificationData (fun _ => [])
                               (setError (Some message) st0)
                         end)))
  end.
  { destruct (server _) as [response|msg]; cbn; [|constructor].
    destruct (Http.ok response); cbn.
    - destruct (Http.json response) as [[|o]|msg]; cbn; try constructor.
      destruct (isSuccess (Http.status o)); cbn; [|constructor].
      destruct (Http.items o) as [items| | |[|]]; cbn; try constructor.
      destruct (mapC _ items) as [mapped|msg]; cbn; [|constructor].
      apply Forall_forall. intros x Hx. apply filter_In in Hx as [Hx _].
      exact (proj1 (Forall_forall _ _)
               (filter_isApprovedInStock_actionable mapped) x Hx).
    - destruct (Http.json response) as [[|o]|msg]; cbn; constructor. }
  destruct spinner; exact Hc.
Qed.

Lemma handlePostEventApiAction_collection (server : Http.Server)
  (apiUrl : Endpoint) (payload : Http.Body) (actionDesc : string)
  (quantityChanged : Q) (p : State * World) :
  collectionStep (allNotificationData (fst p))
    (allNotificationData
       (fst (snd (handlePostEventApiAction server apiUrl payload actionDesc
                    quantityChanged p)))).
Proof.
  unfold handlePostEventApiAction, fetch. destruct p as [st w]. cbn [fst snd].
  destruct (actionItem st) as [item|]; [|apply collection_kept].
  destruct (server _) as [response|msg]; cbn; [|apply collection_kept].
  destruct (Http.json response) as [[|o]|msg]; cbn; try (apply collection_kept).
  destruct (negb (Http.ok response) || negb (isSuccess (Http.status o)));
    cbn; first [apply collection_kept | apply collection_reconciled].
Qed.

Lemma handleIssueOutSubmitForNotification_collection (server : Http.Server)
  (modalPayload : IssueOutItemModal.Payload.t) (p : State * World) :
  collectionStep (allNotificationData (fst p))
    (allNotificationData
       (fst (snd (handleIssueOutSubmitForNotification server modalPayload p)))).
Proof.
  unfold handleIssueOutSubmitForNotification. destruct p as [st w].
  destruct (actionItem st) as [item|] eqn:Ha; [|apply collection_kept].
  destruct (negb _); [apply collection_kept|].
  destruct (Qgtb _ _); [apply collection_kept|].
  apply (handlePostEventApiAction_collection server _ _ _ _ (st, w)).
Qed.

Lemma handleDamageSubmitForNotification_collection (server : Http.Server)
  (modalPayload : DamageItemModal.Payload.t) (p : State * World) :
  collectionStep (allNotificationData (fst p))
    (allNotificationData
       (fst (snd (handleDamageSubmitForNotification server modalPayload p)))).
Proof.
  unfold handleDamageSubmitForNotification. destruct p as [st w].
  destruct (actionItem st) as [item|] eqn:Ha; [|apply collection_kept].
  destruct (negb _); [apply collection_kept|].
  destruct (Qgtb _ _); [apply collection_kept|].
  apply (handlePostEventApiAction_collection server _ _ _ _ (st, w)).
Qed.

Lemma notifications_step_collection (e : Event) (p : State * World) :
  collectionStep (allNotificationData (fst p))
    (allNotificationData (fst (step e p))).
Proof.
  destruct p as [st w].
  destruct e; cbn [step fst snd]; try (apply collection_kept).
  - apply collection_replaced, notifications_fetchData_establishes.
  - unfold openIssueOutModal. destruct (isActionLoading st); apply collection_kept.
  - unfold openDamageModal. destruct (isActionLoading st); apply collection_kept.
  - destruct (issueOutModalMounted st); [|apply collection_kept].
    unfold submitIssueOut.
    destruct (IssueOut_requestSubmit_cases
                (option_map itemDataOf (actionItem (fst (st, w))))
                (handleIssueOutSubmitForNotification server) m (st, w))
      as [-> | ->]; [apply collection_kept|].
    destruct (IssueOut_handleSubmit_parent
                (option_map itemDataOf (actionItem (fst (st, w))))
                (handleIssueOutSubmitForNotification server) m (st, w))
      as [-> | [payload ->]]; [apply collection_kept|].
    apply (handleIssueOutSubmitForNotification_collection server payload (st, w)).
  - destruct (damageModalMounted st); [|apply collection_kept].
    unfold submitDamage.
    destruct (Damage_requestSubmit_cases
                (option_map itemDataOf (actionItem (fst (st, w))))
                (handleDamageSubmitForNotification server) m (st, w))
      as [-> | ->]; [apply collection_kept|].
    destruct (Damage_handleSubmit_parent
                (option_map itemDataOf (actionItem (fst (st, w))))
                (handleDamageSubmitForNotification server) m (st, w))
      as [-> | [payload ->]]; [apply collection_kept|].
    apply (handleDamageSubmitForNotification_collection server payload (st, w)).
  - apply (handlePostEventApiAction_collection server _ _ _ _ (st, w)).
Qed.

Lemma notifications_reachable_actionable (p : State * World) :
  reachable p -> Forall actionable (allNotificationData (fst p)).
Proof.
  induction 1 as [w | e p Hp IH].
  - constructor.
  - exact (collectionStep_actionable _ _ (notifications_step_collection e p) IH).
Qed.

End NotificationListFacts.

Section ListPartItemFacts.
Import ListPartItem.
Context {engine : JsEngine}.

Lemma parts_fetchData_establishes (server : Http.Server) (spinner : bool)
  (st : State) (w : World) :
  Forall actionable (allData (fst (fetchData server spinner st w))).
Proof.
  unfold fetchData, fetch. cbn [fst snd].
  set (st0 := setError None _). clearbody st0.
  match goal with
  | |- context [match ?attempt with Normal st' => st' | Throw _ => _ end] =>
      assert (Hc : Forall actionable
                     (allData
                        (match attempt with
                         | Normal st' => st'
                         | Throw message =>
                             setAllData (fun _ => [])
                               (setError (Some message) st0)
                         end)))
  end.
  { destruct (server _) as [response|msg]; cbn; [|constructor].
    destruct (Http.ok response); cbn.
    - destruct (Http.json response) as [[|o]|msg]; cbn; try constructor.
      destruct (isSuccess (Http.status o)); cbn; [|constructor].
      destruct (Http.items o) as [items| | |[|]]; cbn; try constructor.
      apply filter_isApprovedInStock_actionable.
    - destruct (Http.json response) as [[|o]|msg]; cbn; constructor. }
  destruct spinner; exact Hc.
Qed.

Lemma handlePostApiAction_collection (server : Http.Server)
  (apiUrl : Endpoint) (payload : Http.Body) (actionDesc : string)
  (quantityChanged : Q) (p : State * World) :
  collectionStep (allData (fst p))
    (allData
       (fst (snd (handlePostApiAction server apiUrl payload actionDesc
                    quantityChanged p)))).
Proof.
  unfold handlePostApiAction, fetch. destruct p as [st w]. cbn [fst snd].
  destruct (actionItem st) as [item|]; [|apply collection_kept].
  destruct (server _) as [response|msg]; cbn; [|apply collection_kept].
  destruct (Http.json response) as [[|o]|msg]; cbn; try (apply collection_kept).
  destruct (negb (Http.ok response) || negb (isSuccess (Http.status o)));
    cbn; first [apply collection_kept | apply collection_reconciled].
Qed.

Lemma handleIssueOutSubmit_collection (server : Http.Server)
  (modalPayload : IssueOutItemModal.Payload.t) (p : State * World) :
  collectionStep (allData (fst p))
    (allData (fst (snd (handleIssueOutSubmit server modalPayload p)))).
Proof.
  unfold handleIssueOutSubmit. destruct p as [st w].
  destruct (actionItem st) as [item|] eqn:Ha; [|apply collection_kept].
  destruct (Qgtb _ _); [apply collection_kept|].
  apply (handlePostApiAction_collection server _ _ _ _ (st, w)).
Qed.

Lemma handleDamageSubmit_collection (server : Http.Server)
  (modalPayload : DamageItemModal.Payload.t) (p : State * World) :
  collectionStep (allData (fst p))
    (allData (fst (snd (handleDamageSubmit server modalPayload p)))).
Proof.
  unfold handleDamageSubmit. destruct p as [st w].
  destruct (actionItem st) as [item|] eqn:Ha; [|apply collection_kept].
  destruct (Qgtb _ _); [apply collection_kept|].
  apply (handlePostApiAction_collection server _ _ _ _ (st, w)).
Qed.

Lemma parts_step_collection (e : Event) (p : State * World) :
  collectionStep (allData (fst p)) (allData (fst (step e p))).
Proof.
  destruct p as [st w].
  destruct e; cbn [step fst snd]; try (apply collection_kept).
  - apply collection_replaced, parts_fetchData_establishes.
  - unfold openIssueOutModal. destruct (isActionLoading st); apply collection_kept.
  - unfold openDamageModal. destruct (isActionLoading st); apply collection_kept.
  - destruct (issueOutModalMounted st); [|apply collection_kept].
    unfold submitIssueOut.
    destruct (IssueOut_requestSubmit_cases
                (option_map itemDataOf (actionItem (fst (st, w))))
                (handleIssueOutSubmit server) m (st, w))
      as [-> | ->]; [apply collection_kept|].
    destruct (IssueOut_handleSubmit_parent
                (option_map itemDataOf (actionItem (fst (st, w))))
                (handleIssueOutSubmit server) m (st, w))
      as [-> | [payload ->]]; [apply collection_kept|].
    apply (handleIssueOutSubmit_collection server payload (st, w)).
  - destruct (damageModalMounted st); [|apply collection_kept].
    unfold submitDamage.
    destruct (Damage_requestSubmit_cases
                (option_map itemDataOf (actionItem (fst (st, w))))
                (handleDamageSubmit server) m (st, w))
      as [-> | ->]; [apply collection_kept|].
    destruct (Damage_handleSubmit_parent
                (option_map itemDataOf (actionItem (fst (st, w))))
                (handleDamageSubmit server) m (st, w))
      as [-> | [payload ->]]; [apply collection_kept|].
    apply (handleDamageSubmit_collection server payload (st, w)).
  - apply (handlePostApiAction_collection server _ _ _ _ (st, w)).
Qed.

Lemma parts_reachable_actionable (p : State * World) :
  reachable p -> Forall actionable (allData (fst p)).
Proof.
  induction 1 as [w | e p Hp IH].
  - constructor.
  - exact (collectionStep_actionable _ _ (parts_step_collection e p) IH).
Qed.

End ListPartItemFacts.

(** C9. Every item of the two local collections has an approver and a
    positive quantity, in every state the components reach. A fetch
    establishes this whatever the collection was, and a reconciliation
    keeps it: the item whose remainder is not positive is dropped. *)
Theorem actionable_invariant {engine : JsEngine} :
  (forall p, NotificationList.reachable p ->
     Forall actionable (NotificationList.allNotificationData (fst p))) /\
  (forall p, ListPartItem.reachable p ->
     Forall actionable (ListPartItem.allData (fst p))) /\
  (forall server now showLoadingSpinner st w,
     Forall actionable
       (NotificationList.allNotificationData
          (fst (NotificationList.fetchData server now showLoadingSpinner st w)))) /\
  (forall server showLoadingSpinner st w,
     Forall actionable
       (ListPartItem.allData
          (fst (ListPartItem.fetchData server showLoadingSpinner st w)))) /\
  (forall (actionItem : NotificationList.NotificationItem) quantityChanged prevData,
     Forall actionable prevData ->
     Forall actionable (reconcile actionItem quantityChanged prevData)) /\
  (forall (actionItem : ListPartItem.ListItem) quantityChanged prevData,
     Forall actionable prevData ->
     Forall actionable (reconcile actionItem quantityChanged prevData)).
Proof.
  split; [exact notifications_reachable_actionable|].
  split; [exact parts_reachable_actionable|].
  split; [exact notifications_fetchData_establishes|].
  split; [exact parts_fetchData_establishes|].
  split; intros a d l; apply reconcile_actionable.
Qed.

(** * A failed action *)

Section FailedAction.
Context {engine : JsEngine}.

(** On every failure of the remote call, [handlePostEventApiAction]
    leaves the collection as it was, stores the message in [error],
    rethrows it, clears [actionItem] and leaves both modal flags as they
    were. *)
Lemma handlePostEventApiAction_failure (server : Http.Server)
  (apiUrl : Endpoint) (payload : Http.Body) (actionDesc : string)
  (quantityChanged : Q) (st : NotificationList.State) (w : World)
  (item : NotificationList.NotificationItem) :
  NotificationList.actionItem st = Some item ->
  actionFails (server {| Http.url := apiUrl; Http.method := "POST";
                         Http.body := payload |}) ->
  let r := NotificationList.handlePostEventApiAction server apiUrl payload
             actionDesc quantityChanged (st, w) in
  NotificationList.allNotificationData (fst (snd r))
    = NotificationList.allNotificationData st /\
  (exists message, fst r = Throw message /\
                   NotificationList.error (fst (snd r)) = Some message) /\
  NotificationList.actionItem (fst (snd r)) = None /\
  NotificationList.isIssueOutModalOpen (fst (snd r))
    = NotificationList.isIssueOutModalOpen st /\
  NotificationList.isDamageModalOpen (fst (snd r))
    = NotificationList.isDamageModalOpen st.
Proof.
  intros Ha Hf. cbv zeta.
  unfold NotificationList.handlePostEventApiAction, fetch. rewrite Ha.
  cbn [fst snd]. unfold actionFails in Hf.
  destruct (server _) as [response|msg]; cbn.
  - destruct (Http.json response) as [[|o]|msg]; cbn.
    + failed.
    + destruct Hf as [Hf|Hf]; rewrite Hf; cbn; rewrite ?orb_true_r; cbn;
        failed.
    + failed.
  - failed.
Qed.

(** The same for [handlePostApiAction] of the part list. *)
Lemma handlePostApiAction_failure (server : Http.Server)
  (apiUrl : Endpoint) (payload : Http.Body) (actionDesc : string)
  (quantityChanged : Q) (st : ListPartItem.State) (w : World)
  (item : ListPartItem.ListItem) :
  ListPartItem.actionItem st = Some item ->
  actionFails (server {| Http.url := apiUrl; Http.method := "POST";
                         Http.body := payload |}) ->
  let r := ListPartItem.handlePostApiAction server apiUrl payload
             actionDesc quantityChanged (st, w) in
  ListPartItem.allData (fst (snd r)) = ListPartItem.allData st /\
  (exists message, fst r = Throw message /\
                   ListPartItem.error (fst (snd r)) = Some message) /\
  ListPartItem.actionItem (fst (snd r)) = None /\
  ListPartItem.isIssueOutModalOpen (fst (snd r))
    = ListPartItem.isIssueOutModalOpen st /\
  ListPartItem.isDamageModalOpen (fst (snd r))
    = ListPartItem.isDamageModalOpen st.
Proof.
  intros Ha Hf. cbv zeta.
  unfold ListPartItem.handlePostApiAction, fetch. rewrite Ha.
  cbn [fst snd]. unfold actionFails in Hf.
  destruct (server _) as [response|msg]; cbn.
  - destruct (Http.json response) as [[|o]|msg]; cbn.
    + failed.
    + destruct Hf as [Hf|Hf]; rewrite Hf; cbn; rewrite ?orb_true_r; cbn;
        failed.
    + failed.
  - failed.
Qed.

(** So after a failure met with a modal open, nothing on the page shows
    the stored message: the banner waits for both modal flags to be down,
    and neither modal is mounted without an action item. *)
Lemma failure_message_not_rendered (server : Http.Server)
  (apiUrl : Endpoint) (payload : Http.Body) (actionDesc : string)
  (quantityChanged : Q) (st : NotificationList.State) (w : World)
  (item : NotificationList.NotificationItem) :
  NotificationList.actionItem st = Some item ->
  NotificationList.isIssueOutModalOpen st = true \/
  NotificationList.isDamageModalOpen st = true ->
  actionFails (server {| Http.url := apiUrl; Http.method := "POST";
                         Http.body := payload |}) ->
  let st' := fst (snd (NotificationList.handlePostEventApiAction server apiUrl
                         payload actionDesc quantityChanged (st, w))) in
  NotificationList.errorBannerShown st' = false /\
  NotificationList.issueOutModalMounted st' = false /\
  NotificationList.damageModalMounted st' = false.
Proof.
  intros Ha Hopen Hf.
  destruct (handlePostEventApiAction_failure server apiUrl payload actionDesc
              quantityChanged st w item Ha Hf)
    as (_ & (message & _ & He) & Hact & Hi & Hd).
  cbv zeta in *.
  unfold NotificationList.errorBannerShown,
    NotificationList.issueOutModalMounted, NotificationList.damageModalMounted.
  rewrite He, Hact, Hi, Hd.
  rewrite !andb_false_r.
  destruct Hopen as [-> | ->]; cbn; rewrite ?andb_false_r; auto.
Qed.

End FailedAction.

(** C3, on a run. The issue-out modal is open on P1 (5 units) in either
    table, 2 units are submitted, and the server answers 500 with the
    message [Insufficient stock]. The one request is sent, the collection
    is what it was, and the message is stored in [error] and handed to the
    modal; but the modal flag is still up and [actionItem] is cleared, so
    neither the banner nor the modal is rendered. *)
Theorem failed_action_message_is_not_rendered :
  let r := NotificationList.submitIssueOut
             (engine := ReferenceEngine.engine 0) refusingServer
             (typed "2" "") (sampleListOpen, sampleWorld) in
  let r' := ListPartItem.submitIssueOut
              (engine := ReferenceEngine.engine 0) refusingServer
              (typed "2" "") (samplePartsOpen, sampleWorld) in
  (requests (snd (snd r)) =
     [{| Http.url := ISSUE_API_URL; Http.method := "POST";
         Http.body := Http.IssueOutBody "P1" 2 None |}] /\
   NotificationList.allNotificationData (fst (snd r)) =
     NotificationList.allNotificationData sampleListOpen /\
   NotificationList.error (fst (snd r)) = Some "Insufficient stock" /\
   IssueOutItemModal.error (fst r) = Some "Insufficient stock" /\
   NotificationList.errorBannerShown (fst (snd r)) = false /\
   NotificationList.issueOutModalMounted (fst (snd r)) = false /\
   NotificationList.damageModalMounted (fst (snd r)) = false) /\
  (ListPartItem.allData (fst (snd r')) = ListPartItem.allData samplePartsOpen /\
   ListPartItem.error (fst (snd r')) = Some "Insufficient stock" /\
   ListPartItem.errorBannerShown (fst (snd r')) = false /\
   ListPartItem.issueOutModalMounted (fst (snd r')) = false /\
   ListPartItem.damageModalMounted (fst (snd r')) = false).
Proof. vm_compute. repeat split. Qed.

(** * Validation in the modals *)

Lemma Qgtb_lt (a b : Q) : (b < a)%Q -> Qgtb a b = true.
Proof.
  intros H. unfold Qgtb. destruct (Qle_bool a b) eqn:E; [|reflexivity].
  apply Qle_bool_iff in E. exfalso. lra.
Qed.

Section Validation.
Context {engine : JsEngine}.



(** A form that the browser finds valid holds a quantity of at least 1
    that is a whole number. *)
Lemma quantityFieldValid_number (value : string) :
  quantityFieldValid value = true ->
  exists q, toNumber value = Num q /\ (1 <= q)%Q /\ isWhole q = true.
Proof.
  unfold quantityFieldValid. intros H.
  apply andb_true_iff in H as [_ H].
  destruct (toNumber value) as [|q]; [discriminate|].
  apply andb_true_iff in H as [H1 H2].
  exists q. split; [reflexivity|]. split; [|exact H2].
  apply Qle_bool_iff. exact H1.
Qed.





End Validation.



(** The whole-number test is the browser's alone: [handleSubmit], were it
    handed the 2.5 directly, would pass it to the table, which would send
    it. *)
Example handleSubmit_does_not_test_whole_numbers :
  let engine := ReferenceEngine.engine 0 in
  let submitted :=
    NotificationList.submitIssueOut acceptingServer
      (typed "2.5" "") (sampleListOpen, sampleWorld) in
  let handled :=
    IssueOutItemModal.handleSubmit
      (Some (NotificationList.itemDataOf (sampleItem "P1" 5)))
      (NotificationList.handleIssueOutSubmitForNotification acceptingServer)
      (typed "2.5" "") (sampleListOpen, sampleWorld) in
  toNumber "2.5" = Num (5 # 2) /\
  IssueOutItemModal.submitDisabled (typed "2.5" "") = false /\
  IssueOutItemModal.formValid (typed "2.5" "") = false /\
  requests (snd (snd submitted)) = [] /\
  requests (snd (snd handled)) =
    [{| Http.url := ISSUE_API_URL; Http.method := "POST";
        Http.body := Http.IssueOutBody "P1" (5 # 2) None |}].
Proof. vm_compute. repeat split. Qed.

(** * Runs *)

(** Why the instants of C5 and C7 lie outside the years 0..99: with the
    clock at 15 June of the year 50, [Date.UTC] places today in 1950, and a
    reference of the year 150, a century ahead, counts as long overdue. *)
Example two_digit_year_run :
  twoDigitYear (ReferenceEngine.utcMidnight 50 6 15) = true /\
  bucketOf (NotificationList.getNotificationStatus
              (engine := ReferenceEngine.engine 0)
              (ReferenceEngine.utcMidnight 50 6 15)
              (Some "0150-01-01 00:00:00")) = Normal gt90.
Proof. split; reflexivity. Qed.

(** The scenario of the specification: P1 is fetched and classified gt90
    at 95 days; all 10 units are issued out; the notification list is then
    empty. *)
Example end_to_end_run :
  let engine := ReferenceEngine.engine 0 in
  let fetched :=
    NotificationList.fetchData sampleServer sampleNow true
      NotificationList.initialState sampleWorld in
  let listed := NotificationList.allNotificationData (fst fetched) in
  let opened :=
    match listed with
    | item :: _ => (NotificationList.openIssueOutModal item (fst fetched),
                    snd fetched)
    | [] => fetched
    end in
  let issued := NotificationList.submitIssueOut sampleServer (typed "10" "") opened in
  map NotificationList.id listed = ["P1"] /\
  map NotificationList.daysSinceReturn listed = [Some 95] /\
  map NotificationList.notificationStatus listed = [gt90] /\
  NotificationList.allNotificationData (fst (snd issued)) = [] /\
  IssueOutItemModal.error (fst issued) = None /\
  map Http.url (requests (snd (snd issued))) = [PARTS_API_URL; ISSUE_API_URL].
Proof. vm_compute. repeat split. Qed.

(** * More about reconciliation *)

Section ReconcileMore.
Context {A : Type} {row : PartRow A}.

(** The result on a collection where the target's identifier occurs
    once. *)
Lemma reconcile_at_unique_target (before after : list A) (target : A) (d : Q) :
  (forall x, In x (before ++ after) -> rowId x <> rowId target) ->
  reconcile target d (before ++ target :: after) =
  if Qle_bool (rowQuantity target - d) 0
  then before ++ after
  else before ++ withQuantity target (rowQuantity target - d) :: after.
Proof.
  intros Hother.
  assert (Hb : forall x, In x before -> rowId x <> rowId target)
    by (intros x Hx; apply Hother, in_or_app; left; exact Hx).
  assert (Ha : forall x, In x after -> rowId x <> rowId target)
    by (intros x Hx; apply Hother, in_or_app; right; exact Hx).
  unfold reconcile.
  destruct (Qle_bool (rowQuantity target - d) 0).
  - rewrite filter_app. simpl. rewrite String.eqb_refl. simpl.
    rewrite (filter_other_ids _ before Hb), (filter_other_ids _ after Ha).
    reflexivity.
  - rewrite map_app. simpl. rewrite String.eqb_refl.
    rewrite (map_other_ids _ _ before Hb), (map_other_ids _ _ after Ha).
    reflexivity.
Qed.

(** With distinct identifiers, an item of the collection is the only
    one with its identifier. *)
Lemma distinct_ids_split (l : list A) (target : A) :
  NoDup (map rowId l) -> In target l ->
  exists before after,
    l = before ++ target :: after /\
    forall x, In x (before ++ after) -> rowId x <> rowId target.
Proof.
  intros Hnd Hin.
  destruct (in_split target l Hin) as (before & after & ->).
  exists before, after. split; [reflexivity|].
  rewrite map_app in Hnd. simpl in Hnd.
  apply NoDup_remove_2 in Hnd.
  intros x Hx E. apply Hnd. rewrite <- E, <- map_app.
  apply in_map. exact Hx.
Qed.

(** X1. When the identifiers of the collection are distinct, a confirmed
    action on any of its items removes that item, or replaces it by its
    copy with the remainder, and leaves the rest in place. *)
Theorem reconcile_distinct_ids (l : list A) (target : A) (d : Q) :
  NoDup (map rowId l) -> In target l ->
  exists before after,
    l = before ++ target :: after /\
    reconcile target d l =
    if Qle_bool (rowQuantity target - d) 0
    then before ++ after
    else before ++ withQuantity target (rowQuantity target - d) :: after.
Proof.
  intros Hnd Hin.
  destruct (distinct_ids_split l target Hnd Hin) as (before & after & -> & H).
  exists before, after. split; [reflexivity|].
  apply reconcile_at_unique_target. exact H.
Qed.

Lemma totalQuantity_app (l1 l2 : list A) :
  (totalQuantity (l1 ++ l2) == totalQuantity l1 + totalQuantity l2)%Q.
Proof.
  induction l1 as [|x l1 IH]; simpl.
  - lra.
  - fold (totalQuantity (l1 ++ l2)). fold (totalQuantity l1). lra.
Qed.

Lemma totalQuantity_cons (x : A) (l : list A) :
  (totalQuantity (x :: l) == rowQuantity x + totalQuantity l)%Q.
Proof. reflexivity. Qed.

(** A reconciliation keeps any property of the rows that the copy
    keeps. *)
Lemma reconcile_Forall (P : A -> Prop) (actionItem : A) (quantityChanged : Q)
  (prevData : list A) :
  (forall a q, P a -> P (withQuantity a q)) ->
  Forall P prevData -> Forall P (reconcile actionItem quantityChanged prevData).
Proof.
  intros Hcopy H. unfold reconcile.
  destruct (Qle_bool (rowQuantity actionItem - quantityChanged) 0).
  - apply Forall_forall. intros x Hx. apply filter_In in Hx as [Hx _].
    exact (proj1 (Forall_forall _ _) H x Hx).
  - apply Forall_forall. intros y Hy. apply in_map_iff in Hy as (x & <- & Hx).
    pose proof (proj1 (Forall_forall _ _) H x Hx) as Px.
    destruct (String.eqb (rowId x) (rowId actionItem)); [|exact Px].
    apply Hcopy. exact Px.
Qed.

(** Dropping rows keeps the identifiers distinct. *)
Lemma distinct_ids_filter (keep : A -> bool) (items : list A) :
  NoDup (map rowId items) -> NoDup (map rowId (filter keep items)).
Proof.
  induction items as [|x items IH]; simpl; intros H; [constructor|].
  inversion H as [|y ys Hnotin Hnd]; subst.
  destruct (keep x); [|exact (IH Hnd)].
  simpl. constructor; [|exact (IH Hnd)].
  intros Hin. apply Hnotin.
  apply in_map_iff in Hin as (z & Ez & Hz). apply filter_In in Hz as [Hz _].
  rewrite <- Ez. apply in_map. exact Hz.
Qed.

Context {laws : PartRowLaws A}.

Lemma map_rowId_copy (target : string) (q : Q) (l : list A) :
  map rowId
    (map (fun item => if String.eqb (rowId item) target
                      then withQuantity item q else item) l)
  = map rowId l.
Proof.
  induction l as [|x l IH]; simpl; [reflexivity|].
  rewrite IH. destruct (String.eqb (rowId x) target);
    [rewrite rowId_withQuantity|]; reflexivity.
Qed.

(** X2. A reconciliation never adds a row or an identifier, and keeps the
    identifiers distinct. *)
Theorem reconcile_identifiers (actionItem : A) (quantityChanged : Q)
  (prevData : list A) :
  (List.length (reconcile actionItem quantityChanged prevData)
     <= List.length prevData)%nat /\
  incl (map rowId (reconcile actionItem quantityChanged prevData))
       (map rowId prevData) /\
  (NoDup (map rowId prevData) ->
   NoDup (map rowId (reconcile actionItem quantityChanged prevData))).
Proof.
  unfold reconcile.
  destruct (Qle_bool (rowQuantity actionItem - quantityChanged) 0).
  - split; [apply filter_length_le|]. split.
    + intros i Hi. apply in_map_iff in Hi as (x & <- & Hx).
      apply filter_In in Hx as [Hx _]. apply in_map. exact Hx.
    + apply distinct_ids_filter.
  - rewrite map_rowId_copy, List.length_map.
    split; [apply Nat.le_refl|]. split; [apply incl_refl|]. intros H; exact H.
Qed.

(** X3. With the target the only item of its identifier and [0 < d <= q],
    the quantities of the collection add up to [d] less than before. *)
Theorem reconcile_total_quantity (before after : list A) (target : A) (d : Q) :
  (forall x, In x (before ++ after) -> rowId x <> rowId target) ->
  (0 < d)%Q -> (d <= rowQuantity target)%Q ->
  (totalQuantity (reconcile target d (before ++ target :: after))
   == totalQuantity (before ++ target :: after) - d)%Q.
Proof.
  intros Hother Hpos Hle.
  rewrite (reconcile_at_unique_target before after target d Hother).
  pose proof (totalQuantity_app before (target :: after)) as E1.
  pose proof (totalQuantity_cons target after) as E2.
  destruct (Qle_bool (rowQuantity target - d) 0) eqn:E.
  - apply Qle_bool_iff in E.
    pose proof (totalQuantity_app before after) as E3. lra.
  - pose proof (totalQuantity_app before
                  (withQuantity target (rowQuantity target - d) :: after)) as E3.
    pose proof (totalQuantity_cons
                  (withQuantity target (rowQuantity target - d)) after) as E4.
    rewrite rowQuantity_withQuantity in E4. lra.
Qed.

End ReconcileMore.

Lemma reconcile_distinct_ids_witness :
  exists before after,
    [sampleItem "P1" 4; sampleItem "P2" 5; sampleItem "P3" 7]
      = before ++ sampleItem "P2" 5 :: after /\
    reconcile (sampleItem "P2" 5) 3
      [sampleItem "P1" 4; sampleItem "P2" 5; sampleItem "P3" 7] =
    if Qle_bool (rowQuantity (sampleItem "P2" 5) - 3) 0
    then before ++ after
    else before ++ withQuantity (sampleItem "P2" 5)
                     (rowQuantity (sampleItem "P2" 5) - 3) :: after.
Proof.
  apply reconcile_distinct_ids.
  - repeat constructor; simpl; intuition discriminate.
  - right. left. reflexivity.
Defined.

Lemma reconcile_total_quantity_witness :
  (totalQuantity (reconcile (sampleItem "P2" 5) 3
                    ([sampleItem "P1" 4] ++ sampleItem "P2" 5
                       :: [sampleItem "P3" 7]))
   == totalQuantity ([sampleItem "P1" 4] ++ sampleItem "P2" 5
                       :: [sampleItem "P3" 7]) - 3)%Q.
Proof.
  apply (reconcile_total_quantity (laws := NotificationItem_rowLaws)).
  - intros x [<- | [<- | []]]; discriminate.
  - reflexivity.
  - discriminate.
Defined.

Lemma reconcile_identifiers_witness :
  (List.length (reconcile (sampleItem "P2" 5) 5
             [sampleItem "P1" 4; sampleItem "P2" 5]) <= 2)%nat /\
  incl (map rowId (reconcile (sampleItem "P2" 5) 5
                     [sampleItem "P1" 4; sampleItem "P2" 5]))
       (map rowId [sampleItem "P1" 4; sampleItem "P2" 5]) /\
  (NoDup (map rowId [sampleItem "P1" 4; sampleItem "P2" 5]) ->
   NoDup (map rowId (reconcile (sampleItem "P2" 5) 5
                       [sampleItem "P1" 4; sampleItem "P2" 5]))).
Proof.
  exact (reconcile_identifiers (laws := NotificationItem_rowLaws)
           (sampleItem "P2" 5) 5 [sampleItem "P1" 4; sampleItem "P2" 5]).
Defined.

(** * More about the notification list *)

(** [items.map(f)] returns when [f] returns on every item, and then
    pairs each item with its image. *)
Lemma mapC_total {A B : Type} (f : A -> completion B) (l : list A) :
  (forall a, exists b, f a = Normal b) ->
  exists mapped, NotificationList.mapC f l = Normal mapped.
Proof.
  intros Hf. induction l as [|a l [mapped IH]]; simpl.
  - eexists; reflexivity.
  - destruct (Hf a) as [b ->]. rewrite IH. eexists; reflexivity.
Qed.

Lemma mapC_Forall2 {A B : Type} (f : A -> completion B) (l : list A)
  (mapped : list B) :
  NotificationList.mapC f l = Normal mapped ->
  Forall2 (fun a b => f a = Normal b) l mapped.
Proof.
  revert mapped. induction l as [|a l IH]; simpl; intros mapped H.
  - apply Normal_inj in H. subst mapped. constructor.
  - destruct (f a) as [b|m] eqn:Ea; [|discriminate H].
    destruct (NotificationList.mapC f l) as [bs|m] eqn:El; [|discriminate H].
    cbn in H. apply Normal_inj in H. subst mapped.
    constructor; [exact Ea|]. apply IH. reflexivity.
Qed.

Lemma Forall2_In_right {A B : Type} (R : A -> B -> Prop) (l : list A)
  (l' : list B) (b : B) :
  Forall2 R l l' -> In b l' -> exists a, In a l /\ R a b.
Proof.
  induction 1 as [|x y l l' Hxy _ IH]; intros Hin; [destruct Hin|].
  destruct Hin as [<- | Hin].
  - exists x. split; [left; reflexivity|exact Hxy].
  - destruct (IH Hin) as (a & Ha & Hr). exists a. split; [right; exact Ha|exact Hr].
Qed.

Lemma statusOfDiffDays_overdue (d : Z) :
  NotificationStatus_eqb (statusOfDiffDays d) ok = false -> 14 <= d.
Proof.
  unfold statusOfDiffDays. thresholds d; cbn; intros H; try discriminate; lia.
Qed.

Section NotificationListMore.
Import NotificationList.
Context {engine : JsEngine}.

(** The two shapes of a classification: nothing to report, or the day
    count of a reference that parses with the bucket of that count. *)
Lemma getNotificationStatus_shape (now : Z) (ref : option string) :
  exists r, getNotificationStatus now ref = Normal r /\
    (r = {| days := None; status := ok |} \/
     exists s t d,
       ref = Some s /\ isUnset (Some s) = false /\
       newDate (isoReferenceDateString s) = Normal (Some t) /\
       0 <= d /\ r = {| days := Some d; status := statusOfDiffDays d |}).
Proof.
  unfold getNotificationStatus.
  destruct ref as [s|]; [|eexists; split; [reflexivity|left; reflexivity]].
  destruct (negb (JsString.truthy s) || JsString.startsWith s "0000-00-00")
    eqn:Hu; [eexists; split; [reflexivity|left; reflexivity]|].
  destruct (newDate (isoReferenceDateString s)) as [[t|]|m] eqn:Hp;
    cbn [bindC tryCatch];
    try (eexists; split; [reflexivity|left; reflexivity]).
  destruct (utcStart now - utcStart t <? 0) eqn:Hneg;
    (eexists; split; [reflexivity|right]).
  - exists s, t, 0. repeat split; try assumption. lia.
  - exists s, t, ((utcStart now - utcStart t) / JsDate.msPerDay).
    repeat split; try assumption.
    apply Z.ltb_ge in Hneg. apply Z.div_pos; [exact Hneg|reflexivity].
Qed.

Lemma classification_spec (now : Z) (ref : option string) :
  getNotificationStatus now ref = Normal (classification now ref).
Proof.
  unfold classification.
  destruct (getNotificationStatus_shape now ref) as (r & -> & _). reflexivity.
Qed.

(** What the mapping copies from a listed part. *)
Lemma mapApiToNotificationItem_fields (now : Z) (apiItem : Api.ListItem) :
  exists item,
    mapApiToNotificationItem now apiItem = Normal item /\
    id item = Api.part_id apiItem /\
    partNumber item = Api.part_number apiItem /\
    quantity item = numberOrZero (Number (Api.quantity apiItem)) /\
    approvedBy item = orNull (Api.approved_by_user apiItem) /\
    returnDate item = Api.created_on apiItem /\
    daysSinceReturn item = days (classification now (Api.created_on apiItem)) /\
    notificationStatus item
      = status (classification now (Api.created_on apiItem)).
Proof.
  unfold mapApiToNotificationItem.
  rewrite classification_spec. cbn [bindC].
  eexists. split; [reflexivity|]. repeat split.
Qed.

Lemma mapApiToNotificationItem_overdue (now : Z) (apiItem : Api.ListItem)
  (item : NotificationItem) :
  mapApiToNotificationItem now apiItem = Normal item ->
  NotificationStatus_eqb (notificationStatus item) ok = false ->
  overdueRow item.
Proof.
  unfold mapApiToNotificationItem. intros H Hs.
  destruct (getNotificationStatus_shape now (Api.created_on apiItem))
    as (r & Hr & Hshape).
  rewrite Hr in H. cbn [bindC] in H. apply Normal_inj in H. subst item.
  cbn [notificationStatus] in Hs.
  destruct Hshape as [-> | (s & t & d & Href & Hu & Hp & Hd & ->)].
  - discriminate Hs.
  - cbn [status] in Hs. exists d, s, t. cbn.
    split; [reflexivity|]. split; [exact (statusOfDiffDays_overdue d Hs)|].
    split; [reflexivity|]. split; [exact Href|]. split; [exact Hu|exact Hp].
Qed.

Lemma fetchedNotifications_overdue (l : list NotificationItem) :
  fetchedNotifications l -> Forall overdueRow l.
Proof.
  intros [-> | (now & items & mapped & Hm & ->)]; [constructor|].
  apply Forall_forall. intros x Hx.
  apply filter_In in Hx as [Hx Hs]. apply filter_In in Hx as [Hx _].
  destruct (Forall2_In_right _ _ _ x (mapC_Forall2 _ _ _ Hm) Hx)
    as (a & _ & Ha).
  apply (mapApiToNotificationItem_overdue now a x Ha).
  apply negb_true_iff in Hs. exact Hs.
Qed.

Lemma overdueRow_withQuantity (a : NotificationItem) (q : Q) :
  overdueRow a -> overdueRow (withQuantity a q).
Proof. intros H. exact H. Qed.

Lemma notifications_fetchData_fetched (server : Http.Server) (now : Z)
  (spinner : bool) (st : State) (w : World) :
  fetchedNotifications
    (allNotificationData (fst (fetchData server now spinner st w))).
Proof.
  unfold fetchData, fetch. cbn [fst snd].
  set (st0 := setError None _). clearbody st0.
  match goal with
  | |- context [match ?attempt with Normal st' => st' | Throw _ => _ end] =>
      assert (Hc : fetchedNotifications
                     (allNotificationData
                        (match attempt with
                         | Normal st' => st'
                         | Throw message =>
                             setAllNotificationData (fun _ => [])
                               (setError (Some message) st0)
                         end)))
  end.
  { destruct (server _) as [response|msg]; cbn; [|left; reflexivity].
    destruct (Http.ok response); cbn.
    - destruct (Http.json response) as [[|o]|msg]; cbn;
        try (left; reflexivity).
      destruct (isSuccess (Http.status o)); cbn; [|left; reflexivity].
      destruct (Http.items o) as [items| | |[|]]; cbn;
        try (left; reflexivity).
      destruct (mapC _ items) as [mapped|msg] eqn:Hm; cbn;
        [|left; reflexivity].
      right. exists now, items, mapped. split; [exact Hm|reflexivity].
    - destruct (Http.json response) as [[|o]|msg]; cbn; left; reflexivity. }
  destruct spinner; exact Hc.
Qed.

Lemma handlePostEventApiAction_change (server : Http.Server)
  (apiUrl : Endpoint) (payload : Http.Body) (actionDesc : string)
  (quantityChanged : Q) (p : State * World) :
  collectionChange fetchedNotifications (allNotificationData (fst p))
    (allNotificationData
       (fst (snd (handlePostEventApiAction server apiUrl payload actionDesc
                    quantityChanged p)))).
Proof.
  unfold handlePostEventApiAction, fetch. destruct p as [st w]. cbn [fst snd].
  destruct (actionItem st) as [item|]; [|apply change_none].
  destruct (server _) as [response|msg]; cbn; [|apply change_none].
  destruct (Http.json response) as [[|o]|msg]; cbn; try (apply change_none).
  destruct (negb (Http.ok response) || negb (isSuccess (Http.status o)));
    cbn; first [apply change_none | apply change_reconciled].
Qed.

Lemma handleIssueOutSubmitForNotification_change (server : Http.Server)
  (modalPayload : IssueOutItemModal.Payload.t) (p : State * World) :
  collectionChange fetchedNotifications (allNotificationData (fst p))
    (allNotificationData
       (fst (snd (handleIssueOutSubmitForNotification server modalPayload p)))).
Proof.
  unfold handleIssueOutSubmitForNotification. destruct p as [st w].
  destruct (actionItem st) as [item|] eqn:Ha; [|apply change_none].
  destruct (negb _); [apply change_none|].
  destruct (Qgtb _ _); [apply change_none|].
  apply (handlePostEventApiAction_change server _ _ _ _ (st, w)).
Qed.

Lemma handleDamageSubmitForNotification_change (server : Http.Server)
  (modalPayload : DamageItemModal.Payload.t) (p : State * World) :
  collectionChange fetchedNotifications (allNotificationData (fst p))
    (allNotificationData
       (fst (snd (handleDamageSubmitForNotification server modalPayload p)))).
Proof.
  unfold handleDamageSubmitForNotification. destruct p as [st w].
  destruct (actionItem st) as [item|] eqn:Ha; [|apply change_none].
  destruct (negb _); [apply change_none|].
  destruct (Qgtb _ _); [apply change_none|].
  apply (handlePostEventApiAction_change server _ _ _ _ (st, w)).
Qed.

(** Every event leaves the collection alone, replaces it by a fetched
    list, or reconciles it. *)
Lemma notifications_step_change (e : Event) (p : State * World) :
  collectionChange fetchedNotifications (allNotificationData (fst p))
    (allNotificationData (fst (step e p))).
Proof.
  destruct p as [st w].
  destruct e; cbn [step fst snd]; try (apply change_none).
  - apply change_fetched, notifications_fetchData_fetched.
  - unfold openIssueOutModal. destruct (isActionLoading st); apply change_none.
  - unfold openDamageModal. destruct (isActionLoading st); apply change_none.
  - destruct (issueOutModalMounted st); [|apply change_none].
    unfold submitIssueOut.
    destruct (IssueOut_requestSubmit_cases
                (option_map itemDataOf (actionItem (fst (st, w))))
                (handleIssueOutSubmitForNotification server) m (st, w))
      as [-> | ->]; [apply change_none|].
    destruct (IssueOut_handleSubmit_parent
                (option_map itemDataOf (actionItem (fst (st, w))))
                (handleIssueOutSubmitForNotification server) m (st, w))
      as [-> | [payload ->]]; [apply change_none|].
    apply (handleIssueOutSubmitForNotification_change server payload (st, w)).
  - destruct (damageModalMounted st); [|apply change_none].
    unfold submitDamage.
    destruct (Damage_requestSubmit_cases
                (option_map itemDataOf (actionItem (fst (st, w))))
                (handleDamageSubmitForNotification server) m (st, w))
      as [-> | ->]; [apply change_none|].
    destruct (Damage_handleSubmit_parent
                (option_map itemDataOf (actionItem (fst (st, w))))
                (handleDamageSubmitForNotification server) m (st, w))
      as [-> | [payload ->]]; [apply change_none|].
    apply (handleDamageSubmitForNotification_change server payload (st, w)).
  - apply (handlePostEventApiAction_change server _ _ _ _ (st, w)).
Qed.

Lemma notifications_reachable_overdue (p : State * World) :
  reachable p -> Forall overdueRow (allNotificationData (fst p)).
Proof.
  induction 1 as [w | e p Hp IH].
  - constructor.
  - destruct (notifications_step_change e p) as [ | l' Hl | a d].
    + exact IH.
    + exact (fetchedNotifications_overdue l' Hl).
    + apply reconcile_Forall; [|exact IH].
      intros x q Hx. exact (overdueRow_withQuantity x q Hx).
Qed.

(** A string that is one of the two sentinels of [formatDateForDisplay]
    begins with the sentinel of the classifier. *)
Lemma display_sentinel_unset (s : string) :
  isUnset (Some s) = false ->
  negb (JsString.truthy s) || String.eqb s "0000-00-00"
    || String.eqb s "0000-00-00 00:00:00" = false.
Proof.
  unfold isUnset. intros H. apply orb_false_iff in H as [Ht Hs].
  rewrite Ht. cbn [orb].
  destruct (String.eqb s "0000-00-00") eqn:E1.
  - apply String.eqb_eq in E1. subst s. discriminate Hs.
  - destruct (String.eqb s "0000-00-00 00:00:00") eqn:E2; [|reflexivity].
    apply String.eqb_eq in E2. subst s. discriminate Hs.
Qed.

Lemma formatDateForDisplay_parsed (s : string) (t : Z) :
  isUnset (Some s) = false ->
  newDate (isoReferenceDateString s) = Normal (Some t) ->
  formatDateForDisplay (Some s) = printedDate t.
Proof.
  intros Hu Hp. unfold formatDateForDisplay.
  rewrite (display_sentinel_unset s Hu), Hp. reflexivity.
Qed.

End NotificationListMore.

(** X4. Every row the notification list ever holds is overdue: its day count
    is at least 14, and its bucket is the bucket of that count, so never
    [ok]. *)
Theorem notification_rows_are_overdue {engine : JsEngine}
  (p : NotificationList.State * World)
  (item : NotificationList.NotificationItem) :
  NotificationList.reachable p ->
  In item (NotificationList.allNotificationData (fst p)) ->
  exists d,
    NotificationList.daysSinceReturn item = Some d /\ 14 <= d /\
    NotificationList.notificationStatus item = statusOfDiffDays d /\
    NotificationList.notificationStatus item <> ok.
Proof.
  intros Hp Hin.
  pose proof (proj1 (Forall_forall _ _) (notifications_reachable_overdue p Hp)
                item Hin) as (d & s & t & Hd & Hle & Hs & _).
  exists d. split; [exact Hd|]. split; [exact Hle|]. split; [exact Hs|].
  rewrite Hs. unfold statusOfDiffDays. thresholds d; try discriminate; lia.
Qed.

(** X5. The Return Date cell of every row the notification list ever holds
    is the [DD/MM/YYYY] print of the instant the row's return date parses
    to: the row has a return date, the engine reads it (as
    [formatDateForDisplay] hands it over) as an instant, and the cell is
    the print of that instant. The branches that give [N/A],
    [Invalid Date] or the raw string are not taken. *)
Theorem return_date_cell_shows_a_date {engine : JsEngine}
  (p : NotificationList.State * World)
  (item : NotificationList.NotificationItem) :
  NotificationList.reachable p ->
  In item (NotificationList.allNotificationData (fst p)) ->
  exists s t,
    NotificationList.returnDate item = Some s /\
    newDate (NotificationList.isoReferenceDateString s) = Normal (Some t) /\
    NotificationList.formatDateForDisplay (NotificationList.returnDate item)
    = printedDate t.
Proof.
  intros Hp Hin.
  pose proof (proj1 (Forall_forall _ _) (notifications_reachable_overdue p Hp)
                item Hin) as (d & s & t & _ & _ & _ & Hr & Hu & Ht).
  exists s, t. split; [exact Hr|]. split; [exact Ht|].
  rewrite Hr. exact (formatDateForDisplay_parsed s t Hu Ht).
Qed.

Lemma notification_rows_are_overdue_witness :
  exists d,
    NotificationList.daysSinceReturn sampleRow = Some d /\ 14 <= d /\
    NotificationList.notificationStatus sampleRow = statusOfDiffDays d /\
    NotificationList.notificationStatus sampleRow <> ok.
Proof.
  apply (notification_rows_are_overdue (engine := ReferenceEngine.engine 0)
           sampleFetched sampleRow).
  - apply NotificationList.reachable_step, NotificationList.reachable_mount.
  - vm_compute. left. reflexivity.
Defined.

Lemma return_date_cell_shows_a_date_witness :
  exists s t,
    NotificationList.returnDate sampleRow = Some s /\
    newDate (JsEngine := ReferenceEngine.engine 0)
      (NotificationList.isoReferenceDateString s)
    = Normal (Some t) /\
    NotificationList.formatDateForDisplay (engine := ReferenceEngine.engine 0)
      (NotificationList.returnDate sampleRow)
    = printedDate (engine := ReferenceEngine.engine 0) t.
Proof.
  apply (return_date_cell_shows_a_date (engine := ReferenceEngine.engine 0)
           sampleFetched sampleRow).
  - apply NotificationList.reachable_step, NotificationList.reachable_mount.
  - vm_compute. left. reflexivity.
Defined.

(** * What the handlers of the notification list do *)

Lemma Qle_bool_false_lt (a b : Q) : Qle_bool a b = false -> (b < a)%Q.
Proof.
  intros H. apply Qnot_le_lt. intros Hle.
  apply Qle_bool_iff in Hle. congruence.
Qed.

Lemma Qgtb_false_le (a b : Q) : Qgtb a b = false -> (a <= b)%Q.
Proof.
  unfold Qgtb. intros H. apply negb_false_iff in H.
  apply Qle_bool_iff. exact H.
Qed.

Lemma Qle_Qgtb_false (a b : Q) : (a <= b)%Q -> Qgtb a b = false.
Proof.
  intros H. unfold Qgtb. apply negb_false_iff, Qle_bool_iff. exact H.
Qed.

Lemma Qlt_Qle_bool_false (a b : Q) : (b < a)%Q -> Qle_bool a b = false.
Proof.
  intros H. destruct (Qle_bool a b) eqn:E; [|reflexivity].
  apply Qle_bool_iff in E. lra.
Qed.

(** A POST either fails or succeeds. *)
Lemma action_outcome (outcome : completion (Http.Response Http.Json)) :
  actionFails outcome \/ actionSucceeds outcome.
Proof.
  unfold actionFails, actionSucceeds.
  destruct outcome as [response|m]; [|left; exact I].
  destruct (Http.json response) as [[|o]|m]; try (left; exact I).
  destruct (Http.ok response); [|left; left; reflexivity].
  destruct (isSuccess (Http.status o)); [|left; right; reflexivity].
  right. split; reflexivity.
Qed.

Lemma action_outcome_exclusive (outcome : completion (Http.Response Http.Json)) :
  actionFails outcome -> actionSucceeds outcome -> False.
Proof.
  unfold actionFails, actionSucceeds.
  destruct outcome as [response|m]; [|intros _ F; exact F].
  destruct (Http.json response) as [[|o]|m]; [intros _ F; exact F| |intros _ F; exact F].
  intros [H|H] [H1 H2]; congruence.
Qed.

(** What a modal's [handleSubmit] does when it does not reject the
    form: it calls [onSubmit] once, with the typed quantity and the
    trimmed remarks, and keeps the message of a failure. *)
Lemma IssueOut_handleSubmit_cases {engine : JsEngine} {P : Type}
  (itemData : option ItemData.t)
  (onSubmit : IssueOutItemModal.Payload.t -> P -> completion unit * P)
  (m : IssueOutItemModal.State) (p : P) :
  let r := IssueOutItemModal.handleSubmit itemData onSubmit m p in
  (snd r = p /\ exists message, IssueOutItemModal.error (fst r) = Some message) \/
  exists q,
    toNumber (IssueOutItemModal.quantity m) = Num q /\ (0 < q)%Q /\
    (forall d, itemData = Some d -> (q <= ItemData.quantity d)%Q) /\
    let call := onSubmit {| IssueOutItemModal.Payload.quantity_issued := q;
                            IssueOutItemModal.Payload.remarks :=
                              issueOutRemarks m |} p in
    snd r = snd call /\
    IssueOutItemModal.isSubmitting (fst r) = false /\
    IssueOutItemModal.showQuantityWarning (fst r) = false /\
    IssueOutItemModal.error (fst r)
    = match fst call with
      | Normal _ => None
      | Throw err =>
          Some (JsString.orElse err
                  "Failed to issue out item. Please try again.")
      end.
Proof.
  cbv zeta. unfold IssueOutItemModal.handleSubmit.
  destruct m as [mq mr ms me mw].
  cbn [IssueOutItemModal.quantity IssueOutItemModal.setError].
  destruct (toNumber mq) as [|q] eqn:Hq;
    [left; split; [reflexivity|eexists; reflexivity]|].
  destruct (Qle_bool q 0) eqn:Hpos;
    [left; split; [reflexivity|eexists; reflexivity]|].
  destruct (match itemData with
            | Some d => Qgtb q (ItemData.quantity d)
            | None => false
            end) eqn:Hstock;
    [left; split; [reflexivity|eexists; reflexivity]|].
  right. exists q. split; [reflexivity|].
  split; [exact (Qle_bool_false_lt q 0 Hpos)|].
  split.
  { intros d ->. exact (Qgtb_false_le _ _ Hstock). }
  unfold issueOutRemarks. cbn.
  destruct (onSubmit _ p) as [[u|err] p']; cbn; repeat split.
Qed.

Lemma Damage_handleSubmit_cases {engine : JsEngine} {P : Type}
  (itemData : option ItemData.t)
  (onSubmit : DamageItemModal.Payload.t -> P -> completion unit * P)
  (m : DamageItemModal.State) (p : P) :
  let r := DamageItemModal.handleSubmit itemData onSubmit m p in
  (snd r = p /\ exists message, DamageItemModal.error (fst r) = Some message) \/
  exists q,
    toNumber (DamageItemModal.quantity m) = Num q /\ (0 < q)%Q /\
    (forall d, itemData = Some d -> (q <= ItemData.quantity d)%Q) /\
    JsString.truthy (trim (DamageItemModal.remarks m)) = true /\
    let call := onSubmit {| DamageItemModal.Payload.quantity_damaged := q;
                            DamageItemModal.Payload.remarks :=
                              trim (DamageItemModal.remarks m) |} p in
    snd r = snd call /\
    DamageItemModal.isSubmitting (fst r) = false /\
    DamageItemModal.showQuantityWarning (fst r) = false /\
    DamageItemModal.error (fst r)
    = match fst call with
      | Normal _ => None
      | Throw err =>
          Some (JsString.orElse err
                  "Failed to mark item as damaged. Please try again.")
      end.
Proof.
  cbv zeta. unfold DamageItemModal.handleSubmit.
  destruct m as [mq mr ms me mw].
  cbn [DamageItemModal.quantity DamageItemModal.setError].
  destruct (toNumber mq) as [|q] eqn:Hq;
    [left; split; [reflexivity|eexists; reflexivity]|].
  destruct (Qle_bool q 0) eqn:Hpos;
    [left; split; [reflexivity|eexists; reflexivity]|].
  destruct (match itemData with
            | Some d => Qgtb q (ItemData.quantity d)
            | None => false
            end) eqn:Hstock;
    [left; split; [reflexivity|eexists; reflexivity]|].
  cbn [DamageItemModal.remarks DamageItemModal.setShowQuantityWarning
       DamageItemModal.setError DamageItemModal.quantity DamageItemModal.isSubmitting
       DamageItemModal.error DamageItemModal.showQuantityWarning].
  destruct (JsString.truthy (trim mr)) eqn:Hr; cbn [negb];
    [|left; split; [reflexivity|eexists; reflexivity]].
  right. exists q. split; [reflexivity|].
  split; [exact (Qle_bool_false_lt q 0 Hpos)|].
  split.
  { intros d ->. exact (Qgtb_false_le _ _ Hstock). }
  split; [reflexivity|].
  cbn.
  destruct (onSubmit _ p) as [[u|err] p']; cbn; repeat split.
Qed.

Section NotificationHandlers.
Import NotificationList.
Context {engine : JsEngine}.

(** Everything [handlePostEventApiAction] does, by the outcome of its
    request. *)
Lemma handlePostEventApiAction_effect (server : Http.Server)
  (apiUrl : Endpoint) (payload : Http.Body) (actionDesc : string)
  (quantityChanged : Q) (st : State) (w : World) (item : NotificationItem) :
  actionItem st = Some item ->
  let r := handlePostEventApiAction server apiUrl payload actionDesc
             quantityChanged (st, w) in
  let st' := fst (snd r) in
  isActionLoading st' = false /\ actionItem st' = None /\
  isLoading st' = isLoading st /\
  ((actionFails (server (post apiUrl payload)) /\
    snd (snd r) = sent (post apiUrl payload) w /\
    allNotificationData st' = allNotificationData st /\
    isIssueOutModalOpen st' = isIssueOutModalOpen st /\
    isDamageModalOpen st' = isDamageModalOpen st /\
    successMessage st' = None /\
    exists message, fst r = Throw message /\ error st' = Some message)
   \/
   (actionSucceeds (server (post apiUrl payload)) /\
    snd (snd r) = triggerRefresh (sent (post apiUrl payload) w) /\
    allNotificationData st'
      = reconcile item quantityChanged (allNotificationData st) /\
    isIssueOutModalOpen st' = false /\ isDamageModalOpen st' = false /\
    fst r = Normal tt /\ error st' = None /\
    exists message, successMessage st' = Some message)).
Proof.
  intros Ha. cbv zeta.
  unfold handlePostEventApiAction, fetch, post, actionFails, actionSucceeds.
  rewrite Ha. cbn [fst snd].
  destruct (server _) as [response|msg]; cbn.
  - destruct (Http.json response) as [[|o]|msg]; cbn.
    + repeat split. left. repeat split; try exact I. eexists; split; reflexivity.
    + destruct (Http.ok response); cbn.
      * destruct (isSuccess (Http.status o)); cbn.
        -- repeat split. right. repeat split. eexists; reflexivity.
        -- repeat split. left. repeat split; try (right; reflexivity).
           eexists; split; reflexivity.
      * repeat split. left. repeat split; try (left; reflexivity).
        eexists; split; reflexivity.
    + repeat split. left. repeat split; try exact I. eexists; split; reflexivity.
  - repeat split. left. repeat split; try exact I. eexists; split; reflexivity.
Qed.

(** The table's submit handlers: they return early, or hand the action
    item's identifier and a quantity within the stock to
    [handlePostEventApiAction]. *)
Lemma handleIssueOutSubmitForNotification_cases (server : Http.Server)
  (modalPayload : IssueOutItemModal.Payload.t) (st : State) (w : World) :
  let r := handleIssueOutSubmitForNotification server modalPayload (st, w) in
  ((exists message, fst r = Throw message) /\
   snd (snd r) = w /\
   allNotificationData (fst (snd r)) = allNotificationData st /\
   isActionLoading (fst (snd r)) = isActionLoading st /\
   actionItem (fst (snd r)) = actionItem st /\
   (actionItem st = None \/ userKnown w = false \/
    exists item, actionItem st = Some item /\
      (quantity item
       < IssueOutItemModal.Payload.quantity_issued modalPayload)%Q))
  \/
  exists item,
    actionItem st = Some item /\ userKnown w = true /\
    (IssueOutItemModal.Payload.quantity_issued modalPayload
     <= quantity item)%Q /\
    r = handlePostEventApiAction server ISSUE_API_URL
          (Http.IssueOutBody (id item)
             (IssueOutItemModal.Payload.quantity_issued modalPayload)
             (IssueOutItemModal.Payload.remarks modalPayload))
          "issue out item"
          (IssueOutItemModal.Payload.quantity_issued modalPayload) (st, w).
Proof.
  cbv zeta. unfold handleIssueOutSubmitForNotification, userKnown.
  destruct (actionItem st) as [item|] eqn:Ha.
  - destruct (match getCurrentUserId w with
              | Some u => JsString.truthy u
              | None => false
              end) eqn:Hu; cbn [negb].
    + destruct (Qgtb _ _) eqn:Hq.
      * left. cbn. split; [eexists; reflexivity|]. repeat split;
          try exact Ha.
        right. right. exists item. split; [reflexivity|].
        apply Qle_bool_false_lt. unfold Qgtb in Hq.
        apply negb_true_iff in Hq. exact Hq.
      * right. exists item. split; [reflexivity|]. split; [reflexivity|].
        split; [exact (Qgtb_false_le _ _ Hq)|reflexivity].
    + left. cbn. split; [eexists; reflexivity|]. repeat split;
        try exact Ha. auto.
  - left. cbn. split; [eexists; reflexivity|]. repeat split;
      try exact Ha. auto.
Qed.

Lemma handleDamageSubmitForNotification_cases (server : Http.Server)
  (modalPayload : DamageItemModal.Payload.t) (st : State) (w : World) :
  let r := handleDamageSubmitForNotification server modalPayload (st, w) in
  ((exists message, fst r = Throw message) /\
   snd (snd r) = w /\
   allNotificationData (fst (snd r)) = allNotificationData st /\
   isActionLoading (fst (snd r)) = isActionLoading st /\
   actionItem (fst (snd r)) = actionItem st /\
   (actionItem st = None \/ userKnown w = false \/
    exists item, actionItem st = Some item /\
      (quantity item
       < DamageItemModal.Payload.quantity_damaged modalPayload)%Q))
  \/
  exists item,
    actionItem st = Some item /\ userKnown w = true /\
    (DamageItemModal.Payload.quantity_damaged modalPayload
     <= quantity item)%Q /\
    r = handlePostEventApiAction server DAMAGE_API_URL
          (Http.DamageBody (id item)
             (DamageItemModal.Payload.quantity_damaged modalPayload)
             (DamageItemModal.Payload.remarks modalPayload))
          "mark item as damaged"
          (DamageItemModal.Payload.quantity_damaged modalPayload) (st, w).
Proof.
  cbv zeta. unfold handleDamageSubmitForNotification, userKnown.
  destruct (actionItem st) as [item|] eqn:Ha.
  - destruct (match getCurrentUserId w with
              | Some u => JsString.truthy u
              | None => false
              end) eqn:Hu; cbn [negb].
    + destruct (Qgtb _ _) eqn:Hq.
      * left. cbn. split; [eexists; reflexivity|]. repeat split;
          try exact Ha.
        right. right. exists item. split; [reflexivity|].
        apply Qle_bool_false_lt. unfold Qgtb in Hq.
        apply negb_true_iff in Hq. exact Hq.
      * right. exists item. split; [reflexivity|]. split; [reflexivity|].
        split; [exact (Qgtb_false_le _ _ Hq)|reflexivity].
    + left. cbn. split; [eexists; reflexivity|]. repeat split;
        try exact Ha. auto.
  - left. cbn. split; [eexists; reflexivity|]. repeat split;
      try exact Ha. auto.
Qed.

End NotificationHandlers.

(** * The notification list: fetching, acting, and what the world sees *)

Section NotificationListOutcomes.
Import NotificationList.
Context {engine : JsEngine}.

Lemma notifications_fetchData_frame (server : Http.Server) (now : Z)
  (spinner : bool) (st : State) (w : World) :
  let r := fetchData server now spinner st w in
  snd r = sent partsRequest w /\
  isActionLoading (fst r) = isActionLoading st /\
  isIssueOutModalOpen (fst r) = isIssueOutModalOpen st /\
  isDamageModalOpen (fst r) = isDamageModalOpen st /\
  actionItem (fst r) = actionItem st /\
  isLoading (fst r) = (if spinner then false else isLoading st) /\
  successMessage (fst r) = (if spinner then None else successMessage st) /\
  (error (fst r) = None \/
   exists message,
     error (fst r) = Some message /\ allNotificationData (fst r) = []).
Proof.
  cbv zeta. unfold fetchData, fetch, sent, partsRequest. cbn [fst snd].
  destruct (server _) as [response|msg]; cbn.
  - destruct (Http.ok response); cbn.
    + destruct (Http.json response) as [[|o]|msg]; cbn;
        try (destruct spinner; cbn; repeat split; right; eexists; split;
             reflexivity).
      destruct (isSuccess (Http.status o)); cbn;
        [|destruct spinner; cbn; repeat split; right; eexists; split;
          reflexivity].
      destruct (Http.items o) as [items| | |[|]]; cbn;
        try (destruct spinner; cbn; repeat split;
             first [left; reflexivity | right; eexists; split; reflexivity]).
      destruct (mapC _ items) as [mapped|msg]; cbn;
        destruct spinner; cbn; repeat split;
        first [left; reflexivity | right; eexists; split; reflexivity].
    + destruct (Http.json response) as [[|o]|msg]; cbn;
        destruct spinner; cbn; repeat split; right; eexists; split;
        reflexivity.
  - destruct spinner; cbn; repeat split; right; eexists; split; reflexivity.
Qed.

(** The rows kept of a mapped response are the images of the parts that
    are approved, in stock and overdue, in the server's order. *)
Lemma shown_rows (now : Z) (items : list Api.ListItem)
  (mapped : list NotificationItem) :
  Forall2 (fun a item => mapApiToNotificationItem now a = Normal item)
    items mapped ->
  Forall2 (fun a item => mapApiToNotificationItem now a = Normal item)
    (filter (fun a => approvedInStock a && overdueAt now a) items)
    (filter (fun item =>
               negb (NotificationStatus_eqb (notificationStatus item) ok))
       (filter isApprovedInStock mapped)).
Proof.
  induction 1 as [|a b items mapped Hab _ IH]; [constructor|].
  destruct (mapApiToNotificationItem_fields now a)
    as (item & Hi & _ & _ & Hq & Hap & _ & _ & Hs).
  rewrite Hab in Hi. apply Normal_inj in Hi. subst item.
  assert (E1 : isApprovedInStock b = approvedInStock a).
  { unfold isApprovedInStock, approvedInStock. cbn [rowApprovedBy rowQuantity
      NotificationItem_row]. rewrite Hap, Hq. reflexivity. }
  assert (E2 : negb (NotificationStatus_eqb (notificationStatus b) ok)
               = overdueAt now a).
  { unfold overdueAt. rewrite Hs. reflexivity. }
  cbn [filter]. rewrite E1.
  destruct (approvedInStock a); cbn [andb filter]; [|exact IH].
  rewrite E2. destruct (overdueAt now a); [|exact IH].
  constructor; [exact Hab|exact IH].
Qed.

Lemma notifications_fetchData_listed (server : Http.Server) (now : Z)
  (spinner : bool) (st : State) (w : World) (items : list Api.ListItem) :
  listsParts server items ->
  let st' := fst (fetchData server now spinner st w) in
  error st' = None /\
  Forall2 (fun a item => mapApiToNotificationItem now a = Normal item)
    (filter (fun a => approvedInStock a && overdueAt now a) items)
    (allNotificationData st').
Proof.
  intros (response & o & Hs & Hok & Hj & Hsucc & Hitems). cbv zeta.
  unfold partsRequest in Hs.
  unfold fetchData, fetch. cbn [fst snd]. rewrite Hs. cbn [bindC].
  rewrite Hok. cbn [negb]. rewrite Hj. cbn [bindC Http.member].
  rewrite Hsucc, Hitems.
  destruct (mapC_total (mapApiToNotificationItem now) items) as [mapped Hm].
  { intros a. destruct (mapApiToNotificationItem_fields now a) as (b & Hb & _).
    exists b. exact Hb. }
  rewrite Hm. cbn [bindC].
  pose proof (shown_rows now items mapped (mapC_Forall2 _ _ _ Hm)) as Hrows.
  destruct spinner; cbn; (split; [reflexivity|exact Hrows]).
Qed.

(** What every event does to the world and to the loading flag of the
    actions. *)
Lemma notifications_step_world (e : Event) (p : State * World) :
  worldStep (snd p) (snd (step e p)) /\
  (isActionLoading (fst p) = false ->
   isActionLoading (fst (step e p)) = false).
Proof.
  assert (Hsame : forall w, worldStep w w).
  { intros w. split; [reflexivity|]. split; [left; reflexivity|].
    exists []. split; [symmetry; apply app_nil_r|apply Nat.le_0_l]. }
  assert (Hsent : forall r w, worldStep w (sent r w)).
  { intros r w. split; [reflexivity|]. split; [left; reflexivity|].
    exists [r]. split; [reflexivity|apply Nat.le_refl]. }
  assert (Hrefresh : forall r w, worldStep w (triggerRefresh (sent r w))).
  { intros r w. split; [reflexivity|]. split; [right; reflexivity|].
    exists [r]. split; [reflexivity|apply Nat.le_refl]. }
  assert (Hpost : forall server apiUrl payload actionDesc d st w,
             let r := handlePostEventApiAction server apiUrl payload
                        actionDesc d (st, w) in
             worldStep w (snd (snd r)) /\
             (isActionLoading st = false ->
              isActionLoading (fst (snd r)) = false)).
  { intros server apiUrl payload actionDesc d st w. cbv zeta.
    destruct (actionItem st) as [item|] eqn:Ha.
    - destruct (handlePostEventApiAction_effect server apiUrl payload
                  actionDesc d st w item Ha)
        as (Hl & _ & _ & [(_ & Hw & _) | (_ & Hw & _)]);
        cbv zeta in *; rewrite Hw; (split; [|intros _; exact Hl]).
      + apply Hsent.
      + apply Hrefresh.
    - unfold handlePostEventApiAction. rewrite Ha. cbn.
      split; [apply Hsame|auto]. }
  destruct p as [st w].
  destruct e; cbn [step fst snd];
    try (split; [apply Hsame|intros H; exact H]).
  - destruct (notifications_fetchData_frame server now showLoadingSpinner st w)
      as (Hw & Hl & _). cbv zeta in *. rewrite Hw, Hl.
    split; [apply Hsent|auto].
  - unfold openIssueOutModal. destruct (isActionLoading st) eqn:E;
      (split; [apply Hsame|intros; cbn; congruence]).
  - unfold openDamageModal. destruct (isActionLoading st) eqn:E;
      (split; [apply Hsame|intros; cbn; congruence]).
  - destruct (issueOutModalMounted st); [|split; [apply Hsame|auto]].
    unfold submitIssueOut.
    destruct (IssueOut_requestSubmit_cases
                (option_map itemDataOf (actionItem (fst (st, w))))
                (handleIssueOutSubmitForNotification server) m (st, w))
      as [-> | ->]; [split; [apply Hsame|auto]|].
    destruct (IssueOut_handleSubmit_cases
                (option_map itemDataOf (actionItem (fst (st, w))))
                (handleIssueOutSubmitForNotification server) m (st, w))
      as [[-> _] | (q & _ & _ & _ & -> & _)]; [split; [apply Hsame|auto]|].
    destruct (handleIssueOutSubmitForNotification_cases server
                {| IssueOutItemModal.Payload.quantity_issued := q;
                   IssueOutItemModal.Payload.remarks := issueOutRemarks m |}
                st w)
      as [(_ & Hw & _ & Hl & _) | (item & _ & _ & _ & ->)]; cbv zeta in *.
    + rewrite Hw, Hl. split; [apply Hsame|auto].
    + apply Hpost.
  - destruct (damageModalMounted st); [|split; [apply Hsame|auto]].
    unfold submitDamage.
    destruct (Damage_requestSubmit_cases
                (option_map itemDataOf (actionItem (fst (st, w))))
                (handleDamageSubmitForNotification server) m (st, w))
      as [-> | ->]; [split; [apply Hsame|auto]|].
    destruct (Damage_handleSubmit_cases
                (option_map itemDataOf (actionItem (fst (st, w))))
                (handleDamageSubmitForNotification server) m (st, w))
      as [[-> _] | (q & _ & _ & _ & _ & -> & _)]; [split; [apply Hsame|auto]|].
    destruct (handleDamageSubmitForNotification_cases server
                {| DamageItemModal.Payload.quantity_damaged := q;
                   DamageItemModal.Payload.remarks :=
                     trim (DamageItemModal.remarks m) |}
                st w)
      as [(_ & Hw & _ & Hl & _) | (item & _ & _ & _ & ->)]; cbv zeta in *.
    + rewrite Hw, Hl. split; [apply Hsame|auto].
    + apply Hpost.
  - apply Hpost.
Qed.

Lemma notifications_reachable_idle (p : State * World) :
  reachable p -> isActionLoading (fst p) = false.
Proof.
  induction 1 as [w | e p Hp IH]; [reflexivity|].
  exact (proj2 (notifications_step_world e p) IH).
Qed.

End NotificationListOutcomes.

(** X6. [fetchData] of the notification list sends one GET and nothing
    else; it leaves the action flag, the modal flags and the action item
    alone; with the spinner it ends with [isLoading] down and the success
    message cleared; and whenever it stores an error, the collection is
    empty. *)
Theorem notifications_fetchData_outcome {engine : JsEngine}
  (server : Http.Server) (now : Z) (showLoadingSpinner : bool)
  (st : NotificationList.State) (w : World) :
  let r := NotificationList.fetchData server now showLoadingSpinner st w in
  snd r = sent partsRequest w /\
  NotificationList.isActionLoading (fst r)
    = NotificationList.isActionLoading st /\
  NotificationList.isIssueOutModalOpen (fst r)
    = NotificationList.isIssueOutModalOpen st /\
  NotificationList.isDamageModalOpen (fst r)
    = NotificationList.isDamageModalOpen st /\
  NotificationList.actionItem (fst r) = NotificationList.actionItem st /\
  NotificationList.isLoading (fst r)
    = (if showLoadingSpinner then false else NotificationList.isLoading st) /\
  NotificationList.successMessage (fst r)
    = (if showLoadingSpinner then None
       else NotificationList.successMessage st) /\
  (NotificationList.error (fst r) = None \/
   exists message,
     NotificationList.error (fst r) = Some message /\
     NotificationList.allNotificationData (fst r) = []).
Proof. exact (notifications_fetchData_frame server now showLoadingSpinner st w). Qed.

(** X7. When the server lists parts, the notification list shows, in the
    server's order, exactly the parts that have an approver, a positive
    quantity and an overdue bucket, each mapped by
    [mapApiToNotificationItem], and stores no error. *)
Theorem notification_list_shows_overdue_parts {engine : JsEngine}
  (server : Http.Server) (now : Z) (showLoadingSpinner : bool)
  (st : NotificationList.State) (w : World) (items : list Api.ListItem) :
  listsParts server items ->
  let st' := fst (NotificationList.fetchData server now showLoadingSpinner
                    st w) in
  NotificationList.error st' = None /\
  Forall2 (fun a item =>
             NotificationList.mapApiToNotificationItem now a = Normal item)
    (filter (fun a => approvedInStock a && overdueAt now a) items)
    (NotificationList.allNotificationData st') /\
  map NotificationList.id (NotificationList.allNotificationData st')
  = map Api.part_id
      (filter (fun a => approvedInStock a && overdueAt now a) items).
Proof.
  intros H.
  destruct (notifications_fetchData_listed server now showLoadingSpinner st w
              items H) as [He Hrows].
  cbv zeta in *. split; [exact He|]. split; [exact Hrows|].
  induction Hrows as [|a b l l' Hab _ IH]; [reflexivity|].
  cbn [map]. rewrite IH. f_equal.
  destruct (mapApiToNotificationItem_fields now a) as (item & Hi & Hid & _).
  rewrite Hab in Hi. apply Normal_inj in Hi. subst item. exact Hid.
Qed.

Lemma notification_list_shows_overdue_parts_witness :
  let engine := ReferenceEngine.engine 0 in
  let st' := fst (NotificationList.fetchData sampleServer sampleNow true
                    NotificationList.initialState sampleWorld) in
  NotificationList.error st' = None /\
  Forall2 (fun a item =>
             NotificationList.mapApiToNotificationItem sampleNow a
             = Normal item)
    (filter (fun a => approvedInStock a && overdueAt sampleNow a)
       [sampleApiItem])
    (NotificationList.allNotificationData st') /\
  map NotificationList.id (NotificationList.allNotificationData st')
  = map Api.part_id
      (filter (fun a => approvedInStock a && overdueAt sampleNow a)
         [sampleApiItem]).
Proof.
  apply (notification_list_shows_overdue_parts
           (engine := ReferenceEngine.engine 0) sampleServer sampleNow true
           NotificationList.initialState sampleWorld [sampleApiItem]).
  eexists. eexists. split; [reflexivity|]. split; [reflexivity|].
  split; [reflexivity|]. split; reflexivity.
Defined.



(** X9. Every event of the notification list sends at most one request,
    moves the refresh counter of the sidebar by at most one, and leaves
    the session's user alone. *)
Theorem notification_list_world_step {engine : JsEngine}
  (e : NotificationList.Event) (p : NotificationList.State * World) :
  worldStep (snd p) (snd (NotificationList.step e p)).
Proof. exact (proj1 (notifications_step_world e p)). Qed.

(** * Actions on the notification list, end to end *)

(** A form that passes the modal's tests is handed to [onSubmit]. *)
Lemma IssueOut_handleSubmit_accepts {engine : JsEngine} {P : Type}
  (itemData : option ItemData.t)
  (onSubmit : IssueOutItemModal.Payload.t -> P -> completion unit * P)
  (m : IssueOutItemModal.State) (p : P) (q : Q) :
  toNumber (IssueOutItemModal.quantity m) = Num q -> (0 < q)%Q ->
  (forall d, itemData = Some d -> (q <= ItemData.quantity d)%Q) ->
  let r := IssueOutItemModal.handleSubmit itemData onSubmit m p in
  let call := onSubmit {| IssueOutItemModal.Payload.quantity_issued := q;
                          IssueOutItemModal.Payload.remarks :=
                            issueOutRemarks m |} p in
  snd r = snd call /\
  IssueOutItemModal.isSubmitting (fst r) = false /\
  IssueOutItemModal.error (fst r)
  = match fst call with
    | Normal _ => None
    | Throw err =>
        Some (JsString.orElse err
                "Failed to issue out item. Please try again.")
    end.
Proof.
  intros Hq Hpos Hstock.
  destruct (IssueOut_handleSubmit_cases itemData onSubmit m p)
    as [[_ _] | (q' & Hq' & _ & _ & H)].
  - cbv zeta. unfold IssueOutItemModal.handleSubmit.
    destruct m as [mq mr ms me mw].
    cbn [IssueOutItemModal.quantity IssueOutItemModal.setError] in *.
    rewrite Hq. rewrite (Qlt_Qle_bool_false q 0 Hpos).
    assert (E : match itemData with
                | Some d => Qgtb q (ItemData.quantity d)
                | None => false
                end = false).
    { destruct itemData as [d|]; [|reflexivity].
      apply Qle_Qgtb_false, Hstock. reflexivity. }
    rewrite E. unfold issueOutRemarks. cbn.
    destruct (onSubmit _ p) as [[u|err] p']; cbn; repeat split.
  - rewrite Hq in Hq'. injection Hq' as <-. cbv zeta in *.
    destruct H as (H1 & H2 & _ & H3). repeat split; assumption.
Qed.

Lemma Damage_handleSubmit_accepts {engine : JsEngine} {P : Type}
  (itemData : option ItemData.t)
  (onSubmit : DamageItemModal.Payload.t -> P -> completion unit * P)
  (m : DamageItemModal.State) (p : P) (q : Q) :
  toNumber (DamageItemModal.quantity m) = Num q -> (0 < q)%Q ->
  (forall d, itemData = Some d -> (q <= ItemData.quantity d)%Q) ->
  JsString.truthy (trim (DamageItemModal.remarks m)) = true ->
  let r := DamageItemModal.handleSubmit itemData onSubmit m p in
  let call := onSubmit {| DamageItemModal.Payload.quantity_damaged := q;
                          DamageItemModal.Payload.remarks :=
                            trim (DamageItemModal.remarks m) |} p in
  snd r = snd call /\
  DamageItemModal.isSubmitting (fst r) = false /\
  DamageItemModal.error (fst r)
  = match fst call with
    | Normal _ => None
    | Throw err =>
        Some (JsString.orElse err
                "Failed to mark item as damaged. Please try again.")
    end.
Proof.
  intros Hq Hpos Hstock Hrem. cbv zeta.
  unfold DamageItemModal.handleSubmit.
  destruct m as [mq mr ms me mw].
  cbn [DamageItemModal.quantity DamageItemModal.setError
       DamageItemModal.remarks DamageItemModal.setShowQuantityWarning] in *.
  rewrite Hq. rewrite (Qlt_Qle_bool_false q 0 Hpos).
  assert (E : match itemData with
              | Some d => Qgtb q (ItemData.quantity d)
              | None => false
              end = false).
  { destruct itemData as [d|]; [|reflexivity].
    apply Qle_Qgtb_false, Hstock. reflexivity. }
  rewrite E. rewrite Hrem. cbn [negb].
  cbn [DamageItemModal.setIsSubmitting DamageItemModal.quantity
       DamageItemModal.remarks DamageItemModal.isSubmitting
       DamageItemModal.error DamageItemModal.showQuantityWarning].
  destruct (onSubmit _ p) as [[u|err] p']; cbn; repeat split.
Qed.

(** A request to submit that the button and the browser let through is
    [handleSubmit], on a quantity that is a whole number of at least 1. *)
Lemma IssueOut_requestSubmit_passes {engine : JsEngine} {P : Type}
  (itemData : option ItemData.t)
  (onSubmit : IssueOutItemModal.Payload.t -> P -> completion unit * P)
  (m : IssueOutItemModal.State) (p : P) :
  IssueOutItemModal.submitDisabled m = false ->
  IssueOutItemModal.formValid m = true ->
  IssueOutItemModal.requestSubmit itemData onSubmit m p
  = IssueOutItemModal.handleSubmit itemData onSubmit m p.
Proof.
  intros Hb Hv. unfold IssueOutItemModal.requestSubmit.
  rewrite Hb, Hv. reflexivity.
Qed.

Lemma Damage_requestSubmit_passes {engine : JsEngine} {P : Type}
  (itemData : option ItemData.t)
  (onSubmit : DamageItemModal.Payload.t -> P -> completion unit * P)
  (m : DamageItemModal.State) (p : P) :
  DamageItemModal.submitDisabled m = false ->
  DamageItemModal.formValid m = true ->
  DamageItemModal.requestSubmit itemData onSubmit m p
  = DamageItemModal.handleSubmit itemData onSubmit m p.
Proof.
  intros Hb Hv. unfold DamageItemModal.requestSubmit.
  rewrite Hb, Hv. reflexivity.
Qed.

Lemma whole_quantity_positive (q : Q) : (1 <= q)%Q -> (0 < q)%Q.
Proof. intros H. lra. Qed.

(** What went through a request to submit: nothing, or a form with the
    button enabled and a quantity that the browser accepted. *)
Lemma IssueOut_requestSubmit_gate {engine : JsEngine} {P : Type}
  (itemData : option ItemData.t)
  (onSubmit : IssueOutItemModal.Payload.t -> P -> completion unit * P)
  (m : IssueOutItemModal.State) (p : P) :
  IssueOutItemModal.requestSubmit itemData onSubmit m p = (m, p) \/
  (IssueOutItemModal.submitDisabled m = false /\
   (exists q, toNumber (IssueOutItemModal.quantity m) = Num q /\
              (1 <= q)%Q /\ isWhole q = true) /\
   IssueOutItemModal.requestSubmit itemData onSubmit m p
   = IssueOutItemModal.handleSubmit itemData onSubmit m p).
Proof.
  unfold IssueOutItemModal.requestSubmit.
  destruct (IssueOutItemModal.submitDisabled m); [left; reflexivity|].
  destruct (IssueOutItemModal.formValid m) eqn:Hv; cbn [negb];
    [|left; reflexivity].
  right. split; [reflexivity|]. split; [|reflexivity].
  exact (quantityFieldValid_number _ Hv).
Qed.

Lemma Damage_requestSubmit_gate {engine : JsEngine} {P : Type}
  (itemData : option ItemData.t)
  (onSubmit : DamageItemModal.Payload.t -> P -> completion unit * P)
  (m : DamageItemModal.State) (p : P) :
  DamageItemModal.requestSubmit itemData onSubmit m p = (m, p) \/
  (DamageItemModal.submitDisabled m = false /\
   (exists q, toNumber (DamageItemModal.quantity m) = Num q /\
              (1 <= q)%Q /\ isWhole q = true) /\
   DamageItemModal.requestSubmit itemData onSubmit m p
   = DamageItemModal.handleSubmit itemData onSubmit m p).
Proof.
  unfold DamageItemModal.requestSubmit.
  destruct (DamageItemModal.submitDisabled m); [left; reflexivity|].
  destruct (DamageItemModal.formValid m) eqn:Hv; cbn [negb];
    [|left; reflexivity].
  right. split; [reflexivity|]. split; [|reflexivity].
  unfold DamageItemModal.formValid in Hv.
  apply andb_true_iff in Hv as [Hv _].
  exact (quantityFieldValid_number _ Hv).
Qed.

Section NotificationActions.
Import NotificationList.
Context {engine : JsEngine}.

Lemma handleIssueOutSubmitForNotification_proceeds (server : Http.Server)
  (modalPayload : IssueOutItemModal.Payload.t) (st : State) (w : World)
  (item : NotificationItem) :
  actionItem st = Some item -> userKnown w = true ->
  (IssueOutItemModal.Payload.quantity_issued modalPayload <= quantity item)%Q ->
  handleIssueOutSubmitForNotification server modalPayload (st, w)
  = handlePostEventApiAction server ISSUE_API_URL
      (Http.IssueOutBody (id item)
         (IssueOutItemModal.Payload.quantity_issued modalPayload)
         (IssueOutItemModal.Payload.remarks modalPayload))
      "issue out item"
      (IssueOutItemModal.Payload.quantity_issued modalPayload) (st, w).
Proof.
  intros Ha Hu Hq. unfold handleIssueOutSubmitForNotification.
  rewrite Ha. unfold userKnown in Hu. rewrite Hu. cbn [negb].
  rewrite (Qle_Qgtb_false _ _ Hq). reflexivity.
Qed.

Lemma handleDamageSubmitForNotification_proceeds (server : Http.Server)
  (modalPayload : DamageItemModal.Payload.t) (st : State) (w : World)
  (item : NotificationItem) :
  actionItem st = Some item -> userKnown w = true ->
  (DamageItemModal.Payload.quantity_damaged modalPayload <= quantity item)%Q ->
  handleDamageSubmitForNotification server modalPayload (st, w)
  = handlePostEventApiAction server DAMAGE_API_URL
      (Http.DamageBody (id item)
         (DamageItemModal.Payload.quantity_damaged modalPayload)
         (DamageItemModal.Payload.remarks modalPayload))
      "mark item as damaged"
      (DamageItemModal.Payload.quantity_damaged modalPayload) (st, w).
Proof.
  intros Ha Hu Hq. unfold handleDamageSubmitForNotification.
  rewrite Ha. unfold userKnown in Hu. rewrite Hu. cbn [negb].
  rewrite (Qle_Qgtb_false _ _ Hq). reflexivity.
Qed.

(** The state and the world after an accepted POST. *)
Lemma handlePostEventApiAction_success (server : Http.Server)
  (apiUrl : Endpoint) (payload : Http.Body) (actionDesc : string)
  (quantityChanged : Q) (st : State) (w : World) (item : NotificationItem) :
  actionItem st = Some item ->
  actionSucceeds (server (post apiUrl payload)) ->
  let r := handlePostEventApiAction server apiUrl payload actionDesc
             quantityChanged (st, w) in
  let st' := fst (snd r) in
  fst r = Normal tt /\
  snd (snd r) = triggerRefresh (sent (post apiUrl payload) w) /\
  allNotificationData st'
    = reconcile item quantityChanged (allNotificationData st) /\
  isIssueOutModalOpen st' = false /\ isDamageModalOpen st' = false /\
  actionItem st' = None /\ isActionLoading st' = false /\
  error st' = None /\
  exists message, successMessage st' = Some message.
Proof.
  intros Ha Hs.
  destruct (handlePostEventApiAction_effect server apiUrl payload actionDesc
              quantityChanged st w item Ha)
    as (Hl & Hact & _ & [(Hf & _) | (_ & Hw & Hall & Hi & Hd & Hr & He & Hm)]).
  - destruct (action_outcome_exclusive _ Hf Hs).
  - cbv zeta in *. repeat split; assumption.
Qed.

End NotificationActions.

(** X10. An issue-out that passes every test and that the server accepts.
    The submit button is enabled, the browser finds the form valid (the
    quantity is a whole number of at least 1), the quantity is within
    the stock and the user is identified. Then one POST carries the
    action item's identifier, the typed quantity and the remarks as the
    engine trims them; the collection is reconciled with that quantity;
    both modals are closed and the action item cleared; a success message
    is set and no error; and the sidebar is asked to refresh once. *)
Theorem issue_out_accepted_on_notification_list {engine : JsEngine}
  (server : Http.Server) (m : IssueOutItemModal.State)
  (st : NotificationList.State) (w : World)
  (item : NotificationList.NotificationItem) (q : Q) :
  NotificationList.actionItem st = Some item ->
  userKnown w = true ->
  IssueOutItemModal.submitDisabled m = false ->
  IssueOutItemModal.formValid m = true ->
  toNumber (IssueOutItemModal.quantity m) = Num q ->
  (q <= NotificationList.quantity item)%Q ->
  actionSucceeds
    (server (post ISSUE_API_URL
               (Http.IssueOutBody (NotificationList.id item) q
                  (issueOutRemarks m)))) ->
  let r := NotificationList.submitIssueOut server m (st, w) in
  let st' := fst (snd r) in
  snd (snd r)
  = triggerRefresh
      (sent (post ISSUE_API_URL
               (Http.IssueOutBody (NotificationList.id item) q
                  (issueOutRemarks m))) w) /\
  NotificationList.allNotificationData st'
  = reconcile item q (NotificationList.allNotificationData st) /\
  NotificationList.isIssueOutModalOpen st' = false /\
  NotificationList.isDamageModalOpen st' = false /\
  NotificationList.actionItem st' = None /\
  NotificationList.isActionLoading st' = false /\
  NotificationList.error st' = None /\
  (exists message, NotificationList.successMessage st' = Some message) /\
  IssueOutItemModal.error (fst r) = None /\
  IssueOutItemModal.isSubmitting (fst r) = false.
Proof.
  intros Ha Hu Hb Hv Hq Hle Hs. cbv zeta.
  assert (Hpos : (0 < q)%Q).
  { destruct (quantityFieldValid_number _ Hv) as (q' & Hq' & H1 & _).
    rewrite Hq in Hq'. injection Hq' as <-.
    exact (whole_quantity_positive q H1). }
  unfold NotificationList.submitIssueOut. cbn [fst].
  rewrite (IssueOut_requestSubmit_passes _ _ m (st, w) Hb Hv).
  destruct (IssueOut_handleSubmit_accepts
              (option_map NotificationList.itemDataOf
                 (NotificationList.actionItem st))
              (NotificationList.handleIssueOutSubmitForNotification server)
              m (st, w) q Hq Hpos) as (Hsnd & Hsub & Herr).
  { rewrite Ha. intros d [= <-]. exact Hle. }
  cbv zeta in *.
  rewrite (handleIssueOutSubmitForNotification_proceeds server
             {| IssueOutItemModal.Payload.quantity_issued := q;
                IssueOutItemModal.Payload.remarks := issueOutRemarks m |}
             st w item Ha Hu Hle) in Hsnd, Herr.
  cbn [IssueOutItemModal.Payload.quantity_issued
       IssueOutItemModal.Payload.remarks] in Hsnd, Herr.
  destruct (handlePostEventApiAction_success server ISSUE_API_URL _
              "issue out item" q st w item Ha Hs)
    as (Hr & Hw & Hall & Hi & Hd & Hact & Hl & He & Hm).
  cbv zeta in *. rewrite Hr in Herr. rewrite Hsnd.
  repeat split; assumption.
Qed.

(** X11. A damage report on the notification list that passes every test
    and that the server accepts. The submit button is enabled (so the
    remarks are not blank once the engine has trimmed them), the browser
    finds the form valid (the quantity is a whole number of at least 1),
    the quantity is within the stock and the user is identified. Then
    one POST carries the action item's identifier, the typed quantity and
    the trimmed remarks; the collection is reconciled with that quantity;
    both modals are closed and the action item cleared; a success message
    is set and no error; and the sidebar is asked to refresh once. *)
Theorem damage_accepted_on_notification_list {engine : JsEngine}
  (server : Http.Server) (m : DamageItemModal.State)
  (st : NotificationList.State) (w : World)
  (item : NotificationList.NotificationItem) (q : Q) :
  NotificationList.actionItem st = Some item ->
  userKnown w = true ->
  DamageItemModal.submitDisabled m = false ->
  DamageItemModal.formValid m = true ->
  toNumber (DamageItemModal.quantity m) = Num q ->
  (q <= NotificationList.quantity item)%Q ->
  actionSucceeds
    (server (post DAMAGE_API_URL
               (Http.DamageBody (NotificationList.id item) q
                  (trim (DamageItemModal.remarks m))))) ->
  let r := NotificationList.submitDamage server m (st, w) in
  let st' := fst (snd r) in
  snd (snd r)
  = triggerRefresh
      (sent (post DAMAGE_API_URL
               (Http.DamageBody (NotificationList.id item) q
                  (trim (DamageItemModal.remarks m)))) w) /\
  NotificationList.allNotificationData st'
  = reconcile item q (NotificationList.allNotificationData st) /\
  NotificationList.isIssueOutModalOpen st' = false /\
  NotificationList.isDamageModalOpen st' = false /\
  NotificationList.actionItem st' = None /\
  NotificationList.isActionLoading st' = false /\
  NotificationList.error st' = None /\
  (exists message, NotificationList.successMessage st' = Some message) /\
  DamageItemModal.error (fst r) = None /\
  DamageItemModal.isSubmitting (fst r) = false.
Proof.
  intros Ha Hu Hb Hv Hq Hle Hs. cbv zeta.
  assert (Hpos : (0 < q)%Q).
  { pose proof Hv as Hv'. unfold DamageItemModal.formValid in Hv'.
    apply andb_true_iff in Hv' as [Hv' _].
    destruct (quantityFieldValid_number _ Hv') as (q' & Hq' & H1 & _).
    rewrite Hq in Hq'. injection Hq' as <-.
    exact (whole_quantity_positive q H1). }
  assert (Hrem : JsString.truthy (trim (DamageItemModal.remarks m)) = true).
  { unfold DamageItemModal.submitDisabled in Hb.
    apply orb_false_iff in Hb as [_ Hb]. apply negb_false_iff in Hb.
    exact Hb. }
  unfold NotificationList.submitDamage. cbn [fst].
  rewrite (Damage_requestSubmit_passes _ _ m (st, w) Hb Hv).
  destruct (Damage_handleSubmit_accepts
              (option_map NotificationList.itemDataOf
                 (NotificationList.actionItem st))
              (NotificationList.handleDamageSubmitForNotification server)
              m (st, w) q Hq Hpos) as (Hsnd & Hsub & Herr).
  { rewrite Ha. intros d [= <-]. exact Hle. }
  { exact Hrem. }
  cbv zeta in *.
  rewrite (handleDamageSubmitForNotification_proceeds server
             {| DamageItemModal.Payload.quantity_damaged := q;
                DamageItemModal.Payload.remarks :=
                  trim (DamageItemModal.remarks m) |}
             st w item Ha Hu Hle) in Hsnd, Herr.
  cbn [DamageItemModal.Payload.quantity_damaged
       DamageItemModal.Payload.remarks] in Hsnd, Herr.
  destruct (handlePostEventApiAction_success server DAMAGE_API_URL _
              "mark item as damaged" q st w item Ha Hs)
    as (Hr & Hw & Hall & Hi & Hd & Hact & Hl & He & Hm).
  cbv zeta in *. rewrite Hr in Herr. rewrite Hsnd.
  repeat split; assumption.
Qed.

(** X12. Whatever is typed into either modal of the notification list and
    whatever the server answers, a request to submit sends nothing, or
    sends one POST for the action item, by an identified user, with a
    quantity that is a whole number of at least 1 and within its stock;
    a damage report then has remarks that are not blank once the engine
    has trimmed them. *)
Theorem notification_posts_are_within_stock {engine : JsEngine}
  (server : Http.Server) (st : NotificationList.State) (w : World) :
  (forall m : IssueOutItemModal.State,
     let r := NotificationList.submitIssueOut server m (st, w) in
     requests (snd (snd r)) = requests w \/
     exists item q,
       NotificationList.actionItem st = Some item /\
       userKnown w = true /\
       toNumber (IssueOutItemModal.quantity m) = Num q /\
       (1 <= q)%Q /\ isWhole q = true /\
       (q <= NotificationList.quantity item)%Q /\
       requests (snd (snd r))
       = requests w ++
         [post ISSUE_API_URL
            (Http.IssueOutBody (NotificationList.id item) q
               (issueOutRemarks m))]) /\
  (forall m : DamageItemModal.State,
     let r := NotificationList.submitDamage server m (st, w) in
     requests (snd (snd r)) = requests w \/
     exists item q,
       NotificationList.actionItem st = Some item /\
       userKnown w = true /\
       toNumber (DamageItemModal.quantity m) = Num q /\
       (1 <= q)%Q /\ isWhole q = true /\
       (q <= NotificationList.quantity item)%Q /\
       JsString.truthy (trim (DamageItemModal.remarks m)) = true /\
       requests (snd (snd r))
       = requests w ++
         [post DAMAGE_API_URL
            (Http.DamageBody (NotificationList.id item) q
               (trim (DamageItemModal.remarks m)))]).
Proof.
  split; intros m; cbv zeta.
  - unfold NotificationList.submitIssueOut.
    destruct (IssueOut_requestSubmit_gate
                (option_map NotificationList.itemDataOf
                   (NotificationList.actionItem (fst (st, w))))
                (NotificationList.handleIssueOutSubmitForNotification server)
                m (st, w))
      as [-> | (_ & (q0 & Hq0 & H1 & Hwhole) & ->)]; [left; reflexivity|].
    destruct (IssueOut_handleSubmit_cases
                (option_map NotificationList.itemDataOf
                   (NotificationList.actionItem (fst (st, w))))
                (NotificationList.handleIssueOutSubmitForNotification server)
                m (st, w))
      as [[-> _] | (q & Hq & Hpos & _ & -> & _)]; [left; reflexivity|].
    rewrite Hq in Hq0. injection Hq0 as <-.
    destruct (handleIssueOutSubmitForNotification_cases server
                {| IssueOutItemModal.Payload.quantity_issued := q;
                   IssueOutItemModal.Payload.remarks := issueOutRemarks m |}
                st w)
      as [(_ & Hw & _) | (item & Ha & Hu & Hle & ->)]; cbv zeta in *.
    + left. rewrite Hw. reflexivity.
    + right. exists item, q.
      cbn [IssueOutItemModal.Payload.quantity_issued
           IssueOutItemModal.Payload.remarks] in *.
      split; [exact Ha|]. split; [exact Hu|]. split; [exact Hq|].
      split; [exact H1|]. split; [exact Hwhole|]. split; [exact Hle|].
      destruct (handlePostEventApiAction_effect server ISSUE_API_URL
                  (Http.IssueOutBody (NotificationList.id item) q
                     (issueOutRemarks m))
                  "issue out item" q st w item Ha)
        as (_ & _ & _ & [(_ & Hw & _) | (_ & Hw & _)]);
        cbv zeta in Hw; rewrite Hw; reflexivity.
  - unfold NotificationList.submitDamage.
    destruct (Damage_requestSubmit_gate
                (option_map NotificationList.itemDataOf
                   (NotificationList.actionItem (fst (st, w))))
                (NotificationList.handleDamageSubmitForNotification server)
                m (st, w))
      as [-> | (_ & (q0 & Hq0 & H1 & Hwhole) & ->)]; [left; reflexivity|].
    destruct (Damage_handleSubmit_cases
                (option_map NotificationList.itemDataOf
                   (NotificationList.actionItem (fst (st, w))))
                (NotificationList.handleDamageSubmitForNotification server)
                m (st, w))
      as [[-> _] | (q & Hq & Hpos & _ & Hrem & -> & _)]; [left; reflexivity|].
    rewrite Hq in Hq0. injection Hq0 as <-.
    destruct (handleDamageSubmitForNotification_cases server
                {| DamageItemModal.Payload.quantity_damaged := q;
                   DamageItemModal.Payload.remarks :=
                     trim (DamageItemModal.remarks m) |}
                st w)
      as [(_ & Hw & _) | (item & Ha & Hu & Hle & ->)]; cbv zeta in *.
    + left. rewrite Hw. reflexivity.
    + right. exists item, q.
      cbn [DamageItemModal.Payload.quantity_damaged
           DamageItemModal.Payload.remarks] in *.
      split; [exact Ha|]. split; [exact Hu|]. split; [exact Hq|].
      split; [exact H1|]. split; [exact Hwhole|]. split; [exact Hle|].
      split; [exact Hrem|].
      destruct (handlePostEventApiAction_effect server DAMAGE_API_URL
                  (Http.DamageBody (NotificationList.id item) q
                     (trim (DamageItemModal.remarks m)))
                  "mark item as damaged" q st w item Ha)
        as (_ & _ & _ & [(_ & Hw & _) | (_ & Hw & _)]);
        cbv zeta in Hw; rewrite Hw; reflexivity.
Qed.

(** X13. Without a [user_id] in the session, neither action of the
    notification list sends a request: the handler stores and throws
    [User not identified.] and leaves the collection and the world as they
    were. *)
Theorem notification_action_needs_user {engine : JsEngine}
  (server : Http.Server) (st : NotificationList.State) (w : World)
  (item : NotificationList.NotificationItem) :
  NotificationList.actionItem st = Some item ->
  userKnown w = false ->
  (forall payload,
     let r := NotificationList.handleIssueOutSubmitForNotification server
                payload (st, w) in
     fst r = Throw "User not identified." /\
     snd (snd r) = w /\
     NotificationList.error (fst (snd r)) = Some "User not identified." /\
     NotificationList.allNotificationData (fst (snd r))
     = NotificationList.allNotificationData st) /\
  (forall payload,
     let r := NotificationList.handleDamageSubmitForNotification server
                payload (st, w) in
     fst r = Throw "User not identified." /\
     snd (snd r) = w /\
     NotificationList.error (fst (snd r)) = Some "User not identified." /\
     NotificationList.allNotificationData (fst (snd r))
     = NotificationList.allNotificationData st).
Proof.
  intros Ha Hu. unfold userKnown in Hu.
  split; intros payload; cbv zeta.
  - unfold NotificationList.handleIssueOutSubmitForNotification.
    rewrite Ha, Hu. cbn [negb fst snd]. repeat split.
  - unfold NotificationList.handleDamageSubmitForNotification.
    rewrite Ha, Hu. cbn [negb fst snd]. repeat split.
Qed.

Lemma issue_out_accepted_on_notification_list_witness :
  let engine := ReferenceEngine.engine 0 in
  let r := NotificationList.submitIssueOut acceptingServer
             (typed "2" " cracked ") (sampleListOpen, sampleWorld) in
  let st' := fst (snd r) in
  snd (snd r)
  = triggerRefresh
      (sent (post ISSUE_API_URL (Http.IssueOutBody "P1" 2 (Some "cracked")))
         sampleWorld) /\
  NotificationList.allNotificationData st'
  = reconcile (sampleItem "P1" 5) 2
      (NotificationList.allNotificationData sampleListOpen) /\
  NotificationList.isIssueOutModalOpen st' = false /\
  NotificationList.isDamageModalOpen st' = false /\
  NotificationList.actionItem st' = None /\
  NotificationList.isActionLoading st' = false /\
  NotificationList.error st' = None /\
  (exists message, NotificationList.successMessage st' = Some message) /\
  IssueOutItemModal.error (fst r) = None /\
  IssueOutItemModal.isSubmitting (fst r) = false.
Proof.
  apply (issue_out_accepted_on_notification_list
           (engine := ReferenceEngine.engine 0) acceptingServer
           (typed "2" " cracked ") sampleListOpen sampleWorld
           (sampleItem "P1" 5) 2).
  - reflexivity.
  - reflexivity.
  - reflexivity.
  - reflexivity.
  - reflexivity.
  - discriminate.
  - split; reflexivity.
Defined.

Lemma damage_accepted_on_notification_list_witness :
  let engine := ReferenceEngine.engine 0 in
  let r := NotificationList.submitDamage acceptingServer
             (typedDamage "5" "bent pins") (sampleListOpen, sampleWorld) in
  let st' := fst (snd r) in
  snd (snd r)
  = triggerRefresh
      (sent (post DAMAGE_API_URL (Http.DamageBody "P1" 5 "bent pins"))
         sampleWorld) /\
  NotificationList.allNotificationData st'
  = reconcile (sampleItem "P1" 5) 5
      (NotificationList.allNotificationData sampleListOpen) /\
  NotificationList.isIssueOutModalOpen st' = false /\
  NotificationList.isDamageModalOpen st' = false /\
  NotificationList.actionItem st' = None /\
  NotificationList.isActionLoading st' = false /\
  NotificationList.error st' = None /\
  (exists message, NotificationList.successMessage st' = Some message) /\
  DamageItemModal.error (fst r) = None /\
  DamageItemModal.isSubmitting (fst r) = false.
Proof.
  apply (damage_accepted_on_notification_list
           (engine := ReferenceEngine.engine 0) acceptingServer
           (typedDamage "5" "bent pins") sampleListOpen sampleWorld
           (sampleItem "P1" 5) 5).
  - reflexivity.
  - reflexivity.
  - reflexivity.
  - reflexivity.
  - reflexivity.
  - discriminate.
  - split; reflexivity.
Defined.

Lemma notification_action_needs_user_witness :
  let engine := ReferenceEngine.engine 0 in
  let w := {| requests := []; refreshKey := 0; sessionUserId := None |} in
  (forall payload,
     let r := NotificationList.handleIssueOutSubmitForNotification
                acceptingServer payload (sampleListOpen, w) in
     fst r = Throw "User not identified." /\
     snd (snd r) = w /\
     NotificationList.error (fst (snd r)) = Some "User not identified." /\
     NotificationList.allNotificationData (fst (snd r))
     = NotificationList.allNotificationData sampleListOpen) /\
  (forall payload,
     let r := NotificationList.handleDamageSubmitForNotification
                acceptingServer payload (sampleListOpen, w) in
     fst r = Throw "User not identified." /\
     snd (snd r) = w /\
     NotificationList.error (fst (snd r)) = Some "User not identified." /\
     NotificationList.allNotificationData (fst (snd r))
     = NotificationList.allNotificationData sampleListOpen).
Proof.
  apply (notification_action_needs_user (engine := ReferenceEngine.engine 0)
           acceptingServer sampleListOpen
           {| requests := []; refreshKey := 0; sessionUserId := None |}
           (sampleItem "P1" 5)).
  - reflexivity.
  - reflexivity.
Defined.

(** * The part list *)

Section PartListHandlers.
Import ListPartItem.
Context {engine : JsEngine}.

Lemma parts_fetchData_frame (server : Http.Server) (spinner : bool)
  (st : State) (w : World) :
  let r := fetchData server spinner st w in
  snd r = sent partsRequest w /\
  isActionLoading (fst r) = isActionLoading st /\
  isIssueOutModalOpen (fst r) = isIssueOutModalOpen st /\
  isDamageModalOpen (fst r) = isDamageModalOpen st /\
  actionItem (fst r) = actionItem st /\
  isLoading (fst r) = (if spinner then false else isLoading st) /\
  successMessage (fst r) = successMessage st /\
  (error (fst r) = None \/
   exists message, error (fst r) = Some message /\ allData (fst r) = []).
Proof.
  cbv zeta. unfold fetchData, fetch, sent, partsRequest. cbn [fst snd].
  destruct (server _) as [response|msg]; cbn.
  - destruct (Http.ok response); cbn.
    + destruct (Http.json response) as [[|o]|msg]; cbn;
        try (destruct spinner; cbn; repeat split; right; eexists; split;
             reflexivity).
      destruct (isSuccess (Http.status o)); cbn;
        [|destruct spinner; cbn; repeat split; right; eexists; split;
          reflexivity].
      destruct (Http.items o) as [items| | |[|]]; cbn;
        destruct spinner; cbn; repeat split;
        first [left; reflexivity | right; eexists; split; reflexivity].
    + destruct (Http.json response) as [[|o]|msg]; cbn;
        destruct spinner; cbn; repeat split; right; eexists; split;
        reflexivity.
  - destruct spinner; cbn; repeat split; right; eexists; split; reflexivity.
Qed.

(** The table's filter on a mapped part is the filter on the part as
    the server lists it. *)
Lemma isApprovedInStock_mapApiToState (apiItem : Api.ListItem) :
  isApprovedInStock (mapApiToState apiItem) = approvedInStock apiItem.
Proof. reflexivity. Qed.

Lemma filter_map_mapApiToState (items : list Api.ListItem) :
  filter isApprovedInStock (map mapApiToState items)
  = map mapApiToState (filter approvedInStock items).
Proof.
  induction items as [|a items IH]; [reflexivity|].
  cbn [map filter]. rewrite isApprovedInStock_mapApiToState.
  destruct (approvedInStock a); cbn [map]; rewrite IH; reflexivity.
Qed.

Lemma parts_fetchData_listed (server : Http.Server) (spinner : bool)
  (st : State) (w : World) (items : list Api.ListItem) :
  listsParts server items ->
  let st' := fst (fetchData server spinner st w) in
  error st' = None /\
  allData st' = map mapApiToState (filter approvedInStock items).
Proof.
  intros (response & o & Hs & Hok & Hj & Hsucc & Hitems). cbv zeta.
  unfold partsRequest in Hs.
  unfold fetchData, fetch. cbn [fst snd]. rewrite Hs. cbn [bindC].
  rewrite Hok. cbn [negb]. rewrite Hj. cbn [bindC Http.member].
  rewrite Hsucc, Hitems. rewrite filter_map_mapApiToState.
  destruct spinner; cbn; (split; reflexivity).
Qed.

(** Everything [handlePostApiAction] does, by the outcome of its
    request. *)
Lemma handlePostApiAction_effect (server : Http.Server)
  (apiUrl : Endpoint) (payload : Http.Body) (actionDesc : string)
  (quantityChanged : Q) (st : State) (w : World) (item : ListItem) :
  actionItem st = Some item ->
  let r := handlePostApiAction server apiUrl payload actionDesc
             quantityChanged (st, w) in
  let st' := fst (snd r) in
  snd (snd r) = sent (post apiUrl payload) w /\
  isActionLoading st' = false /\ actionItem st' = None /\
  isLoading st' = isLoading st /\
  ((actionFails (server (post apiUrl payload)) /\
    allData st' = allData st /\
    isIssueOutModalOpen st' = isIssueOutModalOpen st /\
    isDamageModalOpen st' = isDamageModalOpen st /\
    isEditModalOpen st' = isEditModalOpen st /\
    successMessage st' = None /\
    exists message, fst r = Throw message /\ error st' = Some message)
   \/
   (actionSucceeds (server (post apiUrl payload)) /\
    allData st' = reconcile item quantityChanged (allData st) /\
    isIssueOutModalOpen st' = false /\ isDamageModalOpen st' = false /\
    isEditModalOpen st' = false /\
    fst r = Normal tt /\ error st' = None /\
    exists message, successMessage st' = Some message)).
Proof.
  intros Ha. cbv zeta.
  unfold handlePostApiAction, fetch, post, sent, actionFails, actionSucceeds.
  rewrite Ha. cbn [fst snd].
  destruct (server _) as [response|msg]; cbn.
  - destruct (Http.json response) as [[|o]|msg]; cbn.
    + repeat split. left. repeat split; try exact I. eexists; split; reflexivity.
    + destruct (Http.ok response); cbn.
      * destruct (isSuccess (Http.status o)); cbn.
        -- repeat split. right. repeat split. eexists; reflexivity.
        -- repeat split. left. repeat split; try (right; reflexivity).
           eexists; split; reflexivity.
      * repeat split. left. repeat split; try (left; reflexivity).
        eexists; split; reflexivity.
    + repeat split. left. repeat split; try exact I. eexists; split; reflexivity.
  - repeat split. left. repeat split; try exact I. eexists; split; reflexivity.
Qed.

Lemma handleIssueOutSubmit_cases (server : Http.Server)
  (modalPayload : IssueOutItemModal.Payload.t) (st : State) (w : World) :
  let r := handleIssueOutSubmit server modalPayload (st, w) in
  ((exists message, fst r = Throw message) /\
   snd (snd r) = w /\
   allData (fst (snd r)) = allData st /\
   isActionLoading (fst (snd r)) = isActionLoading st)
  \/
  exists item,
    actionItem st = Some item /\
    (IssueOutItemModal.Payload.quantity_issued modalPayload
     <= quantity item)%Q /\
    r = handlePostApiAction server ISSUE_API_URL
          (Http.IssueOutBody (id item)
             (IssueOutItemModal.Payload.quantity_issued modalPayload)
             (IssueOutItemModal.Payload.remarks modalPayload))
          "issue out item"
          (IssueOutItemModal.Payload.quantity_issued modalPayload) (st, w).
Proof.
  cbv zeta. unfold handleIssueOutSubmit.
  destruct (actionItem st) as [item|] eqn:Ha.
  - destruct (Qgtb _ _) eqn:Hq.
    + left. cbn. split; [eexists; reflexivity|]. repeat split.
    + right. exists item. split; [reflexivity|].
      split; [exact (Qgtb_false_le _ _ Hq)|reflexivity].
  - left. cbn. split; [eexists; reflexivity|]. repeat split.
Qed.

Lemma handleDamageSubmit_cases (server : Http.Server)
  (modalPayload : DamageItemModal.Payload.t) (st : State) (w : World) :
  let r := handleDamageSubmit server modalPayload (st, w) in
  ((exists message, fst r = Throw message) /\
   snd (snd r) = w /\
   allData (fst (snd r)) = allData st /\
   isActionLoading (fst (snd r)) = isActionLoading st)
  \/
  exists item,
    actionItem st = Some item /\
    (DamageItemModal.Payload.quantity_damaged modalPayload
     <= quantity item)%Q /\
    r = handlePostApiAction server DAMAGE_API_URL
          (Http.DamageBody (id item)
             (DamageItemModal.Payload.quantity_damaged modalPayload)
             (DamageItemModal.Payload.remarks modalPayload))
          "mark item as damaged"
          (DamageItemModal.Payload.quantity_damaged modalPayload) (st, w).
Proof.
  cbv zeta. unfold handleDamageSubmit.
  destruct (actionItem st) as [item|] eqn:Ha.
  - destruct (Qgtb _ _) eqn:Hq.
    + left. cbn. split; [eexists; reflexivity|]. repeat split.
    + right. exists item. split; [reflexivity|].
      split; [exact (Qgtb_false_le _ _ Hq)|reflexivity].
  - left. cbn. split; [eexists; reflexivity|]. repeat split.
Qed.

Lemma handleIssueOutSubmit_proceeds (server : Http.Server)
  (modalPayload : IssueOutItemModal.Payload.t) (st : State) (w : World)
  (item : ListItem) :
  actionItem st = Some item ->
  (IssueOutItemModal.Payload.quantity_issued modalPayload <= quantity item)%Q ->
  handleIssueOutSubmit server modalPayload (st, w)
  = handlePostApiAction server ISSUE_API_URL
      (Http.IssueOutBody (id item)
         (IssueOutItemModal.Payload.quantity_issued modalPayload)
         (IssueOutItemModal.Payload.remarks modalPayload))
      "issue out item"
      (IssueOutItemModal.Payload.quantity_issued modalPayload) (st, w).
Proof.
  intros Ha Hq. unfold handleIssueOutSubmit.
  rewrite Ha. rewrite (Qle_Qgtb_false _ _ Hq). reflexivity.
Qed.

Lemma handleDamageSubmit_proceeds (server : Http.Server)
  (modalPayload : DamageItemModal.Payload.t) (st : State) (w : World)
  (item : ListItem) :
  actionItem st = Some item ->
  (DamageItemModal.Payload.quantity_damaged modalPayload <= quantity item)%Q ->
  handleDamageSubmit server modalPayload (st, w)
  = handlePostApiAction server DAMAGE_API_URL
      (Http.DamageBody (id item)
         (DamageItemModal.Payload.quantity_damaged modalPayload)
         (DamageItemModal.Payload.remarks modalPayload))
      "mark item as damaged"
      (DamageItemModal.Payload.quantity_damaged modalPayload) (st, w).
Proof.
  intros Ha Hq. unfold handleDamageSubmit.
  rewrite Ha. rewrite (Qle_Qgtb_false _ _ Hq). reflexivity.
Qed.

(** What every event of the part list does to the world and to the
    loading flag of the actions. *)
Lemma parts_step_world (e : Event) (p : State * World) :
  (snd (step e p) = snd p \/
   exists r, snd (step e p) = sent r (snd p)) /\
  (isActionLoading (fst p) = false ->
   isActionLoading (fst (step e p)) = false).
Proof.
  assert (Hpost : forall server apiUrl payload actionDesc d st w,
             let r := handlePostApiAction server apiUrl payload
                        actionDesc d (st, w) in
             (snd (snd r) = w \/ exists q, snd (snd r) = sent q w) /\
             (isActionLoading st = false ->
              isActionLoading (fst (snd r)) = false)).
  { intros server apiUrl payload actionDesc d st w. cbv zeta.
    destruct (actionItem st) as [item|] eqn:Ha.
    - destruct (handlePostApiAction_effect server apiUrl payload
                  actionDesc d st w item Ha) as (Hw & Hl & _).
      cbv zeta in *. rewrite Hw.
      split; [right; eexists; reflexivity|intros _; exact Hl].
    - unfold handlePostApiAction. rewrite Ha. cbn.
      split; [left; reflexivity|intros H; exact H]. }
  destruct p as [st w].
  destruct e; cbn [step fst snd];
    try (split; [left; reflexivity|intros H; exact H]).
  - destruct (parts_fetchData_frame server showLoadingSpinner st w)
      as (Hw & Hl & _). cbv zeta in *. rewrite Hw, Hl.
    split; [right; eexists; reflexivity|intros H; exact H].
  - unfold openIssueOutModal. destruct (isActionLoading st) eqn:E;
      (split; [left; reflexivity|intros; cbn; congruence]).
  - unfold openDamageModal. destruct (isActionLoading st) eqn:E;
      (split; [left; reflexivity|intros; cbn; congruence]).
  - destruct (issueOutModalMounted st);
      [|split; [left; reflexivity|intros H; exact H]].
    unfold submitIssueOut.
    destruct (IssueOut_requestSubmit_cases
                (option_map itemDataOf (actionItem (fst (st, w))))
                (handleIssueOutSubmit server) m (st, w))
      as [-> | ->]; [split; [left; reflexivity|intros H; exact H]|].
    destruct (IssueOut_handleSubmit_cases
                (option_map itemDataOf (actionItem (fst (st, w))))
                (handleIssueOutSubmit server) m (st, w))
      as [[-> _] | (q & _ & _ & _ & -> & _)];
      [split; [left; reflexivity|intros H; exact H]|].
    destruct (handleIssueOutSubmit_cases server
                {| IssueOutItemModal.Payload.quantity_issued := q;
                   IssueOutItemModal.Payload.remarks := issueOutRemarks m |}
                st w)
      as [(_ & Hw & _ & Hl) | (item & _ & _ & ->)]; cbv zeta in *.
    + rewrite Hw, Hl. split; [left; reflexivity|intros H; exact H].
    + apply Hpost.
  - destruct (damageModalMounted st);
      [|split; [left; reflexivity|intros H; exact H]].
    unfold submitDamage.
    destruct (Damage_requestSubmit_cases
                (option_map itemDataOf (actionItem (fst (st, w))))
                (handleDamageSubmit server) m (st, w))
      as [-> | ->]; [split; [left; reflexivity|intros H; exact H]|].
    destruct (Damage_handleSubmit_cases
                (option_map itemDataOf (actionItem (fst (st, w))))
                (handleDamageSubmit server) m (st, w))
      as [[-> _] | (q & _ & _ & _ & _ & -> & _)];
      [split; [left; reflexivity|intros H; exact H]|].
    destruct (handleDamageSubmit_cases server
                {| DamageItemModal.Payload.quantity_damaged := q;
                   DamageItemModal.Payload.remarks :=
                     trim (DamageItemModal.remarks m) |}
                st w)
      as [(_ & Hw & _ & Hl) | (item & _ & _ & ->)]; cbv zeta in *.
    + rewrite Hw, Hl. split; [left; reflexivity|intros H; exact H].
    + apply Hpost.
  - apply Hpost.
Qed.

End PartListHandlers.

(** X14. [fetchData] of the part list sends one GET and nothing else; it
    leaves the action flag, the modal flags, the action item and the
    success message alone; with the spinner it ends with [isLoading]
    down; and whenever it stores an error, the collection is empty. *)
Theorem parts_fetchData_outcome {engine : JsEngine}
  (server : Http.Server) (showLoadingSpinner : bool)
  (st : ListPartItem.State) (w : World) :
  let r := ListPartItem.fetchData server showLoadingSpinner st w in
  snd r = sent partsRequest w /\
  ListPartItem.isActionLoading (fst r) = ListPartItem.isActionLoading st /\
  ListPartItem.isIssueOutModalOpen (fst r)
    = ListPartItem.isIssueOutModalOpen st /\
  ListPartItem.isDamageModalOpen (fst r)
    = ListPartItem.isDamageModalOpen st /\
  ListPartItem.actionItem (fst r) = ListPartItem.actionItem st /\
  ListPartItem.isLoading (fst r)
    = (if showLoadingSpinner then false else ListPartItem.isLoading st) /\
  ListPartItem.successMessage (fst r) = ListPartItem.successMessage st /\
  (ListPartItem.error (fst r) = None \/
   exists message,
     ListPartItem.error (fst r) = Some message /\
     ListPartItem.allData (fst r) = []).
Proof. exact (parts_fetchData_frame server showLoadingSpinner st w). Qed.

(** X15. When the server lists parts, the part list shows, in the server's
    order, exactly the parts with an approver and a positive quantity,
    and the notification list fetched from the same response shows a part
    only if the part list shows it. *)
Theorem part_list_shows_approved_parts {engine : JsEngine}
  (server : Http.Server) (showLoadingSpinner : bool)
  (st : ListPartItem.State) (w : World) (items : list Api.ListItem) :
  listsParts server items ->
  let st' := fst (ListPartItem.fetchData server showLoadingSpinner st w) in
  ListPartItem.error st' = None /\
  ListPartItem.allData st'
  = map ListPartItem.mapApiToState (filter approvedInStock items) /\
  map ListPartItem.id (ListPartItem.allData st')
  = map Api.part_id (filter approvedInStock items) /\
  forall now spinner st0 w0,
    incl (map NotificationList.id
            (NotificationList.allNotificationData
               (fst (NotificationList.fetchData server now spinner st0 w0))))
         (map ListPartItem.id (ListPartItem.allData st')).
Proof.
  intros H.
  destruct (parts_fetchData_listed server showLoadingSpinner st w items H)
    as [He Hd].
  cbv zeta in *. split; [exact He|]. split; [exact Hd|].
  assert (Hids : map ListPartItem.id
                   (ListPartItem.allData
                      (fst (ListPartItem.fetchData server showLoadingSpinner
                              st w)))
                 = map Api.part_id (filter approvedInStock items)).
  { rewrite Hd, map_map. reflexivity. }
  split; [exact Hids|].
  intros now spinner st0 w0. rewrite Hids.
  destruct (notifications_fetchData_listed server now spinner st0 w0 items H)
    as [_ Hrows]. cbv zeta in Hrows.
  intros i Hi. apply in_map_iff in Hi as (row & <- & Hrow).
  destruct (Forall2_In_right _ _ _ row Hrows Hrow) as (a & Ha & Hm).
  destruct (mapApiToNotificationItem_fields now a) as (item & Hi & Hid & _).
  rewrite Hm in Hi. apply Normal_inj in Hi. subst item. rewrite Hid.
  apply in_map. apply filter_In in Ha as [Ha Hb].
  apply filter_In. split; [exact Ha|].
  apply andb_true_iff in Hb as [Hb _]. exact Hb.
Qed.

(** X16. No event of the part list asks the sidebar to refresh or touches the
    session: an event sends nothing, or one request. *)
Theorem part_list_never_refreshes {engine : JsEngine}
  (e : ListPartItem.Event) (p : ListPartItem.State * World) :
  refreshKey (snd (ListPartItem.step e p)) = refreshKey (snd p) /\
  sessionUserId (snd (ListPartItem.step e p)) = sessionUserId (snd p) /\
  (requests (snd (ListPartItem.step e p)) = requests (snd p) \/
   exists r,
     requests (snd (ListPartItem.step e p)) = requests (snd p) ++ [r]).
Proof.
  destruct (proj1 (parts_step_world e p)) as [-> | [r ->]].
  - split; [reflexivity|]. split; [reflexivity|left; reflexivity].
  - split; [reflexivity|]. split; [reflexivity|right; exists r; reflexivity].
Qed.

Lemma part_list_shows_approved_parts_witness :
  let engine := ReferenceEngine.engine 0 in
  let st' := fst (ListPartItem.fetchData sampleServer true
                    ListPartItem.initialState sampleWorld) in
  ListPartItem.error st' = None /\
  ListPartItem.allData st'
  = map ListPartItem.mapApiToState (filter approvedInStock [sampleApiItem]) /\
  map ListPartItem.id (ListPartItem.allData st')
  = map Api.part_id (filter approvedInStock [sampleApiItem]) /\
  forall now spinner st0 w0,
    incl (map NotificationList.id
            (NotificationList.allNotificationData
               (fst (NotificationList.fetchData sampleServer now spinner
                       st0 w0))))
         (map ListPartItem.id (ListPartItem.allData st')).
Proof.
  apply (part_list_shows_approved_parts (engine := ReferenceEngine.engine 0)
           sampleServer true ListPartItem.initialState sampleWorld
           [sampleApiItem]).
  eexists. eexists. split; [reflexivity|]. split; [reflexivity|].
  split; [reflexivity|]. split; reflexivity.
Defined.

Section PartListActions.
Import ListPartItem.
Context {engine : JsEngine}.

Lemma handlePostApiAction_success (server : Http.Server)
  (apiUrl : Endpoint) (payload : Http.Body) (actionDesc : string)
  (quantityChanged : Q) (st : State) (w : World) (item : ListItem) :
  actionItem st = Some item ->
  actionSucceeds (server (post apiUrl payload)) ->
  let r := handlePostApiAction server apiUrl payload actionDesc
             quantityChanged (st, w) in
  let st' := fst (snd r) in
  fst r = Normal tt /\
  snd (snd r) = sent (post apiUrl payload) w /\
  allData st' = reconcile item quantityChanged (allData st) /\
  isIssueOutModalOpen st' = false /\ isDamageModalOpen st' = false /\
  isEditModalOpen st' = false /\
  actionItem st' = None /\ isActionLoading st' = false /\
  error st' = None /\
  exists message, successMessage st' = Some message.
Proof.
  intros Ha Hs.
  destruct (handlePostApiAction_effect server apiUrl payload actionDesc
              quantityChanged st w item Ha)
    as (Hw & Hl & Hact & _ &
        [(Hf & _) | (_ & Hall & Hi & Hd & Hed & Hr & He & Hm)]).
  - destruct (action_outcome_exclusive _ Hf Hs).
  - cbv zeta in *. repeat split; assumption.
Qed.

End PartListActions.

(** X17. An issue-out on the part list that passes every test and that the
    server accepts. The submit button is enabled, the browser finds the
    form valid (the quantity is a whole number of at least 1) and the
    quantity is within the stock. Then one POST carries the action item's
    identifier, the typed quantity and the remarks as the engine trims
    them; the collection is reconciled with that quantity; every modal is
    closed and the action item cleared; a success message is set and no
    error. The refresh counter of the sidebar stays as it was, and no
    user identifier is asked for. *)
Theorem issue_out_accepted_on_part_list {engine : JsEngine}
  (server : Http.Server) (m : IssueOutItemModal.State)
  (st : ListPartItem.State) (w : World)
  (item : ListPartItem.ListItem) (q : Q) :
  ListPartItem.actionItem st = Some item ->
  IssueOutItemModal.submitDisabled m = false ->
  IssueOutItemModal.formValid m = true ->
  toNumber (IssueOutItemModal.quantity m) = Num q ->
  (q <= ListPartItem.quantity item)%Q ->
  actionSucceeds
    (server (post ISSUE_API_URL
               (Http.IssueOutBody (ListPartItem.id item) q
                  (issueOutRemarks m)))) ->
  let r := ListPartItem.submitIssueOut server m (st, w) in
  let st' := fst (snd r) in
  snd (snd r)
  = sent (post ISSUE_API_URL
            (Http.IssueOutBody (ListPartItem.id item) q
               (issueOutRemarks m))) w /\
  refreshKey (snd (snd r)) = refreshKey w /\
  ListPartItem.allData st' = reconcile item q (ListPartItem.allData st) /\
  ListPartItem.isIssueOutModalOpen st' = false /\
  ListPartItem.isDamageModalOpen st' = false /\
  ListPartItem.isEditModalOpen st' = false /\
  ListPartItem.actionItem st' = None /\
  ListPartItem.isActionLoading st' = false /\
  ListPartItem.error st' = None /\
  (exists message, ListPartItem.successMessage st' = Some message) /\
  IssueOutItemModal.error (fst r) = None /\
  IssueOutItemModal.isSubmitting (fst r) = false.
Proof.
  intros Ha Hb Hv Hq Hle Hs. cbv zeta.
  assert (Hpos : (0 < q)%Q).
  { destruct (quantityFieldValid_number _ Hv) as (q' & Hq' & H1 & _).
    rewrite Hq in Hq'. injection Hq' as <-.
    exact (whole_quantity_positive q H1). }
  unfold ListPartItem.submitIssueOut. cbn [fst].
  rewrite (IssueOut_requestSubmit_passes _ _ m (st, w) Hb Hv).
  destruct (IssueOut_handleSubmit_accepts
              (option_map ListPartItem.itemDataOf (ListPartItem.actionItem st))
              (ListPartItem.handleIssueOutSubmit server)
              m (st, w) q Hq Hpos) as (Hsnd & Hsub & Herr).
  { rewrite Ha. intros d [= <-]. exact Hle. }
  cbv zeta in *.
  rewrite (handleIssueOutSubmit_proceeds server
             {| IssueOutItemModal.Payload.quantity_issued := q;
                IssueOutItemModal.Payload.remarks := issueOutRemarks m |}
             st w item Ha Hle) in Hsnd, Herr.
  cbn [IssueOutItemModal.Payload.quantity_issued
       IssueOutItemModal.Payload.remarks] in Hsnd, Herr.
  destruct (handlePostApiAction_success server ISSUE_API_URL _
              "issue out item" q st w item Ha Hs)
    as (Hr & Hw & Hall & Hi & Hd & Hed & Hact & Hl & He & Hm).
  cbv zeta in *. rewrite Hr in Herr. rewrite Hsnd.
  split; [exact Hw|]. split; [rewrite Hw; reflexivity|].
  repeat split; assumption.
Qed.

Lemma issue_out_accepted_on_part_list_witness :
  let engine := ReferenceEngine.engine 0 in
  let r := ListPartItem.submitIssueOut acceptingServer
             (typed "5" "") (samplePartsOpen, sampleWorld) in
  let st' := fst (snd r) in
  snd (snd r)
  = sent (post ISSUE_API_URL (Http.IssueOutBody "P1" 5 None)) sampleWorld /\
  refreshKey (snd (snd r)) = refreshKey sampleWorld /\
  ListPartItem.allData st'
  = reconcile (sampleListItem "P1" 5) 5
      (ListPartItem.allData samplePartsOpen) /\
  ListPartItem.isIssueOutModalOpen st' = false /\
  ListPartItem.isDamageModalOpen st' = false /\
  ListPartItem.isEditModalOpen st' = false /\
  ListPartItem.actionItem st' = None /\
  ListPartItem.isActionLoading st' = false /\
  ListPartItem.error st' = None /\
  (exists message, ListPartItem.successMessage st' = Some message) /\
  IssueOutItemModal.error (fst r) = None /\
  IssueOutItemModal.isSubmitting (fst r) = false.
Proof.
  apply (issue_out_accepted_on_part_list
           (engine := ReferenceEngine.engine 0) acceptingServer
           (typed "5" "") samplePartsOpen sampleWorld
           (sampleListItem "P1" 5) 5).
  - reflexivity.
  - reflexivity.
  - reflexivity.
  - reflexivity.
  - discriminate.
  - split; reflexivity.
Defined.

(** X18. A damage report on the part list that passes every test and that
    the server accepts. The submit button is enabled (so the remarks are
    not blank once the engine has trimmed them), the browser finds the
    form valid (the quantity is a whole number of at least 1) and the
    quantity is within the stock. Then one POST carries the action item's
    identifier, the typed quantity and the trimmed remarks; the
    collection is reconciled with that quantity; every modal is closed
    and the action item cleared; a success message is set and no error;
    the refresh counter of the sidebar stays as it was. *)
Theorem damage_accepted_on_part_list {engine : JsEngine}
  (server : Http.Server) (m : DamageItemModal.State)
  (st : ListPartItem.State) (w : World)
  (item : ListPartItem.ListItem) (q : Q) :
  ListPartItem.actionItem st = Some item ->
  DamageItemModal.submitDisabled m = false ->
  DamageItemModal.formValid m = true ->
  toNumber (DamageItemModal.quantity m) = Num q ->
  (q <= ListPartItem.quantity item)%Q ->
  actionSucceeds
    (server (post DAMAGE_API_URL
               (Http.DamageBody (ListPartItem.id item) q
                  (trim (DamageItemModal.remarks m))))) ->
  let r := ListPartItem.submitDamage server m (st, w) in
  let st' := fst (snd r) in
  snd (snd r)
  = sent (post DAMAGE_API_URL
            (Http.DamageBody (ListPartItem.id item) q
               (trim (DamageItemModal.remarks m)))) w /\
  refreshKey (snd (snd r)) = refreshKey w /\
  ListPartItem.allData st' = reconcile item q (ListPartItem.allData st) /\
  ListPartItem.isIssueOutModalOpen st' = false /\
  ListPartItem.isDamageModalOpen st' = false /\
  ListPartItem.isEditModalOpen st' = false /\
  ListPartItem.actionItem st' = None /\
  ListPartItem.isActionLoading st' = false /\
  ListPartItem.error st' = None /\
  (exists message, ListPartItem.successMessage st' = Some message) /\
  DamageItemModal.error (fst r) = None /\
  DamageItemModal.isSubmitting (fst r) = false.
Proof.
  intros Ha Hb Hv Hq Hle Hs. cbv zeta.
  assert (Hpos : (0 < q)%Q).
  { pose proof Hv as Hv'. unfold DamageItemModal.formValid in Hv'.
    apply andb_true_iff in Hv' as [Hv' _].
    destruct (quantityFieldValid_number _ Hv') as (q' & Hq' & H1 & _).
    rewrite Hq in Hq'. injection Hq' as <-.
    exact (whole_quantity_positive q H1). }
  assert (Hrem : JsString.truthy (trim (DamageItemModal.remarks m)) = true).
  { unfold DamageItemModal.submitDisabled in Hb.
    apply orb_false_iff in Hb as [_ Hb]. apply negb_false_iff in Hb.
    exact Hb. }
  unfold ListPartItem.submitDamage. cbn [fst].
  rewrite (Damage_requestSubmit_passes _ _ m (st, w) Hb Hv).
  destruct (Damage_handleSubmit_accepts
              (option_map ListPartItem.itemDataOf (ListPartItem.actionItem st))
              (ListPartItem.handleDamageSubmit server)
              m (st, w) q Hq Hpos) as (Hsnd & Hsub & Herr).
  { rewrite Ha. intros d [= <-]. exact Hle. }
  { exact Hrem. }
  cbv zeta in *.
  rewrite (handleDamageSubmit_proceeds server
             {| DamageItemModal.Payload.quantity_damaged := q;
                DamageItemModal.Payload.remarks :=
                  trim (DamageItemModal.remarks m) |}
             st w item Ha Hle) in Hsnd, Herr.
  cbn [DamageItemModal.Payload.quantity_damaged
       DamageItemModal.Payload.remarks] in Hsnd, Herr.
  destruct (handlePostApiAction_success server DAMAGE_API_URL _
              "mark item as damaged" q st w item Ha Hs)
    as (Hr & Hw & Hall & Hi & Hd & Hed & Hact & Hl & He & Hm).
  cbv zeta in *. rewrite Hr in Herr. rewrite Hsnd.
  split; [exact Hw|]. split; [rewrite Hw; reflexivity|].
  repeat split; assumption.
Qed.

Lemma damage_accepted_on_part_list_witness :
  let engine := ReferenceEngine.engine 0 in
  let r := ListPartItem.submitDamage acceptingServer
             (typedDamage "1" "scratched") (samplePartsOpen, sampleWorld) in
  let st' := fst (snd r) in
  snd (snd r)
  = sent (post DAMAGE_API_URL (Http.DamageBody "P1" 1 "scratched"))
      sampleWorld /\
  refreshKey (snd (snd r)) = refreshKey sampleWorld /\
  ListPartItem.allData st'
  = reconcile (sampleListItem "P1" 5) 1
      (ListPartItem.allData samplePartsOpen) /\
  ListPartItem.isIssueOutModalOpen st' = false /\
  ListPartItem.isDamageModalOpen st' = false /\
  ListPartItem.isEditModalOpen st' = false /\
  ListPartItem.actionItem st' = None /\
  ListPartItem.isActionLoading st' = false /\
  ListPartItem.error st' = None /\
  (exists message, ListPartItem.successMessage st' = Some message) /\
  DamageItemModal.error (fst r) = None /\
  DamageItemModal.isSubmitting (fst r) = false.
Proof.
  apply (damage_accepted_on_part_list
           (engine := ReferenceEngine.engine 0) acceptingServer
           (typedDamage "1" "scratched") samplePartsOpen sampleWorld
           (sampleListItem "P1" 5) 1).
  - reflexivity.
  - reflexivity.
  - reflexivity.
  - reflexivity.
  - discriminate.
  - split; reflexivity.
Defined.

(** X19. Whatever is typed into either modal of the part list and whatever
    the server answers, a request to submit sends nothing, or sends one
    POST for the action item with a quantity that is a whole number of at
    least 1 and within its stock; a damage report then has remarks that
    are not blank once the engine has trimmed them. *)
Theorem part_list_posts_are_within_stock {engine : JsEngine}
  (server : Http.Server) (st : ListPartItem.State) (w : World) :
  (forall m : IssueOutItemModal.State,
     let r := ListPartItem.submitIssueOut server m (st, w) in
     snd (snd r) = w \/
     exists item q,
       ListPartItem.actionItem st = Some item /\
       toNumber (IssueOutItemModal.quantity m) = Num q /\
       (1 <= q)%Q /\ isWhole q = true /\
       (q <= ListPartItem.quantity item)%Q /\
       snd (snd r)
       = sent (post ISSUE_API_URL
                 (Http.IssueOutBody (ListPartItem.id item) q
                    (issueOutRemarks m))) w) /\
  (forall m : DamageItemModal.State,
     let r := ListPartItem.submitDamage server m (st, w) in
     snd (snd r) = w \/
     exists item q,
       ListPartItem.actionItem st = Some item /\
       toNumber (DamageItemModal.quantity m) = Num q /\
       (1 <= q)%Q /\ isWhole q = true /\
       (q <= ListPartItem.quantity item)%Q /\
       JsString.truthy (trim (DamageItemModal.remarks m)) = true /\
       snd (snd r)
       = sent (post DAMAGE_API_URL
                 (Http.DamageBody (ListPartItem.id item) q
                    (trim (DamageItemModal.remarks m)))) w).
Proof.
  split; intros m; cbv zeta.
  - unfold ListPartItem.submitIssueOut.
    destruct (IssueOut_requestSubmit_gate
                (option_map ListPartItem.itemDataOf
                   (ListPartItem.actionItem (fst (st, w))))
                (ListPartItem.handleIssueOutSubmit server) m (st, w))
      as [-> | (_ & (q0 & Hq0 & H1 & Hwhole) & ->)]; [left; reflexivity|].
    destruct (IssueOut_handleSubmit_cases
                (option_map ListPartItem.itemDataOf
                   (ListPartItem.actionItem (fst (st, w))))
                (ListPartItem.handleIssueOutSubmit server) m (st, w))
      as [[-> _] | (q & Hq & Hpos & _ & -> & _)]; [left; reflexivity|].
    rewrite Hq in Hq0. injection Hq0 as <-.
    destruct (handleIssueOutSubmit_cases server
                {| IssueOutItemModal.Payload.quantity_issued := q;
                   IssueOutItemModal.Payload.remarks := issueOutRemarks m |}
                st w)
      as [(_ & Hw & _) | (item & Ha & Hle & ->)]; cbv zeta in *.
    + left. exact Hw.
    + right. exists item, q.
      cbn [IssueOutItemModal.Payload.quantity_issued
           IssueOutItemModal.Payload.remarks] in *.
      split; [exact Ha|]. split; [exact Hq|].
      split; [exact H1|]. split; [exact Hwhole|]. split; [exact Hle|].
      destruct (handlePostApiAction_effect server ISSUE_API_URL
                  (Http.IssueOutBody (ListPartItem.id item) q
                     (issueOutRemarks m))
                  "issue out item" q st w item Ha) as (Hw & _).
      exact Hw.
  - unfold ListPartItem.submitDamage.
    destruct (Damage_requestSubmit_gate
                (option_map ListPartItem.itemDataOf
                   (ListPartItem.actionItem (fst (st, w))))
                (ListPartItem.handleDamageSubmit server) m (st, w))
      as [-> | (_ & (q0 & Hq0 & H1 & Hwhole) & ->)]; [left; reflexivity|].
    destruct (Damage_handleSubmit_cases
                (option_map ListPartItem.itemDataOf
                   (ListPartItem.actionItem (fst (st, w))))
                (ListPartItem.handleDamageSubmit server) m (st, w))
      as [[-> _] | (q & Hq & Hpos & _ & Hrem & -> & _)]; [left; reflexivity|].
    rewrite Hq in Hq0. injection Hq0 as <-.
    destruct (handleDamageSubmit_cases server
                {| DamageItemModal.Payload.quantity_damaged := q;
                   DamageItemModal.Payload.remarks :=
                     trim (DamageItemModal.remarks m) |}
                st w)
      as [(_ & Hw & _) | (item & Ha & Hle & ->)]; cbv zeta in *.
    + left. exact Hw.
    + right. exists item, q.
      cbn [DamageItemModal.Payload.quantity_damaged
           DamageItemModal.Payload.remarks] in *.
      split; [exact Ha|]. split; [exact Hq|].
      split; [exact H1|]. split; [exact Hwhole|]. split; [exact Hle|].
      split; [exact Hrem|].
      destruct (handlePostApiAction_effect server DAMAGE_API_URL
                  (Http.DamageBody (ListPartItem.id item) q
                     (trim (DamageItemModal.remarks m)))
                  "mark item as damaged" q st w item Ha) as (Hw & _).
      exact Hw.
Qed.

(** * The badge of the sidebar *)

Lemma filter_filter_andb {A : Type} (f g : A -> bool) (l : list A) :
  filter g (filter f l) = filter (fun a => f a && g a) l.
Proof.
  induction l as [|a l IH]; [reflexivity|].
  cbn [filter]. destruct (f a); cbn [andb filter]; rewrite IH; reflexivity.
Qed.

Lemma existsb_filter_implied {A : Type} (g f h : A -> bool) (l : list A) :
  (forall a, g a = true -> h a = true) ->
  existsb g (filter (fun a => f a && h a) l) = existsb g (filter f l).
Proof.
  intros Hgh. induction l as [|a l IH]; [reflexivity|].
  cbn [filter]. destruct (f a); cbn [andb]; [|exact IH].
  destruct (h a) eqn:Hh; cbn [existsb]; [rewrite IH; reflexivity|].
  destruct (g a) eqn:Hg; [|exact IH].
  rewrite (Hgh a Hg) in Hh. discriminate Hh.
Qed.

Section BadgeFacts.
Import AuthPageLayout.
Context {engine : JsEngine}.

(** The sidebar's classifier never throws. *)
Lemma getNotificationStatusForBadge_total (now : Z) (ref : option string) :
  getNotificationStatusForBadge now ref = Normal (badgeStatus now ref).
Proof.
  unfold badgeStatus. unfold getNotificationStatusForBadge.
  destruct ref as [s|]; [|reflexivity].
  destruct (negb (JsString.truthy s) || JsString.startsWith s "0000-00-00");
    [reflexivity|].
  destruct (newDate (JsString.replace s " " "T" ++ "Z")) as [[t|]|m];
    cbn [bindC tryCatch]; try reflexivity.
  destruct (utcStart now - utcStart t <? 0); cbn [tryCatch]; reflexivity.
Qed.

(** On a reference in the server's format the sidebar's bucket is the
    list's. *)
Lemma badgeStatus_server_format (now : Z) (ref : option string) :
  serverFormat ref = true ->
  badgeStatus now ref = NotificationList.status (classification now ref).
Proof.
  unfold serverFormat, badgeStatus, classification.
  unfold getNotificationStatusForBadge, NotificationList.getNotificationStatus.
  destruct ref as [s|]; [|reflexivity].
  cbn [isUnset].
  destruct (negb (JsString.truthy s) || JsString.startsWith s "0000-00-00");
    [reflexivity|].
  cbn [orb]. intros H. apply andb_true_iff in H as [HT HZ].
  apply negb_true_iff in HT. apply negb_true_iff in HZ.
  rewrite (isoReferenceDateString_server_format s HT HZ).
  destruct (newDate (JsString.replace s " " "T" ++ "Z")) as [[t|]|m];
    cbn [bindC tryCatch]; try reflexivity.
  destruct (utcStart now - utcStart t <? 0);
    cbn [tryCatch NotificationList.status]; reflexivity.
Qed.

(** The sidebar's filter is the tables' filter on a part that has the
    member [approved_by_user], when [Number("")] is not positive. *)
Lemma isRelevant_approvedInStock (item : Api.ListItem) :
  notPositive (toNumber "") = true ->
  Api.approved_by_user item <> Absent ->
  isRelevant item = approvedInStock item.
Proof.
  intros Hempty Hmember. unfold isRelevant, approvedInStock.
  destruct (Api.approved_by_user item) as [| |u]; cbn [notNull orNull andb];
    [destruct (Hmember eq_refl)|reflexivity|].
  destruct (Api.quantity item) as [[|q]|str]; cbn; try reflexivity.
  destruct str as [|c str]; cbn.
  - destruct (toNumber "") as [|q]; [reflexivity|].
    cbn in Hempty |- *. unfold Qgtb. rewrite Hempty. reflexivity.
  - destruct (toNumber (String c str)); reflexivity.
Qed.

(** The [forEach] adds one for every part whose bucket is not [ok], and
    raises the critical flag at a [gt90]. *)
Lemma countOverdue_spec (now : Z) (items : list Api.ListItem)
  (acc : CombinedNotificationInfo) :
  countOverdue now items acc
  = Normal
      {| total :=
           total acc +
           Z.of_nat
             (List.length
                (filter (fun a =>
                           negb (NotificationStatus_eqb
                                   (badgeStatus now (Api.created_on a)) ok))
                   items));
         isCritical :=
           isCritical acc ||
           existsb (fun a =>
                      NotificationStatus_eqb
                        (badgeStatus now (Api.created_on a)) gt90) items |}.
Proof.
  revert acc. induction items as [|a items IH]; intros acc.
  - cbn. rewrite Z.add_0_r, orb_false_r. destruct acc; reflexivity.
  - cbn [countOverdue]. rewrite getNotificationStatusForBadge_total.
    cbn [bindC]. rewrite IH. cbn [filter existsb].
    destruct (badgeStatus now (Api.created_on a));
      cbn [NotificationStatus_eqb severity Z.eqb negb total isCritical
           List.length orb];
      rewrite ?Nat2Z.inj_succ, ?orb_true_r;
      f_equal; f_equal; lia.
Qed.

Lemma fetchNotificationCounts_frame (server : Http.Server) (now : Z)
  (w : World) :
  let r := fetchNotificationCounts server now w in
  snd r = sent partsRequest w /\
  ((exists items,
      answersParts server items /\
      countOverdue now (filter isRelevant items)
        {| total := 0; isCritical := false |} = Normal (fst r)) \/
   fst r = {| total := 0; isCritical := false |}).
Proof.
  cbv zeta. unfold fetchNotificationCounts, fetch, sent, partsRequest,
    answersParts. cbn [fst snd]. split; [reflexivity|].
  destruct (server _) as [response|msg] eqn:Hs; cbn; [|right; reflexivity].
  destruct (Http.json response) as [[|o]|msg] eqn:Hj; cbn;
    try (right; reflexivity).
  destruct (isSuccess (Http.status o)) eqn:Hsucc; [|right; reflexivity].
  destruct (Http.items o) as [items| | |b] eqn:Hi; try (right; reflexivity).
  left. exists items. split.
  - exists response, o. repeat split; assumption.
  - rewrite countOverdue_spec. reflexivity.
Qed.

Lemma fetchNotificationCounts_answered (server : Http.Server) (now : Z)
  (w : World) (items : list Api.ListItem) :
  answersParts server items ->
  countOverdue now (filter isRelevant items)
    {| total := 0; isCritical := false |}
  = Normal (fst (fetchNotificationCounts server now w)).
Proof.
  intros (response & o & Hs & Hj & Hsucc & Hitems).
  unfold partsRequest in Hs.
  unfold fetchNotificationCounts, fetch. cbn [fst snd].
  rewrite Hs. cbn [bindC]. rewrite Hj. cbn [bindC Http.member].
  rewrite Hsucc, Hitems. rewrite countOverdue_spec. reflexivity.
Qed.

End BadgeFacts.

(** X20. The count of the sidebar is never negative and never above the
    number of listed parts; the critical flag needs a count of at least
    one; each poll sends one GET; and when the badge of the Notification
    entry is hidden although labels are shown, the sidebar holds no
    overdue part at all. *)
Theorem badge_count_bounds {engine : JsEngine} (server : Http.Server)
  (now : Z) (w : World) :
  let r := AuthPageLayout.fetchNotificationCounts server now w in
  snd r = sent partsRequest w /\
  0 <= AuthPageLayout.total (fst r) /\
  (AuthPageLayout.isCritical (fst r) = true ->
   1 <= AuthPageLayout.total (fst r)) /\
  (forall items, answersParts server items ->
     AuthPageLayout.total (fst r) <= Z.of_nat (List.length items)) /\
  (AuthPageLayout.badgeOf true (fst r) notificationEntry = None ->
   fst r = {| AuthPageLayout.total := 0;
              AuthPageLayout.isCritical := false |}).
Proof.
  cbv zeta.
  destruct (fetchNotificationCounts_frame server now w) as [Hw Hcases].
  cbv zeta in *. split; [exact Hw|].
  set (r := AuthPageLayout.fetchNotificationCounts server now w) in *.
  assert (Hshape :
            0 <= AuthPageLayout.total (fst r) /\
            (AuthPageLayout.isCritical (fst r) = true ->
             1 <= AuthPageLayout.total (fst r))).
  { destruct Hcases as [(items & _ & Hc) | ->]; [|cbn; split; [lia|discriminate]].
    rewrite countOverdue_spec in Hc. apply Normal_inj in Hc.
    rewrite <- Hc. cbn [AuthPageLayout.total AuthPageLayout.isCritical orb].
    split; [lia|]. intros Hex.
    apply existsb_exists in Hex as (a & Ha & Hg).
    assert (Hin : In a (filter
                          (fun a => negb (NotificationStatus_eqb
                                            (badgeStatus now (Api.created_on a))
                                            ok))
                          (filter AuthPageLayout.isRelevant items))).
    { apply filter_In. split; [exact Ha|].
      destruct (badgeStatus now (Api.created_on a)); try discriminate Hg.
      reflexivity. }
    destruct (filter _ (filter AuthPageLayout.isRelevant items)) as [|x l];
      [destruct Hin|]. cbn [List.length]. lia. }
  destruct Hshape as [Hpos Hcrit].
  split; [exact Hpos|]. split; [exact Hcrit|]. split.
  - intros items Hans.
    pose proof (fetchNotificationCounts_answered server now w items Hans) as Hc.
    fold r in Hc. rewrite countOverdue_spec in Hc. apply Normal_inj in Hc.
    rewrite <- Hc. cbn [AuthPageLayout.total].
    pose proof (filter_length_le
                  (fun a => negb (NotificationStatus_eqb
                                    (badgeStatus now (Api.created_on a)) ok))
                  (filter AuthPageLayout.isRelevant items)) as H1.
    pose proof (filter_length_le AuthPageLayout.isRelevant items) as H2.
    lia.
  - unfold AuthPageLayout.badgeOf. cbn [andb AuthPageLayout.name notificationEntry].
    change (String.eqb "Notification" "Notification") with true. cbn [andb].
    destruct (0 <? AuthPageLayout.total (fst r)) eqn:E; [discriminate|].
    intros _. apply Z.ltb_ge in E.
    assert (Ht : AuthPageLayout.total (fst r) = 0) by lia.
    destruct (fst r) as [t c]. cbn in *. subst t.
    destruct c; [|reflexivity].
    specialize (Hcrit eq_refl). lia.
Qed.

(** X21. When the server lists parts that all have the member
    [approved_by_user] (a string or [null]) and whose dates are in its own
    format, the count of the sidebar is the number of rows of the
    notification list fetched at the same instant, and the badge is
    critical exactly when one of these rows is in the bucket gt90.
    ([Number("")] is taken not to be positive, as in every engine.) A
    part listed without the member is another matter: the sidebar's
    [!== null] lets it through, the table's [?? null] does not. *)
Theorem badge_counts_the_notification_list {engine : JsEngine}
  (server : Http.Server) (now : Z) (w w0 : World)
  (showLoadingSpinner : bool) (st : NotificationList.State)
  (items : list Api.ListItem) :
  listsParts server items ->
  (forall a, In a items -> Api.approved_by_user a <> Absent) ->
  (forall a, In a items -> serverFormat (Api.created_on a) = true) ->
  notPositive (toNumber "") = true ->
  let info := fst (AuthPageLayout.fetchNotificationCounts server now w) in
  let rows :=
    NotificationList.allNotificationData
      (fst (NotificationList.fetchData server now showLoadingSpinner st w0)) in
  AuthPageLayout.total info = Z.of_nat (List.length rows) /\
  AuthPageLayout.isCritical info = existsb isCriticalRow rows.
Proof.
  intros Hlist Hmember Hfmt Hempty. cbv zeta.
  assert (Hans : answersParts server items).
  { destruct Hlist as (response & o & Hs & _ & Hj & Hsucc & Hi).
    exists response, o. repeat split; assumption. }
  pose proof (fetchNotificationCounts_answered server now w items Hans) as Hc.
  rewrite countOverdue_spec in Hc. apply Normal_inj in Hc. rewrite <- Hc.
  cbn [AuthPageLayout.total AuthPageLayout.isCritical orb Z.add].
  destruct (notifications_fetchData_listed server now showLoadingSpinner st w0
              items Hlist) as [_ Hrows]. cbv zeta in Hrows.
  rewrite filter_filter_andb.
  assert (Hfilter :
            filter (fun a => AuthPageLayout.isRelevant a &&
                             negb (NotificationStatus_eqb
                                     (badgeStatus now (Api.created_on a)) ok))
              items
            = filter (fun a => approvedInStock a && overdueAt now a) items).
  { apply filter_ext_in. intros a Ha.
    rewrite (isRelevant_approvedInStock a Hempty (Hmember a Ha)).
    unfold overdueAt.
    rewrite (badgeStatus_server_format now _ (Hfmt a Ha)). reflexivity. }
  rewrite <- (existsb_filter_implied
                (fun a => NotificationStatus_eqb
                            (badgeStatus now (Api.created_on a)) gt90)
                AuthPageLayout.isRelevant
                (fun a => negb (NotificationStatus_eqb
                                  (badgeStatus now (Api.created_on a)) ok))
                items).
  2:{ intros a Ha. destruct (badgeStatus now (Api.created_on a));
        try discriminate Ha; reflexivity. }
  rewrite Hfilter.
  assert (Hsub : forall a,
             In a (filter (fun a => approvedInStock a && overdueAt now a) items)
             -> In a items).
  { intros a Ha. apply filter_In in Ha as [Ha _]. exact Ha. }
  revert Hsub Hrows.
  generalize (filter (fun a => approvedInStock a && overdueAt now a) items).
  generalize (NotificationList.allNotificationData
                (fst (NotificationList.fetchData server now
                        showLoadingSpinner st w0))).
  intros rows kept Hsub Hrows.
  induction Hrows as [|a row kept rows Hab _ IH]; [split; reflexivity|].
  destruct IH as [IH1 IH2].
  { intros x Hx. apply Hsub. right. exact Hx. }
  cbn [List.length existsb].
  split; [rewrite !Nat2Z.inj_succ; lia|].
  rewrite IH2. f_equal.
  destruct (mapApiToNotificationItem_fields now a)
    as (item & Hi & _ & _ & _ & _ & _ & _ & Hst).
  rewrite Hab in Hi. apply Normal_inj in Hi. subst item.
  unfold isCriticalRow. rewrite Hst.
  rewrite (badgeStatus_server_format now _ (Hfmt a (Hsub a (or_introl eq_refl)))).
  reflexivity.
Qed.

Lemma badge_counts_the_notification_list_witness :
  let engine := ReferenceEngine.engine 0 in
  let info := fst (AuthPageLayout.fetchNotificationCounts sampleServer
                     sampleNow sampleWorld) in
  let rows :=
    NotificationList.allNotificationData
      (fst (NotificationList.fetchData sampleServer sampleNow true
              NotificationList.initialState sampleWorld)) in
  AuthPageLayout.total info = Z.of_nat (List.length rows) /\
  AuthPageLayout.isCritical info = existsb isCriticalRow rows.
Proof.
  apply (badge_counts_the_notification_list
           (engine := ReferenceEngine.engine 0) sampleServer sampleNow
           sampleWorld sampleWorld true NotificationList.initialState
           [sampleApiItem]).
  - eexists. eexists. split; [reflexivity|]. split; [reflexivity|].
    split; [reflexivity|]. split; reflexivity.
  - intros a [<- | []]. discriminate.
  - intros a [<- | []]. reflexivity.
  - reflexivity.
Defined.

(** The part P1 listed without the member [approved_by_user]: the
    sidebar counts it, and neither table shows it. *)
Example part_without_approver_member_run :
  let engine := ReferenceEngine.engine 0 in
  let server := listingServer [sampleApiItemWithoutApprover] in
  AuthPageLayout.isRelevant sampleApiItemWithoutApprover = true /\
  fst (AuthPageLayout.fetchNotificationCounts server sampleNow sampleWorld)
  = {| AuthPageLayout.total := 1; AuthPageLayout.isCritical := true |} /\
  NotificationList.allNotificationData
    (fst (NotificationList.fetchData server sampleNow true
            NotificationList.initialState sampleWorld)) = [] /\
  ListPartItem.allData
    (fst (ListPartItem.fetchData server true
            ListPartItem.initialState sampleWorld)) = [].
Proof. vm_compute. repeat split. Qed.

(** * The forms of the two modals *)

Lemma Qgtb_true_lt (a b : Q) : Qgtb a b = true -> (b < a)%Q.
Proof.
  unfold Qgtb. intros H. apply negb_true_iff in H.
  exact (Qle_bool_false_lt a b H).
Qed.

Section IssueOutForm.
Import IssueOutItemModal.
Context {engine : JsEngine}.

(** What typing a quantity changes. *)
Lemma IssueOut_handleQuantityChange_fields (itemData : option ItemData.t)
  (currentVal : string) (m : State) :
  let m' := handleQuantityChange itemData currentVal m in
  quantity m' = currentVal /\ remarks m' = remarks m /\
  isSubmitting m' = isSubmitting m /\
  showQuantityWarning m'
  = match itemData, toNumber currentVal with
    | Some d, Num q => Qgtb q 0 && Qgtb q (ItemData.quantity d)
    | _, _ => false
    end.
Proof.
  cbv zeta. unfold handleQuantityChange, clearErrorIfSet.
  destruct m as [mq mr ms me mw]. cbn [setQuantity error].
  destruct (match itemData, toNumber currentVal with
            | Some d, Num q => Qgtb q 0 && Qgtb q (ItemData.quantity d)
            | _, _ => false
            end);
    destruct me as [e|]; try destruct (JsString.truthy e);
    repeat split.
Qed.

End IssueOutForm.

Section DamageForm.
Import DamageItemModal.
Context {engine : JsEngine}.

Lemma Damage_handleQuantityChange_fields (itemData : option ItemData.t)
  (currentVal : string) (m : State) :
  let m' := handleQuantityChange itemData currentVal m in
  quantity m' = currentVal /\ remarks m' = remarks m /\
  isSubmitting m' = isSubmitting m /\
  showQuantityWarning m'
  = match itemData, toNumber currentVal with
    | Some d, Num q => Qgtb q 0 && Qgtb q (ItemData.quantity d)
    | _, _ => false
    end.
Proof.
  cbv zeta. unfold handleQuantityChange, clearErrorIfSet.
  destruct m as [mq mr ms me mw]. cbn [setQuantity error].
  destruct (match itemData, toNumber currentVal with
            | Some d, Num q => Qgtb q 0 && Qgtb q (ItemData.quantity d)
            | _, _ => false
            end);
    destruct me as [e|]; try destruct (JsString.truthy e);
    repeat split.
Qed.

Lemma Damage_handleRemarksChange_fields (value : string) (m : State) :
  let m' := handleRemarksChange value m in
  quantity m' = quantity m /\ remarks m' = value /\
  isSubmitting m' = isSubmitting m /\
  showQuantityWarning m' = showQuantityWarning m.
Proof.
  cbv zeta. unfold handleRemarksChange, clearErrorIfSet.
  destruct m as [mq mr ms me mw]. cbn [setRemarks error].
  destruct me as [e|]; try destruct (JsString.truthy e); repeat split.
Qed.

End DamageForm.

(** X22. The issue-out form after a number is typed into the quantity field:
    the warning is up exactly when the number is positive and above the
    stock; an enabled submit button means that the number is positive and
    within the stock, that [handleSubmit] hands this number (with the
    remarks as the engine trims them) to [onSubmit], and that a request to
    submit reaches [onSubmit] exactly when the browser finds the field
    valid; and the button is enabled for every number that is positive
    and within the stock. *)
Theorem issue_out_button_matches_validation {engine : JsEngine} {P : Type}
  (itemData : option ItemData.t)
  (onSubmit : IssueOutItemModal.Payload.t -> P -> completion unit * P)
  (m : IssueOutItemModal.State) (p : P) (currentVal : string) (q : Q) :
  IssueOutItemModal.isSubmitting m = false ->
  toNumber currentVal = Num q ->
  let m' := IssueOutItemModal.handleQuantityChange itemData currentVal m in
  (IssueOutItemModal.showQuantityWarning m' = true <->
   (0 < q)%Q /\ exists d, itemData = Some d /\ (ItemData.quantity d < q)%Q) /\
  (IssueOutItemModal.submitDisabled m' = false ->
   (0 < q)%Q /\
   (forall d, itemData = Some d -> (q <= ItemData.quantity d)%Q) /\
   snd (IssueOutItemModal.handleSubmit itemData onSubmit m' p)
   = snd (onSubmit {| IssueOutItemModal.Payload.quantity_issued := q;
                      IssueOutItemModal.Payload.remarks :=
                        issueOutRemarks m |} p) /\
   snd (IssueOutItemModal.requestSubmit itemData onSubmit m' p)
   = if quantityFieldValid currentVal
     then snd (onSubmit {| IssueOutItemModal.Payload.quantity_issued := q;
                           IssueOutItemModal.Payload.remarks :=
                             issueOutRemarks m |} p)
     else p) /\
  (JsString.truthy currentVal = true -> (0 < q)%Q ->
   (forall d, itemData = Some d -> (q <= ItemData.quantity d)%Q) ->
   IssueOutItemModal.submitDisabled m' = false).
Proof.
  intros Hsub Hq. cbv zeta.
  destruct (IssueOut_handleQuantityChange_fields itemData currentVal m)
    as (Eq & Er & Es & Ew). cbv zeta in *.
  set (m' := IssueOutItemModal.handleQuantityChange itemData currentVal m) in *.
  rewrite Hq in Ew.
  assert (Hwarn : IssueOutItemModal.showQuantityWarning m' = true <->
                  (0 < q)%Q /\
                  exists d, itemData = Some d /\ (ItemData.quantity d < q)%Q).
  { rewrite Ew. destruct itemData as [d|].
    - rewrite andb_true_iff. split.
      + intros [H1 H2]. split; [exact (Qgtb_true_lt _ _ H1)|].
        exists d. split; [reflexivity|exact (Qgtb_true_lt _ _ H2)].
      + intros [H1 (d' & [= <-] & H2)].
        split; apply Qgtb_lt; assumption.
    - split; [discriminate|]. intros [_ (d & Hd & _)]. discriminate Hd. }
  split; [exact Hwarn|]. split.
  - intros Hdis. pose proof Hdis as Hbutton.
    unfold IssueOutItemModal.submitDisabled in Hdis.
    rewrite Eq, Es, Hsub, Hq in Hdis. cbn [orb] in Hdis.
    apply orb_false_iff in Hdis as [Hdis Hpos].
    apply orb_false_iff in Hdis as [Hw Hval].
    pose proof (Qle_bool_false_lt q 0 Hpos) as Hq0.
    assert (Hstock : forall d, itemData = Some d ->
                               (q <= ItemData.quantity d)%Q).
    { intros d ->. rewrite Ew in Hw.
      rewrite (Qgtb_lt _ _ Hq0) in Hw. cbn [andb] in Hw.
      exact (Qgtb_false_le _ _ Hw). }
    split; [exact Hq0|]. split; [exact Hstock|].
    assert (Hq' : toNumber (IssueOutItemModal.quantity m') = Num q)
      by (rewrite Eq; exact Hq).
    destruct (IssueOut_handleSubmit_accepts itemData onSubmit m' p q Hq' Hq0
                Hstock) as (Hsnd & _).
    cbv zeta in Hsnd.
    assert (Hr : issueOutRemarks m' = issueOutRemarks m)
      by (unfold issueOutRemarks; rewrite Er; reflexivity).
    rewrite Hr in Hsnd. split; [exact Hsnd|].
    unfold IssueOutItemModal.requestSubmit, IssueOutItemModal.formValid.
    rewrite Hbutton, Eq.
    destruct (quantityFieldValid currentVal); cbn [negb];
      [exact Hsnd|reflexivity].
  - intros Hval Hq0 Hstock. unfold IssueOutItemModal.submitDisabled.
    rewrite Eq, Es, Hsub, Hq, Hval. cbn [orb negb].
    rewrite (Qlt_Qle_bool_false q 0 Hq0), orb_false_r.
    destruct (IssueOutItemModal.showQuantityWarning m') eqn:E; [|reflexivity].
    destruct (proj1 Hwarn eq_refl) as [_ (d & Hd & Hlt)].
    pose proof (Hstock d Hd). lra.
Qed.

Lemma issue_out_button_matches_validation_witness :
  let engine := ReferenceEngine.engine 0 in
  let itemData := Some (NotificationList.itemDataOf (sampleItem "P1" 5)) in
  let onSubmit :=
    NotificationList.handleIssueOutSubmitForNotification acceptingServer in
  let p := (sampleListOpen, sampleWorld) in
  let m' := IssueOutItemModal.handleQuantityChange itemData "3"
              IssueOutItemModal.opened in
  (IssueOutItemModal.showQuantityWarning m' = true <->
   (0 < 3)%Q /\ exists d, itemData = Some d /\ (ItemData.quantity d < 3)%Q) /\
  (IssueOutItemModal.submitDisabled m' = false ->
   (0 < 3)%Q /\
   (forall d, itemData = Some d -> (3 <= ItemData.quantity d)%Q) /\
   snd (IssueOutItemModal.handleSubmit itemData onSubmit m' p)
   = snd (onSubmit {| IssueOutItemModal.Payload.quantity_issued := 3;
                      IssueOutItemModal.Payload.remarks :=
                        issueOutRemarks IssueOutItemModal.opened |} p) /\
   snd (IssueOutItemModal.requestSubmit itemData onSubmit m' p)
   = if quantityFieldValid "3"
     then snd (onSubmit {| IssueOutItemModal.Payload.quantity_issued := 3;
                           IssueOutItemModal.Payload.remarks :=
                             issueOutRemarks IssueOutItemModal.opened |} p)
     else p) /\
  (JsString.truthy "3" = true -> (0 < 3)%Q ->
   (forall d, itemData = Some d -> (3 <= ItemData.quantity d)%Q) ->
   IssueOutItemModal.submitDisabled m' = false).
Proof.
  apply (issue_out_button_matches_validation
           (engine := ReferenceEngine.engine 0)
           (Some (NotificationList.itemDataOf (sampleItem "P1" 5)))
           (NotificationList.handleIssueOutSubmitForNotification
              (engine := ReferenceEngine.engine 0) acceptingServer)
           IssueOutItemModal.opened (sampleListOpen, sampleWorld) "3" 3).
  - reflexivity.
  - reflexivity.
Defined.

(** X23. The damage form after remarks and then a number are typed: the
    warning is up exactly when the number is positive and above the
    stock; an enabled submit button means that the number is positive and
    within the stock, that the remarks are not blank once the engine has
    trimmed them, that [handleSubmit] hands this number and the trimmed
    remarks to [onSubmit], and that a request to submit reaches [onSubmit]
    exactly when the browser finds the two fields valid; and the button
    is enabled for every number that is positive and within the stock,
    once the remarks are not blank. *)
Theorem damage_button_matches_validation {engine : JsEngine} {P : Type}
  (itemData : option ItemData.t)
  (onSubmit : DamageItemModal.Payload.t -> P -> completion unit * P)
  (m : DamageItemModal.State) (p : P) (value currentVal : string) (q : Q) :
  DamageItemModal.isSubmitting m = false ->
  toNumber currentVal = Num q ->
  let m' := DamageItemModal.handleQuantityChange itemData currentVal
              (DamageItemModal.handleRemarksChange value m) in
  (DamageItemModal.showQuantityWarning m' = true <->
   (0 < q)%Q /\ exists d, itemData = Some d /\ (ItemData.quantity d < q)%Q) /\
  (DamageItemModal.submitDisabled m' = false ->
   (0 < q)%Q /\
   (forall d, itemData = Some d -> (q <= ItemData.quantity d)%Q) /\
   JsString.truthy (trim value) = true /\
   snd (DamageItemModal.handleSubmit itemData onSubmit m' p)
   = snd (onSubmit {| DamageItemModal.Payload.quantity_damaged := q;
                      DamageItemModal.Payload.remarks :=
                        trim value |} p) /\
   snd (DamageItemModal.requestSubmit itemData onSubmit m' p)
   = if quantityFieldValid currentVal && JsString.truthy value
     then snd (onSubmit {| DamageItemModal.Payload.quantity_damaged := q;
                           DamageItemModal.Payload.remarks :=
                             trim value |} p)
     else p) /\
  (JsString.truthy currentVal = true -> (0 < q)%Q ->
   (forall d, itemData = Some d -> (q <= ItemData.quantity d)%Q) ->
   JsString.truthy (trim value) = true ->
   DamageItemModal.submitDisabled m' = false).
Proof.
  intros Hsub Hq. cbv zeta.
  destruct (Damage_handleRemarksChange_fields value m)
    as (_ & Er0 & Es0 & _). cbv zeta in *.
  destruct (Damage_handleQuantityChange_fields itemData currentVal
              (DamageItemModal.handleRemarksChange value m))
    as (Eq & Er & Es & Ew). cbv zeta in *.
  set (m' := DamageItemModal.handleQuantityChange itemData currentVal
               (DamageItemModal.handleRemarksChange value m)) in *.
  rewrite Er0 in Er. rewrite Es0, Hsub in Es.
  rewrite Hq in Ew.
  assert (Hwarn : DamageItemModal.showQuantityWarning m' = true <->
                  (0 < q)%Q /\
                  exists d, itemData = Some d /\ (ItemData.quantity d < q)%Q).
  { rewrite Ew. destruct itemData as [d|].
    - rewrite andb_true_iff. split.
      + intros [H1 H2]. split; [exact (Qgtb_true_lt _ _ H1)|].
        exists d. split; [reflexivity|exact (Qgtb_true_lt _ _ H2)].
      + intros [H1 (d' & [= <-] & H2)].
        split; apply Qgtb_lt; assumption.
    - split; [discriminate|]. intros [_ (d & Hd & _)]. discriminate Hd. }
  split; [exact Hwarn|]. split.
  - intros Hdis. pose proof Hdis as Hbutton.
    unfold DamageItemModal.submitDisabled in Hdis.
    rewrite Eq, Es, Er, Hq in Hdis. cbn [orb] in Hdis.
    apply orb_false_iff in Hdis as [Hdis Hrem].
    apply orb_false_iff in Hdis as [Hdis Hpos].
    apply orb_false_iff in Hdis as [Hw Hval].
    apply negb_false_iff in Hrem.
    pose proof (Qle_bool_false_lt q 0 Hpos) as Hq0.
    assert (Hstock : forall d, itemData = Some d ->
                               (q <= ItemData.quantity d)%Q).
    { intros d ->. rewrite Ew in Hw.
      rewrite (Qgtb_lt _ _ Hq0) in Hw. cbn [andb] in Hw.
      exact (Qgtb_false_le _ _ Hw). }
    split; [exact Hq0|]. split; [exact Hstock|]. split; [exact Hrem|].
    assert (Hq' : toNumber (DamageItemModal.quantity m') = Num q)
      by (rewrite Eq; exact Hq).
    assert (Hrem' : JsString.truthy
                      (trim (DamageItemModal.remarks m')) = true)
      by (rewrite Er; exact Hrem).
    destruct (Damage_handleSubmit_accepts itemData onSubmit m' p q Hq' Hq0
                Hstock Hrem') as (Hsnd & _).
    cbv zeta in Hsnd. rewrite Er in Hsnd. split; [exact Hsnd|].
    unfold DamageItemModal.requestSubmit, DamageItemModal.formValid.
    rewrite Hbutton, Eq, Er.
    destruct (quantityFieldValid currentVal && JsString.truthy value);
      cbn [negb]; [exact Hsnd|reflexivity].
  - intros Hval Hq0 Hstock Hrem. unfold DamageItemModal.submitDisabled.
    rewrite Eq, Es, Er, Hq, Hval, Hrem. cbn [orb negb].
    rewrite (Qlt_Qle_bool_false q 0 Hq0), !orb_false_r.
    destruct (DamageItemModal.showQuantityWarning m') eqn:E; [|reflexivity].
    destruct (proj1 Hwarn eq_refl) as [_ (d & Hd & Hlt)].
    pose proof (Hstock d Hd). lra.
Qed.

Lemma damage_button_matches_validation_witness :
  let engine := ReferenceEngine.engine 0 in
  let itemData := Some (NotificationList.itemDataOf (sampleItem "P1" 5)) in
  let onSubmit :=
    NotificationList.handleDamageSubmitForNotification acceptingServer in
  let p := (sampleListOpen, sampleWorld) in
  let m' := DamageItemModal.handleQuantityChange itemData "9"
              (DamageItemModal.handleRemarksChange "dented"
                 DamageItemModal.opened) in
  (DamageItemModal.showQuantityWarning m' = true <->
   (0 < 9)%Q /\ exists d, itemData = Some d /\ (ItemData.quantity d < 9)%Q) /\
  (DamageItemModal.submitDisabled m' = false ->
   (0 < 9)%Q /\
   (forall d, itemData = Some d -> (9 <= ItemData.quantity d)%Q) /\
   JsString.truthy (trim "dented") = true /\
   snd (DamageItemModal.handleSubmit itemData onSubmit m' p)
   = snd (onSubmit {| DamageItemModal.Payload.quantity_damaged := 9;
                      DamageItemModal.Payload.remarks :=
                        trim "dented" |} p) /\
   snd (DamageItemModal.requestSubmit itemData onSubmit m' p)
   = if quantityFieldValid "9" && JsString.truthy "dented"
     then snd (onSubmit {| DamageItemModal.Payload.quantity_damaged := 9;
                           DamageItemModal.Payload.remarks :=
                             trim "dented" |} p)
     else p) /\
  (JsString.truthy "9" = true -> (0 < 9)%Q ->
   (forall d, itemData = Some d -> (9 <= ItemData.quantity d)%Q) ->
   JsString.truthy (trim "dented") = true ->
   DamageItemModal.submitDisabled m' = false).
Proof.
  apply (damage_button_matches_validation
           (engine := ReferenceEngine.engine 0)
           (Some (NotificationList.itemDataOf (sampleItem "P1" 5)))
           (NotificationList.handleDamageSubmitForNotification
              (engine := ReferenceEngine.engine 0) acceptingServer)
           DamageItemModal.opened (sampleListOpen, sampleWorld)
           "dented" "9" 9).
  - reflexivity.
  - reflexivity.
Defined.

(** * The filters of the two tables *)

Lemma filter_all {A : Type} (l : list A) : filter (fun _ => true) l = l.
Proof.
  induction l as [|a l IH]; [reflexivity|]. cbn [filter]. rewrite IH.
  reflexivity.
Qed.

Lemma filter_comm {A : Type} (f g : A -> bool) (l : list A) :
  filter f (filter g l) = filter g (filter f l).
Proof.
  rewrite !filter_filter_andb. apply filter_ext. intros a. apply andb_comm.
Qed.

Lemma filter_map_copy {A : Type} (f : A -> bool) (h : A -> A) (l : list A) :
  (forall a, f (h a) = f a) -> filter f (map h l) = map h (filter f l).
Proof.
  intros H. induction l as [|a l IH]; [reflexivity|].
  cbn [map filter]. rewrite H. destruct (f a); cbn [map]; rewrite IH;
    reflexivity.
Qed.

(** A filter that does not look at the quantity commutes with the
    reconciliation. *)
Lemma filter_reconcile {A : Type} {row : PartRow A} (f : A -> bool)
  (actionItem : A) (quantityChanged : Q) (l : list A) :
  (forall a q, f (withQuantity a q) = f a) ->
  filter f (reconcile actionItem quantityChanged l)
  = reconcile actionItem quantityChanged (filter f l).
Proof.
  intros H. unfold reconcile.
  destruct (Qle_bool (rowQuantity actionItem - quantityChanged) 0).
  - apply filter_comm.
  - apply filter_map_copy. intros a.
    destruct (String.eqb (rowId a) (rowId actionItem)); [apply H|reflexivity].
Qed.

(** A day number against an instant: [d * msPerDay <= x] compares [d]
    with the day of [x]. *)
Lemma day_start_le (d x : Z) :
  d * JsDate.msPerDay <= x <-> d <= JsDate.Day x.
Proof.
  unfold JsDate.Day. assert (H : 0 < JsDate.msPerDay) by reflexivity.
  split; intros Hle.
  - apply Z.div_le_lower_bound; lia.
  - pose proof (Z.mul_div_le x JsDate.msPerDay H). nia.
Qed.

Lemma day_end_ge (d x : Z) :
  x <= d * JsDate.msPerDay + 86399999 <-> JsDate.Day x <= d.
Proof.
  unfold JsDate.Day. assert (H : 0 < JsDate.msPerDay) by reflexivity.
  pose proof (Z.div_mod x JsDate.msPerDay ltac:(lia)) as DM.
  pose proof (Z.mod_pos_bound x JsDate.msPerDay H) as MB.
  change JsDate.msPerDay with 86400000 in *.
  split; intros Hle; nia.
Qed.

Section Filters.
Context {engine : JsEngine}.

Lemma notifications_applyFiltersAndSearch_filter
  (allNotificationData : list NotificationList.NotificationItem)
  (activeDescFilter activeAgeFilter searchTerm : string) :
  NotificationList.applyFiltersAndSearch allNotificationData activeDescFilter
    activeAgeFilter searchTerm
  = filter (fun item =>
              matchesType activeDescFilter
                (NotificationList.typeDescription item) &&
              matchesAge activeAgeFilter
                (NotificationList.notificationStatus item) &&
              matchesSearch searchTerm (NotificationList.partNumber item))
      allNotificationData.
Proof.
  unfold NotificationList.applyFiltersAndSearch, matchesType, matchesAge,
    matchesSearch.
  destruct (String.eqb activeDescFilter "All");
    destruct (String.eqb activeAgeFilter "all");
    destruct (JsString.truthy (trim searchTerm));
    cbn [negb orb andb]; rewrite ?filter_filter_andb;
    try (symmetry; apply filter_all);
    apply filter_ext; intros a; rewrite ?andb_true_r, ?andb_assoc;
    reflexivity.
Qed.

(** The start and the end of a local day, off the years 0..99. *)
Lemma fromLocalParts_day (timezoneOffset t h mi s ms : Z) :
  twoDigitYear (JsDate.localTime timezoneOffset t) = false ->
  JsDate.fromLocalParts timezoneOffset
    (JsDate.getFullYear timezoneOffset t) (JsDate.getMonth timezoneOffset t)
    (JsDate.getDate timezoneOffset t) h mi s ms
  = localDay timezoneOffset t * JsDate.msPerDay
    + (h * 3600000 + mi * 60000 + s * 1000 + ms) + timezoneOffset * 60000.
Proof.
  intros H. unfold JsDate.fromLocalParts, JsDate.getFullYear, JsDate.getMonth,
    JsDate.getDate, localDay.
  unfold twoDigitYear in H. rewrite H. rewrite MakeDay_getters. reflexivity.
Qed.

Lemma from_filter_day (timezoneOffset f created : Z) :
  twoDigitYear (JsDate.localTime timezoneOffset f) = false ->
  (JsDate.fromLocalParts timezoneOffset
     (JsDate.getFullYear timezoneOffset f) (JsDate.getMonth timezoneOffset f)
     (JsDate.getDate timezoneOffset f) 0 0 0 0 <=? created)
  = (localDay timezoneOffset f <=? localDay timezoneOffset created).
Proof.
  intros H. rewrite (fromLocalParts_day timezoneOffset f 0 0 0 0 H).
  change (localDay timezoneOffset created)
    with (JsDate.Day (JsDate.localTime timezoneOffset created)).
  pose proof (day_start_le (localDay timezoneOffset f)
                (JsDate.localTime timezoneOffset created)) as D.
  assert (Ec : created
               = JsDate.localTime timezoneOffset created
                 + timezoneOffset * 60000)
    by (unfold JsDate.localTime; lia).
  set (x := JsDate.localTime timezoneOffset created) in *.
  set (d := localDay timezoneOffset f) in *.
  set (ms := JsDate.msPerDay) in *.
  destruct (_ <=? created) eqn:E1; destruct (d <=? JsDate.Day x) eqn:E2;
    try reflexivity.
  - apply Z.leb_le in E1. apply Z.leb_gt in E2. lia.
  - apply Z.leb_gt in E1. apply Z.leb_le in E2. lia.
Qed.

Lemma to_filter_day (timezoneOffset t created : Z) :
  twoDigitYear (JsDate.localTime timezoneOffset t) = false ->
  (created <=?
   JsDate.fromLocalParts timezoneOffset
     (JsDate.getFullYear timezoneOffset t) (JsDate.getMonth timezoneOffset t)
     (JsDate.getDate timezoneOffset t) 23 59 59 999)
  = (localDay timezoneOffset created <=? localDay timezoneOffset t).
Proof.
  intros H. rewrite (fromLocalParts_day timezoneOffset t 23 59 59 999 H).
  change (localDay timezoneOffset created)
    with (JsDate.Day (JsDate.localTime timezoneOffset created)).
  pose proof (day_end_ge (localDay timezoneOffset t)
                (JsDate.localTime timezoneOffset created)) as D.
  assert (Ec : created
               = JsDate.localTime timezoneOffset created
                 + timezoneOffset * 60000)
    by (unfold JsDate.localTime; lia).
  set (x := JsDate.localTime timezoneOffset created) in *.
  set (d := localDay timezoneOffset t) in *.
  set (ms := JsDate.msPerDay) in *.
  destruct (created <=? _) eqn:E1; destruct (JsDate.Day x <=? d) eqn:E2;
    try reflexivity.
  - apply Z.leb_le in E1. apply Z.leb_gt in E2. lia.
  - apply Z.leb_gt in E1. apply Z.leb_le in E2. lia.
Qed.

End Filters.

Lemma parts_applyFiltersAndSearch_filter {engine : JsEngine}
  (timezoneOffset : Z)
  (allData : list ListPartItem.ListItem) (activeFilter searchTerm : string)
  (fromDate toDate : option Z) :
  (forall x, fromDate = Some x \/ toDate = Some x ->
             twoDigitYear (JsDate.localTime timezoneOffset x) = false) ->
  ListPartItem.applyFiltersAndSearch timezoneOffset allData activeFilter
    searchTerm fromDate toDate
  = filter (fun item =>
              matchesType activeFilter (ListPartItem.typeDescription item) &&
              matchesSearch searchTerm (ListPartItem.partNumber item) &&
              matchesDates timezoneOffset fromDate toDate
                (ListPartItem.partCreatedDateObject item))
      allData.
Proof.
  intros Hy.
  assert (Hdates : forall l : list ListPartItem.ListItem,
            match fromDate, toDate with
            | None, None => l
            | _, _ =>
                let effectiveFromDate :=
                  match fromDate, toDate with
                  | None, Some t => Some t
                  | _, _ => fromDate
                  end in
                let effectiveToDate :=
                  match fromDate, toDate with
                  | Some f, None => Some f
                  | _, _ => toDate
                  end in
                let result :=
                  match effectiveFromDate with
                  | Some f =>
                      let fromDateStart :=
                        JsDate.fromLocalParts timezoneOffset
                          (JsDate.getFullYear timezoneOffset f)
                          (JsDate.getMonth timezoneOffset f)
                          (JsDate.getDate timezoneOffset f) 0 0 0 0 in
                      filter (fun item =>
                                fromDateStart
                                <=? ListPartItem.partCreatedDateObject item) l
                  | None => l
                  end in
                match effectiveToDate with
                | Some t =>
                    let toDateEnd :=
                      JsDate.fromLocalParts timezoneOffset
                        (JsDate.getFullYear timezoneOffset t)
                        (JsDate.getMonth timezoneOffset t)
                        (JsDate.getDate timezoneOffset t) 23 59 59 999 in
                    filter (fun item =>
                              ListPartItem.partCreatedDateObject item
                              <=? toDateEnd) result
                | None => result
                end
            end
            = filter (fun item =>
                        matchesDates timezoneOffset fromDate toDate
                          (ListPartItem.partCreatedDateObject item)) l).
  { intros l. unfold matchesDates.
    destruct fromDate as [f|]; destruct toDate as [t|]; cbv zeta.
    - rewrite filter_filter_andb. apply filter_ext. intros a.
      rewrite (from_filter_day timezoneOffset f _ (Hy f (or_introl eq_refl))).
      rewrite (to_filter_day timezoneOffset t _ (Hy t (or_intror eq_refl))).
      reflexivity.
    - rewrite filter_filter_andb. apply filter_ext. intros a.
      rewrite (from_filter_day timezoneOffset f _ (Hy f (or_introl eq_refl))).
      rewrite (to_filter_day timezoneOffset f _ (Hy f (or_introl eq_refl))).
      set (c := localDay timezoneOffset (ListPartItem.partCreatedDateObject a)).
      set (d := localDay timezoneOffset f).
      destruct (d <=? c) eqn:E1; destruct (c <=? d) eqn:E2;
        destruct (c =? d) eqn:E3; try reflexivity;
        rewrite ?Z.leb_le, ?Z.leb_gt, ?Z.eqb_eq, ?Z.eqb_neq in *; lia.
    - rewrite filter_filter_andb. apply filter_ext. intros a.
      rewrite (from_filter_day timezoneOffset t _ (Hy t (or_intror eq_refl))).
      rewrite (to_filter_day timezoneOffset t _ (Hy t (or_intror eq_refl))).
      set (c := localDay timezoneOffset (ListPartItem.partCreatedDateObject a)).
      set (d := localDay timezoneOffset t).
      destruct (d <=? c) eqn:E1; destruct (c <=? d) eqn:E2;
        destruct (c =? d) eqn:E3; try reflexivity;
        rewrite ?Z.leb_le, ?Z.leb_gt, ?Z.eqb_eq, ?Z.eqb_neq in *; lia.
    - symmetry. apply filter_all. }
  unfold ListPartItem.applyFiltersAndSearch. cbv zeta.
  rewrite Hdates. unfold matchesType, matchesSearch.
  destruct (String.eqb activeFilter "All");
    destruct (JsString.truthy (trim searchTerm));
    cbn [negb orb andb]; rewrite ?filter_filter_andb;
    apply filter_ext; intros a; rewrite ?andb_true_r, ?andb_assoc;
    try reflexivity.
  all: rewrite andb_comm; reflexivity.
Qed.

(** X24. The notification list shows the rows of the collection that match
    all three controls, letters being compared as the engine lowers them
    and the search term as the engine trims it; with the type and the age
    at their initial settings and a search term that is blank once
    trimmed, every row is shown; the view of a reconciled collection is
    the reconciled view; and the age setting [ok] shows nothing when no
    row is in the bucket ok. *)
Theorem notification_filters_select {engine : JsEngine}
  (allNotificationData : list NotificationList.NotificationItem)
  (activeDescFilter activeAgeFilter searchTerm : string) :
  let shown :=
    NotificationList.applyFiltersAndSearch allNotificationData
      activeDescFilter activeAgeFilter searchTerm in
  shown
  = filter (fun item =>
              matchesType activeDescFilter
                (NotificationList.typeDescription item) &&
              matchesAge activeAgeFilter
                (NotificationList.notificationStatus item) &&
              matchesSearch searchTerm (NotificationList.partNumber item))
      allNotificationData /\
  (JsString.truthy (trim searchTerm) = false ->
   NotificationList.applyFiltersAndSearch allNotificationData "All" "all"
     searchTerm
   = allNotificationData) /\
  (forall actionItem quantityChanged,
     NotificationList.applyFiltersAndSearch
       (reconcile actionItem quantityChanged allNotificationData)
       activeDescFilter activeAgeFilter searchTerm
     = reconcile actionItem quantityChanged shown) /\
  ((forall item, In item allNotificationData ->
                 NotificationList.notificationStatus item <> ok) ->
   NotificationList.applyFiltersAndSearch allNotificationData
     activeDescFilter "ok" searchTerm = []).
Proof.
  cbv zeta. split; [apply notifications_applyFiltersAndSearch_filter|].
  split.
  { intros Hblank. unfold NotificationList.applyFiltersAndSearch.
    rewrite Hblank. reflexivity. }
  split.
  - intros a d. rewrite !notifications_applyFiltersAndSearch_filter.
    apply filter_reconcile. intros x q. reflexivity.
  - intros Hnot. rewrite notifications_applyFiltersAndSearch_filter.
    induction allNotificationData as [|x l IH]; [reflexivity|].
    cbn [filter].
    assert (E : matchesAge "ok" (NotificationList.notificationStatus x) = false).
    { pose proof (Hnot x (or_introl eq_refl)) as Hx.
      destruct (NotificationList.notificationStatus x);
        [contradiction Hx; reflexivity| | |]; reflexivity. }
    rewrite E, andb_false_r. cbn [andb]. apply IH.
    intros item Hi. apply Hnot. right. exact Hi.
Qed.

(** X25. The part list shows the rows that match the type, the search term
    and the date range: letters are compared as the engine lowers them
    and the search term as the engine trims it, and the range is read in
    local calendar days with both ends included and a single date
    standing for its own day (the chosen dates lie outside the years
    0..99); and the view of a reconciled collection is the reconciled
    view. *)
Theorem part_list_filters_select {engine : JsEngine} (timezoneOffset : Z)
  (allData : list ListPartItem.ListItem) (activeFilter searchTerm : string)
  (fromDate toDate : option Z) :
  (forall x, fromDate = Some x \/ toDate = Some x ->
             twoDigitYear (JsDate.localTime timezoneOffset x) = false) ->
  let shown :=
    ListPartItem.applyFiltersAndSearch timezoneOffset allData activeFilter
      searchTerm fromDate toDate in
  shown
  = filter (fun item =>
              matchesType activeFilter (ListPartItem.typeDescription item) &&
              matchesSearch searchTerm (ListPartItem.partNumber item) &&
              matchesDates timezoneOffset fromDate toDate
                (ListPartItem.partCreatedDateObject item))
      allData /\
  (forall actionItem quantityChanged,
     ListPartItem.applyFiltersAndSearch timezoneOffset
       (reconcile actionItem quantityChanged allData)
       activeFilter searchTerm fromDate toDate
     = reconcile actionItem quantityChanged shown).
Proof.
  intros Hy. cbv zeta.
  split; [exact (parts_applyFiltersAndSearch_filter _ _ _ _ _ _ Hy)|].
  intros a d. rewrite !(parts_applyFiltersAndSearch_filter _ _ _ _ _ _ Hy).
  apply filter_reconcile. intros x q. reflexivity.
Qed.

Lemma part_list_filters_select_witness :
  let engine := ReferenceEngine.engine (-480) in
  let timezoneOffset := -480 in
  let allData := [sampleListItem "P1" 5; sampleListItem "P2" 7] in
  let fromDate := Some (ReferenceEngine.utcMidnight 2024 3 1) in
  let shown :=
    ListPartItem.applyFiltersAndSearch timezoneOffset allData "panel" "pn-"
      fromDate None in
  shown
  = filter (fun item =>
              matchesType "panel" (ListPartItem.typeDescription item) &&
              matchesSearch "pn-" (ListPartItem.partNumber item) &&
              matchesDates timezoneOffset fromDate None
                (ListPartItem.partCreatedDateObject item))
      allData /\
  (forall actionItem quantityChanged,
     ListPartItem.applyFiltersAndSearch timezoneOffset
       (reconcile actionItem quantityChanged allData)
       "panel" "pn-" fromDate None
     = reconcile actionItem quantityChanged shown).
Proof.
  apply (part_list_filters_select (engine := ReferenceEngine.engine (-480))
           (-480)
           [sampleListItem "P1" 5; sampleListItem "P2" 7] "panel" "pn-"
           (Some (ReferenceEngine.utcMidnight 2024 3 1)) None).
  intros x [E | E]; [|discriminate E].
  apply Some_inj in E. subst x. vm_compute. reflexivity.
Defined.

(** * The menu of the sidebar *)

(** X26. The menu by role: the entries without [roles] are shown to everyone,
    also without a role; Dashboard to supervisors and administrators; Add
    User and Manage User to administrators only. An entry that names roles
    is never shown without a role. *)
Theorem menu_by_role (userRole : option string) :
  map AuthPageLayout.name
    (AuthPageLayout.renderMenuItems userRole AuthPageLayout.navItemsData)
  = (if match userRole with
        | Some r => String.eqb r AuthPageLayout.ADMIN_ROLE_CODE
        | None => false
        end
     then ["Home"; "Dashboard"; "List Part Item"; "Notification"; "History";
           "Add User"; "Manage User"]
     else if match userRole with
             | Some r => String.eqb r AuthPageLayout.SUPERVISOR_ROLE_CODE
             | None => false
             end
     then ["Home"; "Dashboard"; "List Part Item"; "Notification"; "History"]
     else ["Home"; "List Part Item"; "Notification"; "History"]) /\
  forall (items : list AuthPageLayout.NavItem) (item : AuthPageLayout.NavItem),
    In item (AuthPageLayout.renderMenuItems None items) ->
    In item items /\
    (AuthPageLayout.roles item = None \/ AuthPageLayout.roles item = Some []).
Proof.
  split.
  - unfold AuthPageLayout.renderMenuItems, AuthPageLayout.navItemsData,
      AuthPageLayout.isShown, AuthPageLayout.ADMIN_ROLE_CODE,
      AuthPageLayout.SUPERVISOR_ROLE_CODE.
    destruct userRole as [r|]; [|reflexivity].
    cbn [filter AuthPageLayout.roles existsb map AuthPageLayout.name].
    destruct (String.eqb r "ADMIN") eqn:Ea.
    + apply String.eqb_eq in Ea. subst r. reflexivity.
    + destruct (String.eqb r "SUPV") eqn:Es.
      * apply String.eqb_eq in Es. subst r. reflexivity.
      * cbn [orb]. destruct (JsString.truthy r); reflexivity.
  - intros items item Hin. unfold AuthPageLayout.renderMenuItems in Hin.
    apply filter_In in Hin as [Hin Hs]. split; [exact Hin|].
    unfold AuthPageLayout.isShown in Hs.
    destruct (AuthPageLayout.roles item) as [[|r rs]|]; auto. discriminate Hs.
Qed.

(** * The dashboard *)

(** X27. After [loadMetrics] the dashboard never shows the skeleton; it shows
    the five cards exactly when the response was OK, declared JSON and
    had a body that parses to a truthy value, and then with what the
    body holds; otherwise (also on a body that is [null], [0], [false] or
    the empty string) it shows an alert whose text is not empty. *)
Theorem dashboard_view_after_load {engine : JsEngine}
  (outcome : completion (Http.Response DashboardMetrics.DashboardJson)) :
  let view :=
    DashboardMetrics.render
      (DashboardMetrics.loadMetrics outcome DashboardMetrics.initialState) in
  view <> DashboardMetrics.Skeleton /\
  (forall data,
     view = DashboardMetrics.Cards data <->
     exists response,
       outcome = Normal response /\ Http.ok response = true /\
       DashboardMetrics.isJsonContentType (Http.contentType response) = true /\
       Http.json response = Normal data /\
       DashboardMetrics.truthyJson data = true) /\
  (forall text,
     view = DashboardMetrics.Alert text -> JsString.truthy text = true).
Proof.
  cbv zeta.
  unfold DashboardMetrics.render, DashboardMetrics.loadMetrics,
    DashboardMetrics.fetchDashboardMetrics, DashboardMetrics.initialState.
  cbn [DashboardMetrics.metrics DashboardMetrics.loading
       DashboardMetrics.error].
  assert (Halert : forall error text,
            DashboardMetrics.Alert
              (optOrElse error "Could not load dashboard metrics data.")
            = DashboardMetrics.Alert text ->
            JsString.truthy text = true).
  { intros error text [= <-]. destruct error as [message|]; [|reflexivity].
    unfold optOrElse, JsString.orElse.
    destruct (JsString.truthy message) eqn:E; [exact E|reflexivity]. }
  destruct outcome as [response|msg]; cbn [bindC].
  - destruct (Http.ok response) eqn:Hok; cbn [negb].
    + destruct (DashboardMetrics.isJsonContentType (Http.contentType response))
        eqn:Hct; cbn [negb].
      * destruct (Http.json response) as [data|msg] eqn:Hj;
          cbn [bindC DashboardMetrics.metrics DashboardMetrics.loading
               DashboardMetrics.error orb].
        -- destruct (DashboardMetrics.truthyJson data) eqn:Htruthy;
             cbn [negb].
           ++ split; [discriminate|]. split.
              ** intros data'. split.
                 --- intros [= <-]. exists response. repeat split; assumption.
                 --- intros (response' & [= <-] & _ & _ & Hj' & _).
                     rewrite Hj in Hj'. apply Normal_inj in Hj'. subst data'.
                     reflexivity.
              ** intros text H. discriminate H.
           ++ split; [discriminate|]. split.
              ** intros data'. split; [discriminate|].
                 intros (response' & [= <-] & _ & _ & Hj' & Ht').
                 rewrite Hj in Hj'. apply Normal_inj in Hj'. subst data'.
                 rewrite Htruthy in Ht'. discriminate Ht'.
              ** intros text. apply Halert.
        -- split; [discriminate|]. split.
           ++ intros data'. split; [discriminate|].
              intros (response' & [= <-] & _ & _ & Hj' & _).
              rewrite Hj in Hj'. discriminate Hj'.
           ++ intros text. apply Halert.
      * cbn [DashboardMetrics.metrics DashboardMetrics.loading
             DashboardMetrics.error].
        split; [discriminate|]. split.
        -- intros data'. split; [discriminate|].
           intros (response' & [= <-] & _ & Hct' & _).
           rewrite Hct in Hct'. discriminate Hct'.
        -- intros text. apply Halert.
    + assert (Hno : forall data',
                ~ exists response',
                    Normal response = Normal response' /\
                    Http.ok response' = true /\
                    DashboardMetrics.isJsonContentType
                      (Http.contentType response') = true /\
                    Http.json response' = Normal data' /\
                    DashboardMetrics.truthyJson data' = true).
      { intros data' (response' & [= <-] & Hok' & _).
        rewrite Hok in Hok'. discriminate Hok'. }
      destruct (DashboardMetrics.isJsonContentType (Http.contentType response));
        [destruct (Http.json response) as [[data|message| |]|msg]|];
        cbn [bindC DashboardMetrics.messageOf DashboardMetrics.metrics
             DashboardMetrics.loading DashboardMetrics.error];
        (split; [discriminate|]; split;
         [intros data'; split; [discriminate|];
          intros H; destruct (Hno data' H)
         |intros text; apply Halert]).
  - cbn [DashboardMetrics.metrics DashboardMetrics.loading
         DashboardMetrics.error].
    split; [discriminate|]. split.
    + intros data'. split; [discriminate|].
      intros (response' & H & _). discriminate H.
    + intros text. apply Halert.
Qed.

(** A body that is [null]: with an OK response the alert shows its own
    text; with a response that is not OK, reading the message of the
    body throws, and the alert shows what was thrown. *)
Example dashboard_null_body_run :
  let engine := ReferenceEngine.engine 0 in
  let answer ok status :=
    Normal {| Http.ok := ok; Http.httpStatus := status;
              Http.statusText := "";
              Http.contentType := Some "application/json";
              Http.json := Normal DashboardMetrics.NullJson |} in
  DashboardMetrics.render
    (DashboardMetrics.loadMetrics (answer true 200)
       DashboardMetrics.initialState)
  = DashboardMetrics.Alert "Could not load dashboard metrics data." /\
  DashboardMetrics.render
    (DashboardMetrics.loadMetrics (answer false 500)
       DashboardMetrics.initialState)
  = DashboardMetrics.Alert "Cannot read properties of null".
Proof. vm_compute. split; reflexivity. Qed.

(** * More about the classifier *)

(** X28. Off the years 0..99, the classifier of the notification list
    computes what its contract says on every reference that parses, and
    so does the sidebar's on a reference without [T] and final [Z]. *)
Theorem classifier_meets_contract {engine : JsEngine} (now : Z) (s : string)
  (t : Z) :
  isUnset (Some s) = false ->
  newDate (NotificationList.isoReferenceDateString s) = Normal (Some t) ->
  twoDigitYear now = false -> twoDigitYear t = false ->
  NotificationList.getNotificationStatus now (Some s)
  = Normal (classify now (Some t)) /\
  (JsString.includes s "T" = false -> JsString.endsWith s "Z" = false ->
   AuthPageLayout.getNotificationStatusForBadge now (Some s)
   = Normal (NotificationList.status (classify now (Some t)))).
Proof.
  intros Hu Hp Hn Ht.
  pose proof (getNotificationStatus_classify now s t Hu Hp Hn Ht) as Hc.
  split; [exact Hc|]. intros HT HZ.
  rewrite getNotificationStatusForBadge_total. f_equal.
  rewrite (badgeStatus_server_format now (Some s)).
  - unfold classification. rewrite Hc. reflexivity.
  - unfold serverFormat. cbn [isUnset] in *. rewrite Hu, HT, HZ. reflexivity.
Qed.

Lemma classifier_meets_contract_witness :
  let engine := ReferenceEngine.engine 0 in
  let t := ReferenceEngine.utcMidnight 2024 3 12 + 8 * 3600000 in
  NotificationList.getNotificationStatus sampleNow (Some "2024-03-12 08:00:00")
  = Normal (classify sampleNow (Some t)) /\
  (JsString.includes "2024-03-12 08:00:00" "T" = false ->
   JsString.endsWith "2024-03-12 08:00:00" "Z" = false ->
   AuthPageLayout.getNotificationStatusForBadge sampleNow
     (Some "2024-03-12 08:00:00")
   = Normal (NotificationList.status (classify sampleNow (Some t)))).
Proof.
  apply (classifier_meets_contract (engine := ReferenceEngine.engine 0)
           sampleNow "2024-03-12 08:00:00"
           (ReferenceEngine.utcMidnight 2024 3 12 + 8 * 3600000)).
  - reflexivity.
  - vm_compute. reflexivity.
  - vm_compute. reflexivity.
  - vm_compute. reflexivity.
Defined.

(** X29. As time passes a part does not become less overdue: at a later
    instant the day count and the severity of the bucket are at least what
    they were. (The reference and both instants lie outside the years
    0..99.) *)
Theorem classifier_ages_with_time {engine : JsEngine} (now1 now2 : Z)
  (s : string) (t : Z) (r1 r2 : NotificationList.StatusResult) :
  isUnset (Some s) = false ->
  newDate (NotificationList.isoReferenceDateString s) = Normal (Some t) ->
  twoDigitYear now1 = false -> twoDigitYear now2 = false ->
  twoDigitYear t = false ->
  now1 <= now2 ->
  NotificationList.getNotificationStatus now1 (Some s) = Normal r1 ->
  NotificationList.getNotificationStatus now2 (Some s) = Normal r2 ->
  severity (NotificationList.status r1) <= severity (NotificationList.status r2)
  /\
  exists d1 d2,
    NotificationList.days r1 = Some d1 /\ NotificationList.days r2 = Some d2 /\
    d1 <= d2.
Proof.
  intros Hu Hp Hn1 Hn2 Ht Hle H1 H2.
  rewrite (getNotificationStatus_classify now1 s t Hu Hp Hn1 Ht) in H1.
  rewrite (getNotificationStatus_classify now2 s t Hu Hp Hn2 Ht) in H2.
  apply Normal_inj in H1. apply Normal_inj in H2. subst r1 r2.
  unfold classify.
  replace ((JsDate.Day now1 * 86400000 - JsDate.Day t * 86400000) / 86400000)
    with (JsDate.Day now1 - JsDate.Day t)
    by (replace (JsDate.Day now1 * 86400000 - JsDate.Day t * 86400000)
          with ((JsDate.Day now1 - JsDate.Day t) * 86400000) by lia;
        rewrite Z.div_mul by lia; reflexivity).
  replace ((JsDate.Day now2 * 86400000 - JsDate.Day t * 86400000) / 86400000)
    with (JsDate.Day now2 - JsDate.Day t)
    by (replace (JsDate.Day now2 * 86400000 - JsDate.Day t * 86400000)
          with ((JsDate.Day now2 - JsDate.Day t) * 86400000) by lia;
        rewrite Z.div_mul by lia; reflexivity).
  assert (Hd : JsDate.Day now1 <= JsDate.Day now2)
    by (apply Z.div_le_mono; [reflexivity|exact Hle]).
  set (d1 := JsDate.Day now1 - JsDate.Day t).
  set (d2 := JsDate.Day now2 - JsDate.Day t).
  assert (Hd12 : d1 <= d2) by (unfold d1, d2; lia).
  clearbody d1 d2.
  pose proof (statusOfDiffDays_monotone d1 d2 Hd12) as Hm.
  unfold statusOfDiffDays in Hm.
  destruct (d1 <? 0) eqn:E1; destruct (d2 <? 0) eqn:E2;
    cbn [NotificationList.days NotificationList.status];
    rewrite ?Z.ltb_lt, ?Z.ltb_ge in *.
  - split; [cbn; lia|]. exists 0, 0. repeat split. lia.
  - split.
    + thresholds d2; cbn; lia.
    + exists 0, d2. repeat split. exact E2.
  - lia.
  - split; [exact Hm|]. exists d1, d2. repeat split. exact Hd12.
Qed.

Lemma classifier_ages_with_time_witness :
  let engine := ReferenceEngine.engine 0 in
  let r1 := {| NotificationList.days := Some 95;
               NotificationList.status := gt90 |} in
  let r2 := {| NotificationList.days := Some 96;
               NotificationList.status := gt90 |} in
  severity (NotificationList.status r1) <= severity (NotificationList.status r2)
  /\
  exists d1 d2,
    NotificationList.days r1 = Some d1 /\ NotificationList.days r2 = Some d2 /\
    d1 <= d2.
Proof.
  apply (classifier_ages_with_time (engine := ReferenceEngine.engine 0)
           sampleNow (sampleNow + 86400000) "2024-03-12 08:00:00"
           (ReferenceEngine.utcMidnight 2024 3 12 + 8 * 3600000)).
  - reflexivity.
  - vm_compute. reflexivity.
  - vm_compute. reflexivity.
  - vm_compute. reflexivity.
  - vm_compute. reflexivity.
  - vm_compute. discriminate.
  - vm_compute. reflexivity.
  - vm_compute. reflexivity.
Defined.

(** * Parts without a creation date *)

(** X30. A part whose creation date does not parse is shown with [N/A] and
    dated 1 January 1970, so the part list hides it under every date
    range chosen after that day. *)
Theorem undated_parts_are_hidden_by_date_filter {engine : JsEngine}
  (timezoneOffset : Z) (apiItem : Api.ListItem)
  (allData : list ListPartItem.ListItem) (activeFilter searchTerm : string)
  (fromDate toDate : option Z) :
  ListPartItem.parseApiDateTime (Api.created_on apiItem) = None ->
  (exists x, fromDate = Some x \/ toDate = Some x) ->
  (forall x, fromDate = Some x \/ toDate = Some x ->
             twoDigitYear (JsDate.localTime timezoneOffset x) = false /\
             localDay timezoneOffset 0 < localDay timezoneOffset x) ->
  ListPartItem.partCreatedDateDisplay (ListPartItem.mapApiToState apiItem)
  = "N/A" /\
  ListPartItem.partCreatedDateObject (ListPartItem.mapApiToState apiItem) = 0 /\
  ~ In (ListPartItem.mapApiToState apiItem)
      (ListPartItem.applyFiltersAndSearch timezoneOffset allData activeFilter
         searchTerm fromDate toDate).
Proof.
  intros Hnone Hsome Hafter.
  assert (Hobj : ListPartItem.partCreatedDateObject
                   (ListPartItem.mapApiToState apiItem) = 0).
  { unfold ListPartItem.mapApiToState.
    cbn [ListPartItem.partCreatedDateObject]. rewrite Hnone. reflexivity. }
  split.
  { unfold ListPartItem.mapApiToState.
    cbn [ListPartItem.partCreatedDateDisplay]. rewrite Hnone. reflexivity. }
  split; [exact Hobj|].
  rewrite (parts_applyFiltersAndSearch_filter timezoneOffset allData
             activeFilter searchTerm fromDate toDate
             (fun x Hx => proj1 (Hafter x Hx))).
  intros Hin. apply filter_In in Hin as [_ Hkeep].
  apply andb_true_iff in Hkeep as [_ Hdate]. rewrite Hobj in Hdate.
  unfold matchesDates in Hdate.
  destruct fromDate as [f|]; destruct toDate as [t|].
  - pose proof (proj2 (Hafter f (or_introl eq_refl))) as Hf.
    apply andb_true_iff in Hdate as [H1 _]. apply Z.leb_le in H1. lia.
  - pose proof (proj2 (Hafter f (or_introl eq_refl))) as Hf.
    apply Z.eqb_eq in Hdate. lia.
  - pose proof (proj2 (Hafter t (or_intror eq_refl))) as Ht.
    apply Z.eqb_eq in Hdate. lia.
  - destruct Hsome as (x & [E | E]); discriminate E.
Qed.

Lemma undated_parts_are_hidden_by_date_filter_witness :
  let engine := ReferenceEngine.engine (-480) in
  let apiItem :=
    {| Api.part_id := "P9"; Api.part_number := "PN-P9";
       Api.quantity := AsString "4";
       Api.type_description := "Panel"; Api.status_description := "Approved";
       Api.updated_on := None;
       Api.created_by_user := Some "U7"; Api.approved_by_user := Present "U1";
       Api.approved_on := None;
       Api.type := Some "2"; Api.status := Some "1";
       Api.created_on := Some "0000-00-00 00:00:00" |} in
  ListPartItem.partCreatedDateDisplay (ListPartItem.mapApiToState apiItem)
  = "N/A" /\
  ListPartItem.partCreatedDateObject (ListPartItem.mapApiToState apiItem) = 0 /\
  ~ In (ListPartItem.mapApiToState apiItem)
      (ListPartItem.applyFiltersAndSearch (-480)
         [ListPartItem.mapApiToState apiItem; sampleListItem "P1" 5] "All" ""
         (Some (ReferenceEngine.utcMidnight 2024 3 1)) None).
Proof.
  apply (undated_parts_are_hidden_by_date_filter
           (engine := ReferenceEngine.engine (-480)) (-480)).
  - reflexivity.
  - eexists. left. reflexivity.
  - intros x [E | E]; [|discriminate E].
    apply Some_inj in E. subst x. split; vm_compute; reflexivity.
Defined.

(** * A run in a zone east of Greenwich *)

(** The part list parses the server's date without a zone, so as local
    time, and prints the UTC date: eight hours east of Greenwich a part
    created at 02:00 on 1 March is shown as created on 29 February. The
    notification list parses the same string as UTC and shows 1 March. *)
Example local_parse_utc_display_run :
  let engine := ReferenceEngine.engine (-480) in
  ListPartItem.formatDateForUIDisplay
    (ListPartItem.parseApiDateTime (Some "2024-03-01 02:00:00"))
  = "29/02/2024" /\
  NotificationList.formatDateForDisplay (Some "2024-03-01 02:00:00")
  = "01/03/2024".
Proof. vm_compute. split; reflexivity. Qed.
